(** * Terraform provider for TencentCloud: resource lifecycle operations

    A shallow embedding of the resource files of the provider
    (package [tencentcloud]) and the properties of their lifecycle
    operations: compound resource IDs, polling loops around describe
    calls, the retry discipline of the NAT gateway resource, schema
    validation and the EIP re-assignment of the NAT gateway update.

    Lifecycle operations are programs over a small effect signature
    (SDK client calls, service-layer calls, [time.Sleep] and
    [resource.Retry]); an interpreter runs them against an arbitrary
    model of the cloud and records the calls it issues.  Logging
    ([log.Printf], [logElapsed], [inconsistentCheck]) has no effect on
    the results and is left out. *)

From Stdlib Require Import String Ascii List ZArith Lia Bool.
From stdpp Require Import base gmap strings list pretty.

#[local] Open Scope string_scope.
#[local] Open Scope list_scope.
#[local] Set Warnings "-register-all".

(* ================================================================== *)
(** * Go strings: [strings.Split], [strings.Join], [strings.Contains] *)
(* ================================================================== *)

Module GoStrings.

(** Prepend one byte to the first piece of a split. *)
Definition push (c : ascii) (pieces : list string) : list string :=
  match pieces with
  | [] => [String c EmptyString]
  | p :: ps => String c p :: ps
  end.

(** Scan [s] for non-overlapping occurrences of a non-empty [sep], left
    to right.  [skip] counts the bytes of an occurrence just matched
    that are still to be dropped. *)
Fixpoint split_from (sep : string) (skip : nat) (s : string) : list string :=
  match s with
  | EmptyString => [EmptyString]
  | String c s' =>
      match skip with
      | S k => split_from sep k s'
      | O =>
          if String.prefix sep s
          then EmptyString :: split_from sep (String.length sep - 1) s'
          else push c (split_from sep 0 s')
      end
  end.

(** With an empty separator Go explodes the string into its UTF-8
    sequences; on the byte strings used here these are single bytes. *)
Fixpoint explode (s : string) : list string :=
  match s with
  | EmptyString => []
  | String c s' => String c EmptyString :: explode s'
  end.

(** [strings.Split(s, sep)] *)
Definition Split (s sep : string) : list string :=
  match sep with
  | EmptyString => explode s
  | _ => split_from sep 0 s
  end.

(** [strings.Join(elems, sep)] *)
Definition Join (elems : list string) (sep : string) : string :=
  String.concat sep elems.

(** [strings.Contains(s, substr)] *)
Fixpoint Contains (s substr : string) : bool :=
  String.prefix substr s
  || match s with
     | EmptyString => false
     | String _ s' => Contains s' substr
     end.

End GoStrings.

(* ================================================================== *)
(** * Errors and retry results                                        *)
(* ================================================================== *)

(** Go [error] values: errors of the cloud SDK carry a code, the others
    ([fmt.Errorf], [errors.New]) only a message. *)
Inductive error : Type :=
| TencentCloudSDKError (code message : string)
| Errorf (message : string).

(** [e.GetCode()] after the type assertion
    to the SDK error type. *)
Definition GetCode (e : error) : option string :=
  match e with
  | TencentCloudSDKError code _ => Some code
  | Errorf _ => None
  end.

(** [*resource.RetryError]; the nil pointer is [None] of
    [option RetryError]. *)
Inductive RetryError : Type :=
| RetryableError (e : error)
| NonRetryableError (e : error).

(** The timeouts handed to [resource.Retry].  Their durations are
    declared outside these files. *)
Inductive Timeout : Type :=
| readRetryTimeout
| writeRetryTimeout
| TimesTimeout (n : Z) (t : Timeout).

(** [uint64(x)] for a Go [int]. *)
Definition uint64 (x : Z) : Z := x mod 2 ^ 64.

(* ================================================================== *)
(** * Attribute values and [schema.ResourceData]                       *)
(* ================================================================== *)

(** Values of schema attributes ([interface{}] after the reader). *)
Inductive Value : Type :=
| VInt (z : Z)
| VStr (s : string)
| VBool (b : bool)
| VList (l : list Value)
| VSet (l : list Value)
| VMap (m : list (string * Value)).

Definition list_eqb_by {A B} (f : A -> B -> bool) : list A -> list B -> bool :=
  fix go l1 l2 :=
    match l1, l2 with
    | [], [] => true
    | x :: l1', y :: l2' => f x y && go l1' l2'
    | _, _ => false
    end.

Definition included_by {A B} (f : A -> B -> bool) (l1 : list A) (l2 : list B) : bool :=
  forallb (fun x => existsb (f x) l2) l1.

(** Equality of attribute values: lists in order, sets and maps up to
    order ([Set.Equal], [reflect.DeepEqual] on maps). *)
Fixpoint value_eqb (v1 v2 : Value) {struct v1} : bool :=
  match v1, v2 with
  | VInt a, VInt b => Z.eqb a b
  | VStr a, VStr b => String.eqb a b
  | VBool a, VBool b => Bool.eqb a b
  | VList l1, VList l2 => list_eqb_by value_eqb l1 l2
  | VSet l1, VSet l2 =>
      included_by value_eqb l1 l2
      && forallb (fun y => existsb (fun x => value_eqb x y) l1) l2
  | VMap m1, VMap m2 =>
      included_by (fun p q => String.eqb (fst p) (fst q) && value_eqb (snd p) (snd q)) m1 m2
      && forallb (fun q => existsb (fun p => String.eqb (fst p) (fst q)
                                             && value_eqb (snd p) (snd q)) m1) m2
  | _, _ => false
  end.

(** The zero values of the schema types. *)
Definition is_zero (v : Value) : bool :=
  match v with
  | VInt z => Z.eqb z 0
  | VStr s => String.eqb s EmptyString
  | VBool b => negb b
  | VList l | VSet l => match l with [] => true | _ => false end
  | VMap m => match m with [] => true | _ => false end
  end.

(** [schema.ResourceData]: the resource ID, the prior state and the
    merged view the getters read.  An attribute absent from a map reads
    as the zero value of its type. *)
Record ResourceData : Type := mkResourceData {
  rd_id : string;
  rd_state : gmap string Value;
  rd_attrs : gmap string Value;
}.

(** [d.Id()] *)
Definition Id (d : ResourceData) : string := rd_id d.

(** [d.SetId(id)] *)
Definition SetId (id : string) (d : ResourceData) : ResourceData :=
  mkResourceData id (rd_state d) (rd_attrs d).

(** [d.Set(key, value)] *)
Definition Set_ (key : string) (v : Value) (d : ResourceData) : ResourceData :=
  mkResourceData (rd_id d) (rd_state d) (<[key := v]> (rd_attrs d)).

(** [d.Set(key, ptr)] guarded by [ptr != nil]. *)
Definition SetIfNotNil (key : string) (v : option Value) (d : ResourceData) : ResourceData :=
  match v with
  | Some x => Set_ key x d
  | None => d
  end.

(** [d.GetOkExists(key)] *)
Definition GetOkExists (d : ResourceData) (key : string) : option Value :=
  rd_attrs d !! key.

(** [d.GetOk(key)]: set and not the zero value. *)
Definition GetOk (d : ResourceData) (key : string) : option Value :=
  match rd_attrs d !! key with
  | Some v => if is_zero v then None else Some v
  | None => None
  end.

(** The type assertions [v.(string)], [v.(int)], [v.(bool)] on a read
    value, with the zero value for an attribute that is not set. *)
Definition asString (v : option Value) : string :=
  match v with Some (VStr s) => s | _ => EmptyString end.

Definition asInt (v : option Value) : Z :=
  match v with Some (VInt z) => z | _ => 0%Z end.

Definition asBool (v : option Value) : bool :=
  match v with Some (VBool b) => b | _ => false end.

(** The elements of a set ([Set.List()]) or of a list read from [d] *)
Definition asList (v : option Value) : list Value :=
  match v with Some (VSet l) | Some (VList l) => l | _ => [] end.

(** The strings of a list of values, [x.(string)] on each element. *)
Definition strings_of (l : list Value) : list string :=
  map (fun v => asString (Some v)) l.

Definition ints_of (l : list Value) : list Z :=
  map (fun v => asInt (Some v)) l.

(** [d.Get(key)] *)
Definition Get (d : ResourceData) (key : string) : option Value :=
  rd_attrs d !! key.

(** [d.GetChange(key)] *)
Definition GetChange (d : ResourceData) (key : string) : option Value * option Value :=
  (rd_state d !! key, rd_attrs d !! key).

(** [d.HasChange(key)]: the old and the new reading differ. *)
Definition HasChange (d : ResourceData) (key : string) : bool :=
  match rd_state d !! key, rd_attrs d !! key with
  | None, None => false
  | Some a, Some b => negb (value_eqb a b)
  | Some a, None | None, Some a => negb (is_zero a)
  end.

(** [helper.GetTags(d, key)]: the tag map of the resource. *)
Definition tags_of (v : option Value) : gmap string string :=
  match v with
  | Some (VMap m) => list_to_map (map (fun p => (fst p, asString (Some (snd p)))) m)
  | _ => ∅
  end.

Definition GetTags (d : ResourceData) (key : string) : gmap string string :=
  tags_of (Get d key).

(** Modelled from the spec: [diffTags] is declared outside these files;
    the spec names it "diffing tag maps": the tags to write are those of
    the new map that the old map does not hold with the same value, the
    keys to delete those of the old map absent from the new one. *)
Definition diffTags (oldTags newTags : gmap string string)
  : gmap string string * list string :=
  (filter (fun kv => oldTags !! fst kv ≠ Some (snd kv)) newTags,
   filter (fun k => newTags !! k = None) (map fst (map_to_list oldTags))).

(* ================================================================== *)
(** * The cloud API                                                    *)
(* ================================================================== *)

(** Requests and responses of the SDK, with the fields the resource
    files use.  Pointer fields that the files dereference without a nil
    check are plain values; fields they test against nil are options. *)

Record CreateNatGatewayRequest : Type := {
  cng_VpcId : string;
  cng_NatGatewayName : string;
  cng_InternetMaxBandwidthOut : Z;
  cng_MaxConcurrentConnection : Z;
  cng_PublicIpAddresses : list string;
  cng_Zone : option string;
  cng_Tags : list (string * string);
}.

Record NatGatewayAddress : Type := { PublicIpAddress : string }.

Record NatGateway : Type := {
  NatGatewayId : string;
  NatGatewayName : string;
  VpcId : string;
  MaxConcurrentConnection : Z;
  InternetMaxBandwidthOut : Z;
  CreatedTime : string;
  PublicIpAddressSet : list NatGatewayAddress;
  Zone : string;
  State : string;
}.

Record ModifyNatGatewayAttributeRequest : Type := {
  mng_NatGatewayId : string;
  mng_NatGatewayName : option string;
  mng_InternetMaxBandwidthOut : option Z;
}.

Record PrometheusAgent : Type := {
  pa_InstanceId : option string;
  pa_Name : option string;
  pa_AgentId : option string;
}.

Record EnvironmentRole : Type := {
  er_EnvironmentId : string;
  er_RoleName : string;
  er_Permissions : list string;
  er_CreateTime : string;
}.

Record RetryConfig : Type := { RetryNum : option Z }.

(** [atc_RetryConfig] is a slice the files test against nil: [None] is
    the nil slice. *)
Record AsyncTriggerConfig : Type := {
  atc_RetryConfig : option (list RetryConfig);
  atc_MsgTTL : option Z;
}.

Record UpdateFunctionEventInvokeConfigRequest : Type := {
  ufe_Namespace : string;
  ufe_FunctionName : string;
  ufe_AsyncTriggerConfig : option AsyncTriggerConfig;
}.

Record ModifyRuleTemplateRequest : Type := {
  mrt_TemplateId : option Z;
  mrt_Type : option Z;
  mrt_Name : option string;
  mrt_QualityDim : option Z;
  mrt_SourceObjectType : option Z;
  mrt_Description : option string;
  mrt_SourceEngineTypes : list Z;
  mrt_MultiSourceFlag : option bool;
  mrt_SqlExpression : option string;
  mrt_ProjectId : option string;
  mrt_WhereFlag : option bool;
}.

Record RuleTemplate : Type := {
  rt_Type : option Z;
  rt_Name : option string;
  rt_QualityDim : option Z;
  rt_SourceObjectType : option Z;
  rt_Description : option string;
  rt_SourceEngineTypes : option (list Z);
  rt_MultiSourceFlag : option bool;
  rt_SqlExpression : option string;
  rt_WhereFlag : option bool;
}.

Record CreateRuleTemplateRequest : Type := {
  crt_Type : option Z;
  crt_Name : option string;
  crt_QualityDim : option Z;
  crt_SourceObjectType : option Z;
  crt_Description : option string;
  crt_SourceEngineTypes : list Z;
  crt_MultiSourceFlag : option bool;
  crt_SqlExpression : option string;
  crt_ProjectId : option string;
  crt_WhereFlag : option bool;
}.

Record CreateRabbitMQUserRequest : Type := {
  cru_InstanceId : option string;
  cru_User : option string;
  cru_Password : option string;
  cru_Description : option string;
  cru_Tags : list string;
  cru_MaxConnections : option Z;
  cru_MaxChannels : option Z;
}.

Record ModifyRabbitMQUserRequest : Type := {
  mru_InstanceId : option string;
  mru_User : option string;
  mru_Password : option string;
  mru_Description : option string;
  mru_MaxConnections : option Z;
  mru_MaxChannels : option Z;
}.

Record RabbitMQUser : Type := {
  ru_InstanceId : option string;
  ru_User : option string;
  ru_Password : option string;
  ru_Description : option string;
  ru_Tags : option (list string);
}.

Record ClusterInstancesInfo : Type := {
  ci_Status : Z;
  ci_MetaDb : option string;
}.

Record ScaleOutInstanceRequest : Type := {
  so_TimeUnit : string;
  so_TimeSpan : Z;
  so_PayMode : Z;
  so_InstanceId : string;
  so_MasterCount : option Z;
  so_TaskCount : option Z;
  so_CoreCount : option Z;
}.

(** The result of [BuildTagResourceName(serviceType, resourceType,
    region, id)], kept as its four arguments; the function is declared
    outside these files. *)
Inductive ResourceName : Type :=
| BuildTagResourceName (serviceType resourceType region id : string)
| ResourceNameOf (qcs : string).

(** Calls on the SDK clients ([UseVpcClient()], [UseMonitorClient()],
    [UseWedataClient()], [UseScfClient()], [UseTdmqClient()]), indexed by
    what they return. *)
Inductive Sdk : Type -> Type :=
| CreateNatGateway (request : CreateNatGatewayRequest)
  : Sdk (error + list NatGateway)
| DescribeNatGateways (NatGatewayIds : list string)
  : Sdk (error + list NatGateway)
| ModifyNatGatewayAttribute (request : ModifyNatGatewayAttributeRequest)
  : Sdk (option error)
| ResetNatGatewayConnection (natGatewayId : string) (maxConcurrent : Z)
  : Sdk (option error)
| AssociateNatGatewayAddress (natGatewayId : string) (PublicIpAddresses : list string)
  : Sdk (option error)
| DeleteNatGateway (natGatewayId : string)
  : Sdk (option error)
| CreatePrometheusAgent (InstanceId NameOfAgent : option string)
  : Sdk (error + string)
| CreateRuleTemplate (request : CreateRuleTemplateRequest)
  : Sdk (error + Z)
| ModifyRuleTemplate (request : ModifyRuleTemplateRequest)
  : Sdk (option error)
| CreateRabbitMQUser (request : CreateRabbitMQUserRequest)
  : Sdk (error + string)
| ModifyRabbitMQUser (request : ModifyRabbitMQUserRequest)
  : Sdk (option error)
| UpdateFunctionEventInvokeConfig (request : UpdateFunctionEventInvokeConfigRequest)
  : Sdk (option error).

(** Methods of the service layer ([TagService], [VpcService],
    [MonitorService], [TdmqService], [ScfService], [WedataService],
    [EMRService], [MysqlService]); their code is outside these files. *)
Inductive Service : Type -> Type :=
| TagService_ModifyTags (resourceName : ResourceName)
    (replaceTags : gmap string string) (deleteKeys : list string)
  : Service (option error)
| TagService_DescribeResourceTags (serviceType resourceType region resourceId : string)
  : Service (error + gmap string string)
| VpcService_DisassociateNatGatewayAddress (natGatewayId : string)
    (PublicIpAddresses : list string)
  : Service (option error)
| MonitorService_DescribeMonitorTmpCvmAgent (instanceId agentId : string)
  : Service (error + option PrometheusAgent)
| TdmqService_CreateTdmqNamespaceRoleAttachment
    (environId roleName : string) (permissions : list string) (clusterId : string)
  : Service (option error)
| TdmqService_DescribeTdmqNamespaceRoleAttachment (environId roleName clusterId : string)
  : Service (error + option EnvironmentRole)
| TdmqService_ModifyTdmqNamespaceRoleAttachment
    (environId roleName : string) (permissions : list string) (clusterId : string)
  : Service (option error)
| TdmqService_DeleteTdmqNamespaceRoleAttachment (environId roleName clusterId : string)
  : Service (option error)
| ScfService_DescribeScfFunctionEventInvokeConfigById (namespace functionName : string)
  : Service (error + option AsyncTriggerConfig)
| TdmqService_DescribeTdmqRabbitmqUserById (instanceId user : string)
  : Service (error + option RabbitMQUser)
| TdmqService_DeleteTdmqRabbitmqUserById (instanceId user : string)
  : Service (option error)
| WedataService_DescribeWedataRuleTemplateById (ruleTemplateId : string)
  : Service (error + option RuleTemplate)
| WedataService_DeleteWedataRuleTemplateById (ruleTemplateId : string)
  : Service (option error)
| EMRService_CreateInstance (d : ResourceData)
  : Service (error + string)
| EMRService_DescribeInstancesById (instanceId displayStrategy : string)
  : Service (list ClusterInstancesInfo * option error)
| EMRService_UpdateInstance (request : ScaleOutInstanceRequest)
  : Service (option error)
| EMRService_DeleteInstance (d : ResourceData)
  : Service (option error)
| MysqlService_OfflineIsolatedInstances (metaDB : string)
  : Service (option error).

(** [meta.(TencentCloudClient).apiV3Conn] *)
Record Meta : Type := { Region : string }.

(** [schema.ValueType] *)
Inductive ValueType : Type :=
| TypeBool | TypeInt | TypeString | TypeList | TypeSet | TypeMap.

(** [schema.Schema], without its description.  [Elem] is either the
    schema of the elements or the fields of a nested resource.  A
    [ValidateFunc] answers whether it reports no error. *)
Inductive Schema : Type := mkSchema {
  Type_ : ValueType;
  Required : bool;
  Optional : bool;
  Computed : bool;
  ForceNew : bool;
  Sensitive : bool;
  Default : option Value;
  ValidateFunc : option (Value -> bool);
  Elem : option (Schema + list (string * Schema));
  MinItems : nat;
  MaxItems : nat;
}.

(** A schema literal with only its [Type] set, and the other fields of
    a literal. *)
Definition ofType (t : ValueType) : Schema :=
  mkSchema t false false false false false None None None 0 0.

Definition required (s : Schema) : Schema :=
  mkSchema (Type_ s) true (Optional s) (Computed s) (ForceNew s) (Sensitive s)
    (Default s) (ValidateFunc s) (Elem s) (MinItems s) (MaxItems s).
Definition optional (s : Schema) : Schema :=
  mkSchema (Type_ s) (Required s) true (Computed s) (ForceNew s) (Sensitive s)
    (Default s) (ValidateFunc s) (Elem s) (MinItems s) (MaxItems s).
Definition computed (s : Schema) : Schema :=
  mkSchema (Type_ s) (Required s) (Optional s) true (ForceNew s) (Sensitive s)
    (Default s) (ValidateFunc s) (Elem s) (MinItems s) (MaxItems s).
Definition forceNew (s : Schema) : Schema :=
  mkSchema (Type_ s) (Required s) (Optional s) (Computed s) true (Sensitive s)
    (Default s) (ValidateFunc s) (Elem s) (MinItems s) (MaxItems s).
Definition sensitive (s : Schema) : Schema :=
  mkSchema (Type_ s) (Required s) (Optional s) (Computed s) (ForceNew s) true
    (Default s) (ValidateFunc s) (Elem s) (MinItems s) (MaxItems s).
Definition withDefault (v : Value) (s : Schema) : Schema :=
  mkSchema (Type_ s) (Required s) (Optional s) (Computed s) (ForceNew s) (Sensitive s)
    (Some v) (ValidateFunc s) (Elem s) (MinItems s) (MaxItems s).
Definition validateFunc (f : Value -> bool) (s : Schema) : Schema :=
  mkSchema (Type_ s) (Required s) (Optional s) (Computed s) (ForceNew s) (Sensitive s)
    (Default s) (Some f) (Elem s) (MinItems s) (MaxItems s).
Definition elemSchema (e : Schema) (s : Schema) : Schema :=
  mkSchema (Type_ s) (Required s) (Optional s) (Computed s) (ForceNew s) (Sensitive s)
    (Default s) (ValidateFunc s) (Some (inl e)) (MinItems s) (MaxItems s).
Definition elemResource (fields : list (string * Schema)) (s : Schema) : Schema :=
  mkSchema (Type_ s) (Required s) (Optional s) (Computed s) (ForceNew s) (Sensitive s)
    (Default s) (ValidateFunc s) (Some (inr fields)) (MinItems s) (MaxItems s).
Definition minItems (n : nat) (s : Schema) : Schema :=
  mkSchema (Type_ s) (Required s) (Optional s) (Computed s) (ForceNew s) (Sensitive s)
    (Default s) (ValidateFunc s) (Elem s) n (MaxItems s).
Definition maxItems (n : nat) (s : Schema) : Schema :=
  mkSchema (Type_ s) (Required s) (Optional s) (Computed s) (ForceNew s) (Sensitive s)
    (Default s) (ValidateFunc s) (Elem s) (MinItems s) n.

(** Package-level declarations the resource files use and that are
    declared in other files of the package. *)
Record Package : Type := {
  retryError : error -> list string -> RetryError;
  InternalError : string;
  VPCNotFound : string;
  NAT_FAILED_STATE : string;
  NAT_EIP_MAX_LIMIT : Z;
  EmrInternetStatusCreated : Z;
  EmrInternetStatusDeleted : Z;
  DisplayStrategyIsclusterList : string;
  EMR_MASTER_WAN_TYPE_NEED_MASTER_WAN : string;
  EMR_MASTER_WAN_TYPES : list string;
  buildResourceSpecSchema : Schema;
  StrToUint64Point : string -> option Z;
  UInt64ToStr : Z -> string;
  validateIp : Value -> bool;
}.

(** The separator of compound IDs.  Its declaration is outside these
    files; the import documentation of the resource files spells
    compound IDs [instance_id#agent_id] and [function_name#namespace]. *)
Definition FILED_SP : string := "#".

(* ================================================================== *)
(** * Programs                                                         *)
(* ================================================================== *)

(** A lifecycle operation is a tree of effects.  [Retry timeout f s k]
    is [resource.Retry(timeout, f)]: [s] holds the variables the
    closure [f] captures and assigns, and [k] receives their final
    values with the error [Retry] returns.  [Panic] is a run-time panic
    (an index out of range). *)
Inductive Prog (A : Type) : Type :=
| Ret (a : A)
| Panic (message : string)
| SdkCall {R : Type} (c : Sdk R) (k : R -> Prog A)
| ServiceCall {R : Type} (c : Service R) (k : R -> Prog A)
| Sleep (seconds : Z) (k : Prog A)
| Retry {St : Type} (timeout : Timeout)
    (f : St -> Prog (St * option RetryError)) (s : St)
    (k : St * option error -> Prog A).

Arguments Ret {A} a.
Arguments Panic {A} message.
Arguments SdkCall {A R} c k.
Arguments ServiceCall {A R} c k.
Arguments Sleep {A} seconds k.
Arguments Retry {A St} timeout f s k.

Fixpoint bind {A B : Type} (p : Prog A) (g : A -> Prog B) : Prog B :=
  match p with
  | Ret a => g a
  | Panic m => Panic m
  | SdkCall c k => SdkCall c (fun r => bind (k r) g)
  | ServiceCall c k => ServiceCall c (fun r => bind (k r) g)
  | Sleep n k => Sleep n (bind k g)
  | Retry t f s k => Retry t f s (fun r => bind (k r) g)
  end.

Declare Scope prog_scope.
Delimit Scope prog_scope with prog.
Notation "x <- p ;; q" := (bind p (fun x => q))
  (at level 100, p at next level, right associativity) : prog_scope.
#[local] Open Scope prog_scope.

Definition sdk_call {R} (c : Sdk R) : Prog R := SdkCall c Ret.
Definition service_call {R} (c : Service R) : Prog R := ServiceCall c Ret.
Definition sleep (seconds : Z) : Prog unit := Sleep seconds (Ret tt).
Definition retry {St} (t : Timeout) (f : St -> Prog (St * option RetryError)) (s : St)
  : Prog (St * option error) := Retry t f s Ret.

(** What a lifecycle operation leaves: the resource data and the error
    it returns ([None] is nil). *)
Abbreviation Result := (ResourceData * option error)%type.

(* ================================================================== *)
(** * Running a program against a model of the cloud                   *)
(* ================================================================== *)

(** What a run records. *)
Inductive Event : Type :=
| EvSdk {R : Type} (inRetry : option Timeout) (c : Sdk R) (r : R)
| EvService {R : Type} (inRetry : option Timeout) (c : Service R) (r : R)
| EvSleep (seconds : Z)
| EvRetryEnd (t : Timeout) (result : option error).

(** A model of the cloud: how calls answer and change the world, and
    how many more attempts of its closure, after the first, a [Retry]
    has time for before its timeout. *)
Record Cloud : Type := {
  World : Type;
  sdk : forall R, Sdk R -> World -> R * World;
  service : forall R, Service R -> World -> R * World;
  retries : Timeout -> nat;
}.

(** The error [resource.Retry] returns when the timeout passes before
    the closure set an error. *)
Definition timeoutError : error := Errorf "timeout while waiting for state to become 'success'".

Section Run.
Variable C : Cloud.

(** The loop of [resource.Retry] with [n] attempts left: run the
    closure until it returns nil or a non-retryable error; when the
    attempts are used up return the last error. *)
Fixpoint retry_loop {St : Type} (n : nat)
    (f : St -> World C -> option (St * option RetryError) * World C * list Event)
    (last : error) (s : St) (w : World C)
  : option (St * option error) * World C * list Event :=
  match n with
  | O => (Some (s, Some last), w, [])
  | S n' =>
      match f s w with
      | (None, w', tr) => (None, w', tr)
      | (Some (s', None), w', tr) => (Some (s', None), w', tr)
      | (Some (s', Some (NonRetryableError e)), w', tr) => (Some (s', Some e), w', tr)
      | (Some (s', Some (RetryableError e)), w', tr) =>
          let '(r, w'', tr') := retry_loop n' f e s' w' in
          (r, w'', tr ++ tr')
      end
  end.

(** [run inRetry p w]: the result of [p] ([None] after a panic), the
    world it leaves and the events in the order they happen.  The
    closure of a [Retry] runs at least once. *)
Fixpoint run {A : Type} (inRetry : option Timeout) (p : Prog A) {struct p}
  : World C -> option A * World C * list Event :=
  match p with
  | Ret a => fun w => (Some a, w, [])
  | Panic _ => fun w => (None, w, [])
  | SdkCall c k => fun w =>
      let (r, w') := sdk C _ c w in
      let '(a, w'', tr) := run inRetry (k r) w' in
      (a, w'', EvSdk inRetry c r :: tr)
  | ServiceCall c k => fun w =>
      let (r, w') := service C _ c w in
      let '(a, w'', tr) := run inRetry (k r) w' in
      (a, w'', EvService inRetry c r :: tr)
  | Sleep n k => fun w =>
      let '(a, w', tr) := run inRetry k w in
      (a, w', EvSleep n :: tr)
  | Retry t f s k => fun w =>
      match retry_loop (S (retries C t)) (fun s0 => run (Some t) (f s0)) timeoutError s w with
      | (None, w', tr) => (None, w', tr)
      | (Some (s', oe), w', tr) =>
          let '(a, w'', tr') := run inRetry (k (s', oe)) w' in
          (a, w'', tr ++ EvRetryEnd t oe :: tr')
      end
  end.
End Run.

Arguments retry_loop C {St} n f last s w.
Arguments run C {A} inRetry p w.

(** A block of statements that either falls through or leaves the
    operation with [return err]: [orReturn d blk rest] runs [blk] and
    returns its error, if any, to the caller of the operation. *)
Definition orReturn (d : ResourceData) (blk : Prog (option error)) (rest : Prog Result)
  : Prog Result :=
  e <- blk ;;
  match e with
  | Some err => Ret (d, Some err)
  | None => rest
  end.

Definition isSet (v : option Value) : bool :=
  match v with Some _ => true | None => false end.

Definition isSome {A} (o : option A) : bool :=
  match o with Some _ => true | None => false end.

(** [m[key]] on a nested map. *)
Fixpoint assoc (key : string) (m : list (string * Value)) : option Value :=
  match m with
  | [] => None
  | (k, v) :: m' => if String.eqb k key then Some v else assoc key m'
  end.

(** The first immutable argument that has changed, as the loop
    [for _, v := range immutableArgs { if d.HasChange(v) { return ... } }]
    finds it. *)
Definition firstChanged (d : ResourceData) (immutableArgs : list string) : option string :=
  List.find (HasChange d) immutableArgs.

Definition cannotBeChanged (v : string) : error :=
  Errorf ("argument `" +:+ v +:+ "` cannot be changed").

(* ================================================================== *)
(** * resource_tc_monitor_tmp_cvm_agent.go                             *)
(* ================================================================== *)

(** [resourceTencentCloudMonitorTmpCvmAgentRead] *)
Definition resourceTencentCloudMonitorTmpCvmAgentRead
    (pkg : Package) (d : ResourceData) (meta : Meta) : Prog Result :=
  match GoStrings.Split (Id d) FILED_SP with
  | [id0; id1] =>
      r <- service_call (MonitorService_DescribeMonitorTmpCvmAgent id0 id1) ;;
      match r with
      | inl err => Ret (d, Some err)
      | inr None =>
          Ret (SetId EmptyString d,
               Some (Errorf ("resource `tmpCvmAgent` " +:+ id1 +:+ " does not exist")))
      | inr (Some tmpCvmAgent) =>
          let d := SetIfNotNil "instance_id" (VStr <$> pa_InstanceId tmpCvmAgent) d in
          let d := SetIfNotNil "name" (VStr <$> pa_Name tmpCvmAgent) d in
          let d := SetIfNotNil "agent_id" (VStr <$> pa_AgentId tmpCvmAgent) d in
          Ret (d, None)
      end
  | _ => Ret (d, Some (Errorf ("id is broken, id is " +:+ Id d)))
  end.

(** [resourceTencentCloudMonitorTmpCvmAgentCreate] *)
Definition resourceTencentCloudMonitorTmpCvmAgentCreate
    (pkg : Package) (d : ResourceData) (meta : Meta) : Prog Result :=
  let instanceId := asString (GetOk d "instance_id") in
  let request_InstanceId := (fun _ => instanceId) <$> GetOk d "instance_id" in
  let request_Name := (fun v => asString (Some v)) <$> GetOk d "name" in
  r <- retry writeRetryTimeout
         (fun response : option string =>
            res <- sdk_call (CreatePrometheusAgent request_InstanceId request_Name) ;;
            match res with
            | inl e => Ret (response, Some (retryError pkg e []))
            | inr result => Ret (Some result, None)
            end) None ;;
  match snd r, fst r with
  | Some err, _ => Ret (d, Some err)
  | None, None => Panic "invalid memory address or nil pointer dereference"
  | None, Some tmpCvmAgentId =>
      let d := SetId (GoStrings.Join [instanceId; tmpCvmAgentId] FILED_SP) d in
      resourceTencentCloudMonitorTmpCvmAgentRead pkg d meta
  end.

(** [resourceTencentCloudMonitorTmpCvmAgentDelete] *)
Definition resourceTencentCloudMonitorTmpCvmAgentDelete
    (pkg : Package) (d : ResourceData) (meta : Meta) : Prog Result :=
  Ret (d, None).

(* ================================================================== *)
(** * tdmq namespace role attachment                                   *)
(* ================================================================== *)

(** [resourceTencentCloudTdmqNamespaceRoleAttachmentRead] *)
Definition resourceTencentCloudTdmqNamespaceRoleAttachmentRead
    (pkg : Package) (d : ResourceData) (meta : Meta) : Prog Result :=
  match GoStrings.Split (Id d) FILED_SP with
  | [environId; roleName] =>
      let clusterId := asString (Get d "cluster_id") in
      r <- retry readRetryTimeout
             (fun d : ResourceData =>
                res <- service_call
                         (TdmqService_DescribeTdmqNamespaceRoleAttachment
                            environId roleName clusterId) ;;
                match res with
                | inl e => Ret (d, Some (retryError pkg e []))
                | inr None => Ret (SetId EmptyString d, None)
                | inr (Some info) =>
                    let d := Set_ "environ_id" (VStr (er_EnvironmentId info)) d in
                    let d := Set_ "role_name" (VStr (er_RoleName info)) d in
                    let d := Set_ "permissions" (VList (VStr <$> er_Permissions info)) d in
                    let d := Set_ "create_time" (VStr (er_CreateTime info)) d in
                    Ret (d, None)
                end) d ;;
      match r with
      | (d, Some err) => Ret (d, Some err)
      | (d, None) => Ret (d, None)
      end
  | _ => Ret (d, Some (Errorf ("environment role id is borken, id is " +:+ Id d)))
  end.

(** [resourceTencentCloudTdmqNamespaceRoleAttachmentCreate] *)
Definition resourceTencentCloudTdmqNamespaceRoleAttachmentCreate
    (pkg : Package) (d : ResourceData) (meta : Meta) : Prog Result :=
  let environId := asString (GetOk d "environ_id") in
  if isSet (GetOk d "environ_id") && (String.length environId <? 1)%nat
  then Ret (d, Some (Errorf "environ_id should be not empty string")) else
  let roleName := asString (GetOk d "role_name") in
  if isSet (GetOk d "role_name") && (String.length roleName <? 1)%nat
  then Ret (d, Some (Errorf "role_name should be not empty string")) else
  let permissions := strings_of (asList (GetOk d "permissions")) in
  let clusterId := asString (GetOk d "cluster_id") in
  if isSet (GetOk d "cluster_id") && (String.length clusterId <? 1)%nat
  then Ret (d, Some (Errorf "cluster_id should be not empty string")) else
  orReturn d
    (service_call (TdmqService_CreateTdmqNamespaceRoleAttachment
                     environId roleName permissions clusterId))
    (let d := SetId (environId +:+ FILED_SP +:+ roleName) d in
     resourceTencentCloudTdmqNamespaceRoleAttachmentRead pkg d meta).

(** [resourceTencentCloudTdmqNamespaceRoleAttachmentUpdate] *)
Definition resourceTencentCloudTdmqNamespaceRoleAttachmentUpdate
    (pkg : Package) (d : ResourceData) (meta : Meta) : Prog Result :=
  match GoStrings.Split (Id d) FILED_SP with
  | [environId; roleName] =>
      let clusterId := asString (Get d "cluster_id") in
      let '(old, now) := GetChange d "permissions" in
      let permissions :=
        if HasChange d "permissions"
        then strings_of (asList now)
        else strings_of (asList old) in
      orReturn d
        (service_call (TdmqService_ModifyTdmqNamespaceRoleAttachment
                         environId roleName permissions clusterId))
        (resourceTencentCloudTdmqNamespaceRoleAttachmentRead pkg d meta)
  | _ => Ret (d, Some (Errorf ("environment role id is borken, id is " +:+ Id d)))
  end.

(** [resourceTencentCloudTdmqNamespaceRoleAttachmentDelete] *)
Definition resourceTencentCloudTdmqNamespaceRoleAttachmentDelete
    (pkg : Package) (d : ResourceData) (meta : Meta) : Prog Result :=
  match GoStrings.Split (Id d) FILED_SP with
  | [environId; roleName] =>
      let clusterId := asString (Get d "cluster_id") in
      r <- retry writeRetryTimeout
             (fun _ : unit =>
                res <- service_call
                         (TdmqService_DeleteTdmqNamespaceRoleAttachment
                            environId roleName clusterId) ;;
                match res with
                | Some err =>
                    match err with
                    | TencentCloudSDKError code _ =>
                        if String.eqb code (VPCNotFound pkg)
                        then Ret (tt, None)
                        else Ret (tt, Some (RetryableError err))
                    | Errorf _ => Ret (tt, Some (RetryableError err))
                    end
                | None => Ret (tt, None)
                end) tt ;;
      Ret (d, snd r)
  | _ => Ret (d, Some (Errorf ("environment role id is borken, id is " +:+ Id d)))
  end.

(* ================================================================== *)
(** * resource_tc_scf_function_event_invoke_config.go                  *)
(* ================================================================== *)

(** [resourceTencentCloudScfFunctionEventInvokeConfigRead] *)
Definition resourceTencentCloudScfFunctionEventInvokeConfigRead
    (pkg : Package) (d : ResourceData) (meta : Meta) : Prog Result :=
  match GoStrings.Split (Id d) FILED_SP with
  | [functionName; namespace] =>
      r <- service_call
             (ScfService_DescribeScfFunctionEventInvokeConfigById namespace functionName) ;;
      match r with
      | inl err => Ret (d, Some err)
      | inr None => Ret (SetId EmptyString d, None)
      | inr (Some FunctionEventInvokeConfig) =>
          let retryConfigList (l : list RetryConfig) :=
            map (fun retryConfig =>
                   VMap (match RetryNum retryConfig with
                         | Some n => [("retry_num", VInt n)]
                         | None => []
                         end)) l in
          let asyncTriggerConfigMap :=
            (match atc_RetryConfig FunctionEventInvokeConfig with
             | Some l => [("retry_config", VList (retryConfigList l))]
             | None => []
             end)
            ++ (match atc_MsgTTL FunctionEventInvokeConfig with
                | Some ttl => [("msg_ttl", VInt ttl)]
                | None => []
                end) in
          let d := Set_ "async_trigger_config" (VList [VMap asyncTriggerConfigMap]) d in
          let d := Set_ "function_name" (VStr functionName) d in
          let d := Set_ "namespace" (VStr namespace) d in
          Ret (d, None)
      end
  | _ => Ret (d, Some (Errorf ("id is broken," +:+ Id d)))
  end.

(** [resourceTencentCloudScfFunctionEventInvokeConfigUpdate] *)
Definition resourceTencentCloudScfFunctionEventInvokeConfigUpdate
    (pkg : Package) (d : ResourceData) (meta : Meta) : Prog Result :=
  match GoStrings.Split (Id d) FILED_SP with
  | [functionName; namespace] =>
      (* helper.InterfacesHeadMap(d, "async_trigger_config"): the first
         element of the list, when it is set and is a map *)
      let asyncTriggerConfig :=
        match asList (GetOk d "async_trigger_config") with
        | VMap dMap :: _ =>
            Some {| atc_RetryConfig :=
                      match
                        map (fun item =>
                               match item with
                               | VMap retryConfigMap =>
                                   {| RetryNum := (fun v => asInt (Some v))
                                                    <$> assoc "retry_num" retryConfigMap |}
                               | _ => {| RetryNum := None |}
                               end)
                            (asList (assoc "retry_config" dMap))
                      with
                      | [] => None
                      | l => Some l
                      end;
                    atc_MsgTTL := (fun v => asInt (Some v)) <$> assoc "msg_ttl" dMap |}
        | _ => None
        end in
      let request :=
        {| ufe_Namespace := namespace;
           ufe_FunctionName := functionName;
           ufe_AsyncTriggerConfig := asyncTriggerConfig |} in
      r <- retry writeRetryTimeout
             (fun _ : unit =>
                e <- sdk_call (UpdateFunctionEventInvokeConfig request) ;;
                match e with
                | Some e => Ret (tt, Some (retryError pkg e []))
                | None => Ret (tt, None)
                end) tt ;;
      match snd r with
      | Some err => Ret (d, Some err)
      | None => resourceTencentCloudScfFunctionEventInvokeConfigRead pkg d meta
      end
  | _ => Ret (d, Some (Errorf ("id is broken," +:+ Id d)))
  end.

(** [resourceTencentCloudScfFunctionEventInvokeConfigCreate] *)
Definition resourceTencentCloudScfFunctionEventInvokeConfigCreate
    (pkg : Package) (d : ResourceData) (meta : Meta) : Prog Result :=
  let functionName := asString (Get d "function_name") in
  let namespace := asString (Get d "namespace") in
  let d := SetId (functionName +:+ FILED_SP +:+ namespace) d in
  resourceTencentCloudScfFunctionEventInvokeConfigUpdate pkg d meta.

(** [resourceTencentCloudScfFunctionEventInvokeConfigDelete] *)
Definition resourceTencentCloudScfFunctionEventInvokeConfigDelete
    (pkg : Package) (d : ResourceData) (meta : Meta) : Prog Result :=
  Ret (d, None).

(* ================================================================== *)
(** * resource_tc_nat_gateway.go                                       *)
(* ================================================================== *)

(** The closure
    [func() { e := call; if e != nil { return retryError(e, codes...) }; return nil }]
    that wraps a call returning only an error. *)
Definition retryClosure (pkg : Package) (codes : list string) (call : Prog (option error))
  : unit -> Prog (unit * option RetryError) :=
  fun _ =>
    e <- call ;;
    match e with
    | Some e => Ret (tt, Some (retryError pkg e codes))
    | None => Ret (tt, None)
    end.

(** A block that runs [rest] unless [blk] left with an error. *)
Definition andThen (blk rest : Prog (option error)) : Prog (option error) :=
  e <- blk ;;
  match e with
  | Some err => Ret (Some err)
  | None => rest
  end.

(** [flattenAddressList] *)
Definition flattenAddressList (addresses : list NatGatewayAddress) : list string :=
  map PublicIpAddress addresses.

(** [resourceTencentCloudNatGatewayRead] *)
Definition resourceTencentCloudNatGatewayRead
    (pkg : Package) (d : ResourceData) (meta : Meta) : Prog Result :=
  let natGatewayId := Id d in
  r <- retry readRetryTimeout
         (fun response : option (list NatGateway) =>
            res <- sdk_call (DescribeNatGateways [natGatewayId]) ;;
            match res with
            | inl e => Ret (response, Some (retryError pkg e []))
            | inr result => Ret (Some result, None)
            end) None ;;
  match snd r, fst r with
  | Some err, _ => Ret (d, Some err)
  | None, None => Panic "invalid memory address or nil pointer dereference"
  | None, Some [] => Ret (SetId EmptyString d, None)
  | None, Some (nat :: _) =>
      let d := Set_ "vpc_id" (VStr (VpcId nat)) d in
      let d := Set_ "name" (VStr (NatGatewayName nat)) d in
      let d := Set_ "max_concurrent" (VInt (MaxConcurrentConnection nat)) d in
      let d := Set_ "bandwidth" (VInt (InternetMaxBandwidthOut nat)) d in
      let d := Set_ "created_time" (VStr (CreatedTime nat)) d in
      let d := Set_ "assigned_eip_set"
                 (VSet (VStr <$> flattenAddressList (PublicIpAddressSet nat))) d in
      let d := Set_ "zone" (VStr (Zone nat)) d in
      t <- service_call (TagService_DescribeResourceTags "vpc" "nat" (Region meta) (Id d)) ;;
      match t with
      | inl err => Ret (d, Some err)
      | inr tags =>
          let d := Set_ "tags" (VMap (map (fun kv => (fst kv, VStr (snd kv)))
                                          (map_to_list tags))) d in
          Ret (d, None)
      end
  end.

(** The closure of the poll in [resourceTencentCloudNatGatewayCreate]
    that waits for the gateway to be created. *)
Definition natCreatePoll (pkg : Package) (natGatewayId : string)
  : unit -> Prog (unit * option RetryError) :=
  fun _ =>
    res <- sdk_call (DescribeNatGateways [natGatewayId]) ;;
    match res with
    | inl e => Ret (tt, Some (retryError pkg e []))
    | inr [nat] =>
        let stat := State nat in
        if String.eqb stat "AVAILABLE"
        then Ret (tt, None)
        else Ret (tt, Some (RetryableError (Errorf "creating not ready retry")))
    | inr _ => Ret (tt, Some (NonRetryableError (Errorf "creating error")))
    end.

(** [resourceTencentCloudNatGatewayCreate] *)
Definition resourceTencentCloudNatGatewayCreate
    (pkg : Package) (d : ResourceData) (meta : Meta) : Prog Result :=
  let request :=
    {| cng_VpcId := asString (Get d "vpc_id");
       cng_NatGatewayName := asString (Get d "name");
       cng_InternetMaxBandwidthOut := uint64 (asInt (Get d "bandwidth"));
       cng_MaxConcurrentConnection := uint64 (asInt (Get d "max_concurrent"));
       cng_PublicIpAddresses := strings_of (asList (GetOk d "assigned_eip_set"));
       cng_Zone := (fun v => asString (Some v)) <$> GetOk d "zone";
       cng_Tags := map_to_list (GetTags d "tags") |} in
  r <- retry readRetryTimeout
         (fun response : option (list NatGateway) =>
            res <- sdk_call (CreateNatGateway request) ;;
            match res with
            | inl e => Ret (response, Some (retryError pkg e []))
            | inr result => Ret (Some result, None)
            end) None ;;
  match snd r, fst r with
  | Some err, _ => Ret (d, Some err)
  | None, None => Panic "invalid memory address or nil pointer dereference"
  | None, Some [] => Ret (d, Some (Errorf "NAT gateway ID is nil"))
  | None, Some (gw :: _) =>
      let d := SetId (NatGatewayId gw) d in
      let tags := GetTags d "tags" in
      orReturn d
        (if (0 <? size tags)%nat
         then service_call (TagService_ModifyTags
                              (BuildTagResourceName "vpc" "nat" (Region meta) (Id d))
                              tags [])
         else Ret None)
        (orReturn d
           (p <- retry readRetryTimeout (natCreatePoll pkg (NatGatewayId gw)) tt ;;
            Ret (snd p))
           (resourceTencentCloudNatGatewayRead pkg d meta))
  end.

(** The first loop of the EIP update: the old EIPs absent from the new
    set go into the disassociate request, except the one that would
    empty the gateway, which is kept in [backUpOldIp]. *)
Fixpoint unassignLoop (newEipSet : list string) (lenOld : nat) (oldEipSet : list string)
    (PublicIpAddresses : list string) (backUpOldIp : string) : list string * string :=
  match oldEipSet with
  | [] => (PublicIpAddresses, backUpOldIp)
  | publicIp :: rest =>
      let isIn := existsb (String.eqb publicIp) newEipSet in
      if negb isIn then
        if (length PublicIpAddresses + 1 =? lenOld)%nat
        then unassignLoop newEipSet lenOld rest PublicIpAddresses publicIp
        else unassignLoop newEipSet lenOld rest (PublicIpAddresses ++ [publicIp]) backUpOldIp
      else unassignLoop newEipSet lenOld rest PublicIpAddresses backUpOldIp
  end.

(** The second loop: the new EIPs absent from the old set go into the
    associate request, except those met while the request length plus
    [eipSetLength] plus one equals [NAT_EIP_MAX_LIMIT], which overwrite
    [backUpNewIp]. *)
Fixpoint assignLoop (pkg : Package) (oldEipSet : list string) (eipSetLength : nat)
    (newEipSet : list string) (PublicIpAddresses : list string) (backUpNewIp : string)
  : list string * string :=
  match newEipSet with
  | [] => (PublicIpAddresses, backUpNewIp)
  | publicIp :: rest =>
      let isIn := existsb (String.eqb publicIp) oldEipSet in
      if negb isIn then
        if (Z.of_nat (length PublicIpAddresses + eipSetLength + 1) =? NAT_EIP_MAX_LIMIT pkg)%Z
        then assignLoop pkg oldEipSet eipSetLength rest PublicIpAddresses publicIp
        else assignLoop pkg oldEipSet eipSetLength rest
               (PublicIpAddresses ++ [publicIp]) backUpNewIp
      else assignLoop pkg oldEipSet eipSetLength rest PublicIpAddresses backUpNewIp
  end.

(** What the EIP update of [resourceTencentCloudNatGatewayUpdate] sends:
    the first disassociate request and the withheld old EIP, the first
    associate request and the withheld new EIP. *)
Record EipPlan : Type := {
  unassigned : list string;
  backUpOldIp : string;
  assigned : list string;
  backUpNewIp : string;
}.

Definition eipPlan (pkg : Package) (d : ResourceData) : EipPlan :=
  let eipSetLength := length (asList (GetOk d "assigned_eip_set")) in
  let '(o, n) := GetChange d "assigned_eip_set" in
  let oldEipSet := strings_of (asList o) in
  let newEipSet := strings_of (asList n) in
  let '(un, bo) :=
    if (0 <? length oldEipSet)%nat
    then unassignLoop newEipSet (length oldEipSet) oldEipSet [] EmptyString
    else ([], EmptyString) in
  let '(asg, bn) :=
    if (0 <? length newEipSet)%nat
    then assignLoop pkg oldEipSet eipSetLength newEipSet [] EmptyString
    else ([], EmptyString) in
  {| unassigned := un; backUpOldIp := bo; assigned := asg; backUpNewIp := bn |}.

Definition disassociate (pkg : Package) (natGatewayId : string) (ips : list string)
  : Prog (option error) :=
  r <- retry readRetryTimeout
         (retryClosure pkg []
            (service_call (VpcService_DisassociateNatGatewayAddress natGatewayId ips))) tt ;;
  Ret (snd r).

Definition associate (pkg : Package) (natGatewayId : string) (ips : list string)
  : Prog (option error) :=
  r <- retry readRetryTimeout
         (retryClosure pkg []
            (sdk_call (AssociateNatGatewayAddress natGatewayId ips))) tt ;;
  Ret (snd r).

(** The block [if d.HasChange("assigned_eip_set") { ... }] of the
    update. *)
Definition natUpdateEips (pkg : Package) (d : ResourceData) : Prog (option error) :=
  let natGatewayId := Id d in
  if HasChange d "assigned_eip_set" then
    let plan := eipPlan pkg d in
    andThen
      (if (0 <? length (unassigned plan))%nat
       then disassociate pkg natGatewayId (unassigned plan)
       else Ret None)
      (_ <- sleep 180 ;;
       andThen
         (if (0 <? length (assigned plan))%nat
          then associate pkg natGatewayId (assigned plan)
          else Ret None)
         (_ <- sleep 180 ;;
          andThen
            (if negb (String.eqb (backUpOldIp plan) EmptyString)
             then disassociate pkg natGatewayId [backUpOldIp plan]
             else Ret None)
            (if negb (String.eqb (backUpNewIp plan) EmptyString)
             then associate pkg natGatewayId [backUpNewIp plan]
             else Ret None)))
  else Ret None.

(** The block that sends [ModifyNatGatewayAttribute] when the name or
    the bandwidth changed. *)
Definition natUpdateAttribute (pkg : Package) (d : ResourceData) : Prog (option error) :=
  let natGatewayId := Id d in
  let request :=
    {| mng_NatGatewayId := natGatewayId;
       mng_NatGatewayName :=
         if HasChange d "name" then Some (asString (Get d "name")) else None;
       mng_InternetMaxBandwidthOut :=
         if HasChange d "bandwidth" then Some (uint64 (asInt (Get d "bandwidth"))) else None |} in
  let changed := HasChange d "name" || HasChange d "bandwidth" in
  if changed then
    r <- retry readRetryTimeout
           (retryClosure pkg [] (sdk_call (ModifyNatGatewayAttribute request))) tt ;;
    Ret (snd r)
  else Ret None.

(** The block [if d.HasChange("max_concurrent") { ... }]. *)
Definition natUpdateConcurrent (pkg : Package) (d : ResourceData) : Prog (option error) :=
  let natGatewayId := Id d in
  if HasChange d "max_concurrent" then
    let concurrent64 := uint64 (asInt (Get d "max_concurrent")) in
    r <- retry readRetryTimeout
           (retryClosure pkg [InternalError pkg]
              (sdk_call (ResetNatGatewayConnection natGatewayId concurrent64))) tt ;;
    Ret (snd r)
  else Ret None.

(** The block [if d.HasChange("tags") { ... }]. *)
Definition natUpdateTags (d : ResourceData) (meta : Meta) : Prog (option error) :=
  if HasChange d "tags" then
    let '(oldValue, newValue) := GetChange d "tags" in
    let '(replaceTags, deleteTags) := diffTags (tags_of oldValue) (tags_of newValue) in
    service_call (TagService_ModifyTags
                    (BuildTagResourceName "vpc" "nat" (Region meta) (Id d))
                    replaceTags deleteTags)
  else Ret None.

(** [resourceTencentCloudNatGatewayUpdate] *)
Definition resourceTencentCloudNatGatewayUpdate
    (pkg : Package) (d : ResourceData) (meta : Meta) : Prog Result :=
  let immutableArgs := ["zone"] in
  match firstChanged d immutableArgs with
  | Some v => Ret (d, Some (cannotBeChanged v))
  | None =>
      orReturn d (natUpdateAttribute pkg d)
        (orReturn d (natUpdateConcurrent pkg d)
           (orReturn d (natUpdateEips pkg d)
              (orReturn d (natUpdateTags d meta)
                 (Ret (d, None)))))
  end.

(** The closure of the poll in [resourceTencentCloudNatGatewayDelete]
    that waits for the gateway to be gone. *)
Definition natDeletePoll (pkg : Package) (natGatewayId : string)
  : unit -> Prog (unit * option RetryError) :=
  fun _ =>
    res <- sdk_call (DescribeNatGateways [natGatewayId]) ;;
    match res with
    | inl e => Ret (tt, Some (retryError pkg e []))
    | inr [] => Ret (tt, None)
    | inr (nat :: _) =>
        let stat := State nat in
        if String.eqb stat (NAT_FAILED_STATE pkg)
        then Ret (tt, Some (NonRetryableError (Errorf "delete NAT failed")))
        else
          _ <- sleep 3 ;;
          Ret (tt, Some (RetryableError (Errorf "deleting retry")))
    end.

(** [resourceTencentCloudNatGatewayDelete] *)
Definition resourceTencentCloudNatGatewayDelete
    (pkg : Package) (d : ResourceData) (meta : Meta) : Prog Result :=
  let natGatewayId := Id d in
  orReturn d
    (r <- retry writeRetryTimeout
            (retryClosure pkg [] (sdk_call (DeleteNatGateway natGatewayId))) tt ;;
     Ret (snd r))
    (_ <- sleep 10 ;;
     orReturn d
       (r <- retry readRetryTimeout (natDeletePoll pkg natGatewayId) tt ;;
        Ret (snd r))
       (Ret (d, None))).

(* ================================================================== *)
(** * wedata rule template                                             *)
(* ================================================================== *)

Definition intOf (v : Value) : Z := uint64 (asInt (Some v)).
Definition strOf (v : Value) : string := asString (Some v).
Definition boolOf (v : Value) : bool := asBool (Some v).

(** [resourceTencentCloudWedataRuleTemplateRead] *)
Definition resourceTencentCloudWedataRuleTemplateRead
    (pkg : Package) (d : ResourceData) (meta : Meta) : Prog Result :=
  let ruleTemplateId := Id d in
  r <- service_call (WedataService_DescribeWedataRuleTemplateById ruleTemplateId) ;;
  match r with
  | inl err => Ret (d, Some err)
  | inr None => Ret (SetId EmptyString d, None)
  | inr (Some ruleTemplate) =>
      let d := SetIfNotNil "type" (VInt <$> rt_Type ruleTemplate) d in
      let d := SetIfNotNil "name" (VStr <$> rt_Name ruleTemplate) d in
      let d := SetIfNotNil "quality_dim" (VInt <$> rt_QualityDim ruleTemplate) d in
      let d := SetIfNotNil "source_object_type"
                 (VInt <$> rt_SourceObjectType ruleTemplate) d in
      let d := SetIfNotNil "description" (VStr <$> rt_Description ruleTemplate) d in
      let d := SetIfNotNil "source_engine_types"
                 ((fun l => VSet (VInt <$> l)) <$> rt_SourceEngineTypes ruleTemplate) d in
      let d := SetIfNotNil "multi_source_flag"
                 (VBool <$> rt_MultiSourceFlag ruleTemplate) d in
      let d := SetIfNotNil "sql_expression" (VStr <$> rt_SqlExpression ruleTemplate) d in
      let d := SetIfNotNil "where_flag" (VBool <$> rt_WhereFlag ruleTemplate) d in
      Ret (d, None)
  end.

(** [resourceTencentCloudWedataRuleTemplateCreate] *)
Definition resourceTencentCloudWedataRuleTemplateCreate
    (pkg : Package) (d : ResourceData) (meta : Meta) : Prog Result :=
  let request :=
    {| crt_Type := intOf <$> GetOkExists d "type";
       crt_Name := strOf <$> GetOk d "name";
       crt_QualityDim := intOf <$> GetOkExists d "quality_dim";
       crt_SourceObjectType := intOf <$> GetOkExists d "source_object_type";
       crt_Description := strOf <$> GetOk d "description";
       crt_SourceEngineTypes := intOf <$> asList (GetOk d "source_engine_types");
       crt_MultiSourceFlag := boolOf <$> GetOkExists d "multi_source_flag";
       crt_SqlExpression := strOf <$> GetOk d "sql_expression";
       crt_ProjectId := strOf <$> GetOk d "project_id";
       crt_WhereFlag := boolOf <$> GetOkExists d "where_flag" |} in
  r <- retry writeRetryTimeout
         (fun response : option Z =>
            res <- sdk_call (CreateRuleTemplate request) ;;
            match res with
            | inl e => Ret (response, Some (retryError pkg e []))
            | inr result => Ret (Some result, None)
            end) None ;;
  match snd r, fst r with
  | Some err, _ => Ret (d, Some err)
  | None, None => Panic "invalid memory address or nil pointer dereference"
  | None, Some ruleTemplateId =>
      let d := SetId (UInt64ToStr pkg ruleTemplateId) d in
      resourceTencentCloudWedataRuleTemplateRead pkg d meta
  end.

(** The arguments [resourceTencentCloudWedataRuleTemplateUpdate]
    refuses to change. *)
Definition wedataImmutableArgs : list string :=
  [ "type"; "name"; "quality_dim"; "source_object_type";
    "description"; "source_engine_types"; "multi_source_flag";
    "sql_expression"; "project_id"; "where_flag" ].

(** The request [resourceTencentCloudWedataRuleTemplateUpdate] builds
    after the check of the immutable arguments. *)
Definition wedataModifyRequest (pkg : Package) (d : ResourceData)
  : ModifyRuleTemplateRequest :=
  {| mrt_TemplateId := StrToUint64Point pkg (Id d);
     mrt_Type :=
       if HasChange d "type" then intOf <$> GetOkExists d "type" else None;
     mrt_Name :=
       if HasChange d "name" then strOf <$> GetOk d "name" else None;
     mrt_QualityDim :=
       if HasChange d "quality_dim" then intOf <$> GetOkExists d "quality_dim" else None;
     mrt_SourceObjectType :=
       if HasChange d "source_object_type"
       then intOf <$> GetOkExists d "source_object_type" else None;
     mrt_Description :=
       if HasChange d "description" then strOf <$> GetOk d "description" else None;
     mrt_SourceEngineTypes :=
       if HasChange d "source_engine_types"
       then intOf <$> asList (GetOk d "source_engine_types") else [];
     mrt_MultiSourceFlag :=
       if HasChange d "multi_source_flag"
       then boolOf <$> GetOkExists d "multi_source_flag" else None;
     mrt_SqlExpression :=
       if HasChange d "sql_expression" then strOf <$> GetOk d "sql_expression" else None;
     mrt_ProjectId :=
       if HasChange d "project_id" then strOf <$> GetOk d "project_id" else None;
     mrt_WhereFlag :=
       if HasChange d "where_flag" then boolOf <$> GetOkExists d "where_flag" else None |}.

(** [resourceTencentCloudWedataRuleTemplateUpdate] *)
Definition resourceTencentCloudWedataRuleTemplateUpdate
    (pkg : Package) (d : ResourceData) (meta : Meta) : Prog Result :=
  match firstChanged d wedataImmutableArgs with
  | Some v => Ret (d, Some (cannotBeChanged v))
  | None =>
      let request := wedataModifyRequest pkg d in
      r <- retry writeRetryTimeout
             (retryClosure pkg [] (sdk_call (ModifyRuleTemplate request))) tt ;;
      match snd r with
      | Some err => Ret (d, Some err)
      | None => resourceTencentCloudWedataRuleTemplateRead pkg d meta
      end
  end.

(** [resourceTencentCloudWedataRuleTemplateDelete] *)
Definition resourceTencentCloudWedataRuleTemplateDelete
    (pkg : Package) (d : ResourceData) (meta : Meta) : Prog Result :=
  let ruleTemplateId := Id d in
  orReturn d
    (service_call (WedataService_DeleteWedataRuleTemplateById ruleTemplateId))
    (Ret (d, None)).

(* ================================================================== *)
(** * tdmq rabbitmq user                                               *)
(* ================================================================== *)

(** [fmt.Errorf("id is broken,%s", idSplit)]: a slice prints as its
    elements between brackets. *)
Definition brokenIdSplit (idSplit : list string) : error :=
  Errorf ("id is broken,[" +:+ String.concat " " idSplit +:+ "]").

(** [resourceTencentCloudTdmqRabbitmqUserRead] *)
Definition resourceTencentCloudTdmqRabbitmqUserRead
    (pkg : Package) (d : ResourceData) (meta : Meta) : Prog Result :=
  match GoStrings.Split (Id d) FILED_SP with
  | [instanceId; user] =>
      r <- service_call (TdmqService_DescribeTdmqRabbitmqUserById instanceId user) ;;
      match r with
      | inl err => Ret (d, Some err)
      | inr None => Ret (SetId EmptyString d, None)
      | inr (Some rabbitmqUser) =>
          let d := SetIfNotNil "instance_id" (VStr <$> ru_InstanceId rabbitmqUser) d in
          let d := SetIfNotNil "user" (VStr <$> ru_User rabbitmqUser) d in
          let d := SetIfNotNil "password" (VStr <$> ru_Password rabbitmqUser) d in
          let d := SetIfNotNil "description" (VStr <$> ru_Description rabbitmqUser) d in
          let d := SetIfNotNil "tags"
                     ((fun l => VList (VStr <$> l)) <$> ru_Tags rabbitmqUser) d in
          Ret (d, None)
      end
  | idSplit => Ret (d, Some (brokenIdSplit idSplit))
  end.

(** [resourceTencentCloudTdmqRabbitmqUserCreate] *)
Definition resourceTencentCloudTdmqRabbitmqUserCreate
    (pkg : Package) (d : ResourceData) (meta : Meta) : Prog Result :=
  let instanceId := asString (GetOk d "instance_id") in
  let request :=
    {| cru_InstanceId := strOf <$> GetOk d "instance_id";
       cru_User := strOf <$> GetOk d "user";
       cru_Password := strOf <$> GetOk d "password";
       cru_Description := strOf <$> GetOk d "description";
       cru_Tags := strings_of (asList (GetOk d "tags"));
       cru_MaxConnections := (fun v => asInt (Some v)) <$> GetOkExists d "max_connections";
       cru_MaxChannels := (fun v => asInt (Some v)) <$> GetOkExists d "max_channels" |} in
  r <- retry writeRetryTimeout
         (fun response : option string =>
            res <- sdk_call (CreateRabbitMQUser request) ;;
            match res with
            | inl e => Ret (response, Some (retryError pkg e []))
            | inr result => Ret (Some result, None)
            end) None ;;
  match snd r, fst r with
  | Some err, _ => Ret (d, Some err)
  | None, None => Panic "invalid memory address or nil pointer dereference"
  | None, Some user =>
      let d := SetId (GoStrings.Join [instanceId; user] FILED_SP) d in
      resourceTencentCloudTdmqRabbitmqUserRead pkg d meta
  end.

(** [resourceTencentCloudTdmqRabbitmqUserUpdate] *)
Definition resourceTencentCloudTdmqRabbitmqUserUpdate
    (pkg : Package) (d : ResourceData) (meta : Meta) : Prog Result :=
  match GoStrings.Split (Id d) FILED_SP with
  | [instanceId; user] =>
      let immutableArgs := ["instance_id"; "user"; "password"] in
      match firstChanged d immutableArgs with
      | Some v => Ret (d, Some (cannotBeChanged v))
      | None =>
          orReturn d
            (if HasChange d "description" || HasChange d "max_connections"
                || HasChange d "max_channels"
             then
               let request :=
                 {| mru_InstanceId := Some instanceId;
                    mru_User := Some user;
                    mru_Password := strOf <$> GetOk d "password";
                    mru_Description := strOf <$> GetOk d "description";
                    mru_MaxConnections :=
                      (fun v => asInt (Some v)) <$> GetOkExists d "max_connections";
                    mru_MaxChannels :=
                      (fun v => asInt (Some v)) <$> GetOkExists d "max_channels" |} in
               r <- retry writeRetryTimeout
                      (retryClosure pkg [] (sdk_call (ModifyRabbitMQUser request))) tt ;;
               Ret (snd r)
             else Ret None)
            (resourceTencentCloudTdmqRabbitmqUserRead pkg d meta)
      end
  | idSplit => Ret (d, Some (brokenIdSplit idSplit))
  end.

(** [resourceTencentCloudTdmqRabbitmqUserDelete] *)
Definition resourceTencentCloudTdmqRabbitmqUserDelete
    (pkg : Package) (d : ResourceData) (meta : Meta) : Prog Result :=
  match GoStrings.Split (Id d) FILED_SP with
  | [instanceId; user] =>
      orReturn d
        (service_call (TdmqService_DeleteTdmqRabbitmqUserById instanceId user))
        (Ret (d, None))
  | idSplit => Ret (d, Some (brokenIdSplit idSplit))
  end.

(* ================================================================== *)
(** * emr cluster                                                      *)
(* ================================================================== *)

(** [err] is an SDK error whose code is one of [codes]. *)
Definition hasCode (err : option error) (codes : list string) : bool :=
  match err with
  | Some e =>
      match GetCode e with
      | Some code => existsb (String.eqb code) codes
      | None => false
      end
  | None => false
  end.

(** The closure of the polls of the EMR cluster operations.  The three
    closures differ in the display strategy, in the error codes that end
    the poll at once ([doneCodes]) and in the status waited for. *)
Definition emrPoll (doneCodes : list string) (expected : Z)
    (instanceId displayStrategy : string)
  : unit -> Prog (unit * option RetryError) :=
  fun _ =>
    r <- service_call (EMRService_DescribeInstancesById instanceId displayStrategy) ;;
    let '(clusters, err) := r in
    if hasCode err doneCodes then Ret (tt, None)
    else
      let still :=
        match clusters with
        | c :: _ => if negb (ci_Status c =? expected)%Z then Some (ci_Status c) else None
        | [] => None
        end in
      match still with
      | Some status =>
          Ret (tt, Some (RetryableError
                           (Errorf (instanceId +:+ " create cluster endpoint  status still is "
                                    +:+ pretty status))))
      | None =>
          match err with
          | Some e => Ret (tt, Some (RetryableError e))
          | None => Ret (tt, None)
          end
      end.

Definition emrCreatePoll (pkg : Package) (instanceId displayStrategy : string) :=
  emrPoll ["InternalError.ClusterNotFound"] (EmrInternetStatusCreated pkg)
    instanceId displayStrategy.

Definition emrUpdatePoll (pkg : Package) (instanceId : string) :=
  emrPoll ["InternalError.ClusterNotFound"] (EmrInternetStatusCreated pkg)
    instanceId (DisplayStrategyIsclusterList pkg).

Definition emrDeletePoll (pkg : Package) (instanceId : string) :=
  emrPoll ["InternalError.ClusterNotFound"; "UnauthorizedOperation"]
    (EmrInternetStatusDeleted pkg) instanceId (DisplayStrategyIsclusterList pkg).

(** [resourceTencentCloudEmrClusterCreate] *)
Definition resourceTencentCloudEmrClusterCreate
    (pkg : Package) (d : ResourceData) (meta : Meta) : Prog Result :=
  c <- service_call (EMRService_CreateInstance d) ;;
  match c with
  | inl err => Ret (d, Some err)
  | inr instanceId =>
      let d := SetId instanceId d in
      let d := Set_ "instance_id" (VStr instanceId) d in
      let displayStrategy := asString (GetOk d "display_strategy") in
      orReturn d
        (r <- retry (TimesTimeout 10 readRetryTimeout)
                (emrCreatePoll pkg instanceId displayStrategy) tt ;;
         Ret (snd r))
        (let tags := GetTags d "tags" in
         orReturn d
           (if (0 <? size tags)%nat
            then service_call
                   (TagService_ModifyTags
                      (ResourceNameOf ("qcs::emr:" +:+ Region meta
                                       +:+ ":uin/:emr-instance/" +:+ Id d))
                      tags [])
            else Ret None)
           (Ret (d, None)))
  end.

(** [resourceTencentCloudEmrClusterUpdate] *)
Definition resourceTencentCloudEmrClusterUpdate
    (pkg : Package) (d : ResourceData) (meta : Meta) : Prog Result :=
  let instanceId := Id d in
  match GetOkExists d "time_unit", GetOkExists d "time_span", GetOkExists d "pay_mode" with
  | Some timeUnit, Some timeSpan, Some payMode =>
      orReturn d
        (if HasChange d "tags" then
           let '(oldTags, newTags) := GetChange d "tags" in
           let '(replaceTags, deleteTags) := diffTags (tags_of oldTags) (tags_of newTags) in
           service_call (TagService_ModifyTags
                           (BuildTagResourceName "emr" "emr-instance" (Region meta) instanceId)
                           replaceTags deleteTags)
         else Ret None)
        (match asList (Get d "resource_spec") with
         | [] => Panic "index out of range [0] with length 0"
         | tmp :: _ =>
             let resourceSpec := match tmp with VMap m => m | _ => [] end in
             let count (k : string) := uint64 (asInt (assoc k resourceSpec)) in
             let request :=
               {| so_TimeUnit := strOf timeUnit;
                  so_TimeSpan := intOf timeSpan;
                  so_PayMode := intOf payMode;
                  so_InstanceId := instanceId;
                  so_MasterCount :=
                    if HasChange d "resource_spec.0.master_count"
                    then Some (count "master_count") else None;
                  so_TaskCount :=
                    if HasChange d "resource_spec.0.task_count"
                    then Some (count "task_count") else None;
                  so_CoreCount :=
                    if HasChange d "resource_spec.0.core_count"
                    then Some (count "core_count") else None |} in
             let hasChange :=
               HasChange d "resource_spec.0.master_count"
               || HasChange d "resource_spec.0.task_count"
               || HasChange d "resource_spec.0.core_count" in
             if HasChange d "extend_fs_field"
             then Ret (d, Some (Errorf "extend_fs_field not support update."))
             else if negb hasChange then Ret (d, None)
             else
               orReturn d
                 (service_call (EMRService_UpdateInstance request))
                 (orReturn d
                    (r <- retry (TimesTimeout 10 readRetryTimeout)
                            (emrUpdatePoll pkg instanceId) tt ;;
                     Ret (snd r))
                    (Ret (d, None)))
         end)
  | _, _, _ => Ret (d, Some (Errorf "Time_unit, time_span or pay_mode must be set."))
  end.

(** [resourceTencentCloudEmrClusterDelete] *)
Definition resourceTencentCloudEmrClusterDelete
    (pkg : Package) (d : ResourceData) (meta : Meta) : Prog Result :=
  let instanceId := Id d in
  r <- service_call
         (EMRService_DescribeInstancesById instanceId (DisplayStrategyIsclusterList pkg)) ;;
  let '(clusters, err) := r in
  match clusters with
  | [] => Ret (d, Some (Errorf "Not find clusters."))
  | c :: _ =>
      let metaDB := ci_MetaDb c in
      match err with
      | Some err => Ret (d, Some err)
      | None =>
          orReturn d (service_call (EMRService_DeleteInstance d))
            (orReturn d
               (r <- retry (TimesTimeout 10 readRetryTimeout)
                       (emrDeletePoll pkg instanceId) tt ;;
                Ret (snd r))
               (orReturn d
                  (match metaDB with
                   | Some db =>
                       if negb (String.eqb db EmptyString) then
                         r <- retry writeRetryTimeout
                                (retryClosure pkg [InternalError pkg]
                                   (service_call (MysqlService_OfflineIsolatedInstances db)))
                                tt ;;
                         Ret (snd r)
                       else Ret None
                   | None => Ret None
                   end)
                  (Ret (d, None))))
      end
  end.

(** [resourceTencentCloudEmrClusterRead] *)
Definition resourceTencentCloudEmrClusterRead
    (pkg : Package) (d : ResourceData) (meta : Meta) : Prog Result :=
  let instanceId := Id d in
  orReturn d
    (r <- retry readRetryTimeout
            (fun _ : unit =>
               r <- service_call
                      (EMRService_DescribeInstancesById instanceId
                         (DisplayStrategyIsclusterList pkg)) ;;
               let err := snd r in
               if hasCode err ["InternalError.ClusterNotFound"] then Ret (tt, None)
               else match err with
                    | Some e => Ret (tt, Some (RetryableError e))
                    | None => Ret (tt, None)
                    end) tt ;;
     Ret (snd r))
    (t <- service_call
            (TagService_DescribeResourceTags "emr" "emr-instance" (Region meta) (Id d)) ;;
     match t with
     | inl err => Ret (d, Some err)
     | inr tags =>
         let d := Set_ "tags" (VMap (map (fun kv => (fst kv, VStr (snd kv)))
                                         (map_to_list tags))) d in
         Ret (d, None)
     end).

(* ================================================================== *)
(** * Resource definitions                                             *)
(* ================================================================== *)

(** A lifecycle operation as [schema.Resource] holds it. *)
Definition Operation : Type := ResourceData -> Meta -> Prog Result.

Inductive StateFunc : Type := ImportStatePassthrough.

(** [schema.Resource]; an operation the literal does not set is [None]. *)
Record Resource : Type := {
  Create : option Operation;
  Read : option Operation;
  Update : option Operation;
  Delete : option Operation;
  Importer : option StateFunc;
  Schema_ : list (string * Schema);
}.

(** Modelled from the spec: the validators are declared outside these
    files; they are what their names and the field descriptions say: a
    string whose length lies in a range, an integer of a list or in a
    range, a string of a list. *)
Definition validateStringLengthInRange (min max : nat) (v : Value) : bool :=
  match v with
  | VStr s => (min <=? String.length s)%nat && (String.length s <=? max)%nat
  | _ => false
  end.

Definition validateAllowedIntValue (ints : list Z) (v : Value) : bool :=
  match v with
  | VInt z => existsb (Z.eqb z) ints
  | _ => false
  end.

Definition validateIntegerInRange (min max : Z) (v : Value) : bool :=
  match v with
  | VInt z => (min <=? z)%Z && (z <=? max)%Z
  | _ => false
  end.

Definition validateAllowedStringValue (strs : list string) (v : Value) : bool :=
  match v with
  | VStr s => existsb (String.eqb s) strs
  | _ => false
  end.

(** [resourceTencentCloudMonitorTmpCvmAgent]: the [Update] line of the
    literal is commented out. *)
Definition resourceTencentCloudMonitorTmpCvmAgent (pkg : Package) : Resource :=
  {| Read := Some (resourceTencentCloudMonitorTmpCvmAgentRead pkg);
     Create := Some (resourceTencentCloudMonitorTmpCvmAgentCreate pkg);
     Update := None;
     Delete := Some (resourceTencentCloudMonitorTmpCvmAgentDelete pkg);
     Importer := Some ImportStatePassthrough;
     Schema_ :=
       [ ("instance_id", forceNew (required (ofType TypeString)));
         ("name", forceNew (required (ofType TypeString)));
         ("agent_id", computed (ofType TypeString)) ] |}.

(** [resourceTencentCloudWedataRuleTemplate] *)
Definition resourceTencentCloudWedataRuleTemplate (pkg : Package) : Resource :=
  {| Create := Some (resourceTencentCloudWedataRuleTemplateCreate pkg);
     Read := Some (resourceTencentCloudWedataRuleTemplateRead pkg);
     Update := Some (resourceTencentCloudWedataRuleTemplateUpdate pkg);
     Delete := Some (resourceTencentCloudWedataRuleTemplateDelete pkg);
     Importer := Some ImportStatePassthrough;
     Schema_ :=
       [ ("type", optional (ofType TypeInt));
         ("name", optional (ofType TypeString));
         ("quality_dim", optional (ofType TypeInt));
         ("source_object_type", optional (ofType TypeInt));
         ("description", optional (ofType TypeString));
         ("source_engine_types", elemSchema (ofType TypeInt) (optional (ofType TypeSet)));
         ("multi_source_flag", optional (ofType TypeBool));
         ("sql_expression", optional (ofType TypeString));
         ("project_id", optional (ofType TypeString));
         ("where_flag", optional (ofType TypeBool)) ] |}.

(** [resourceTencentCloudNatGateway] *)
Definition resourceTencentCloudNatGateway (pkg : Package) : Resource :=
  {| Create := Some (resourceTencentCloudNatGatewayCreate pkg);
     Read := Some (resourceTencentCloudNatGatewayRead pkg);
     Update := Some (resourceTencentCloudNatGatewayUpdate pkg);
     Delete := Some (resourceTencentCloudNatGatewayDelete pkg);
     Importer := Some ImportStatePassthrough;
     Schema_ :=
       [ ("vpc_id", forceNew (required (ofType TypeString)));
         ("name", validateFunc (validateStringLengthInRange 1 60)
                    (required (ofType TypeString)));
         ("max_concurrent",
           validateFunc (validateAllowedIntValue [1000000; 3000000; 10000000]%Z)
             (withDefault (VInt 1000000) (optional (ofType TypeInt))));
         ("bandwidth", withDefault (VInt 100) (optional (ofType TypeInt)));
         ("assigned_eip_set",
           maxItems 10 (minItems 1
             (elemSchema (validateFunc (validateIp pkg) (ofType TypeString))
                (required (ofType TypeSet)))));
         ("zone", computed (optional (ofType TypeString)));
         ("tags", optional (ofType TypeMap));
         ("created_time", computed (ofType TypeString)) ] |}.

(** [resourceTencentCloudScfFunctionEventInvokeConfig] *)
Definition resourceTencentCloudScfFunctionEventInvokeConfig (pkg : Package) : Resource :=
  {| Create := Some (resourceTencentCloudScfFunctionEventInvokeConfigCreate pkg);
     Read := Some (resourceTencentCloudScfFunctionEventInvokeConfigRead pkg);
     Update := Some (resourceTencentCloudScfFunctionEventInvokeConfigUpdate pkg);
     Delete := Some (resourceTencentCloudScfFunctionEventInvokeConfigDelete pkg);
     Importer := Some ImportStatePassthrough;
     Schema_ :=
       [ ("function_name", required (ofType TypeString));
         ("namespace", withDefault (VStr "default") (optional (ofType TypeString)));
         ("async_trigger_config",
           elemResource
             [ ("retry_config",
                 elemResource [ ("retry_num", required (ofType TypeInt)) ]
                   (required (ofType TypeList)));
               ("msg_ttl", required (ofType TypeInt)) ]
             (maxItems 1 (required (ofType TypeList)))) ] |}.

(** [resourceTencentCloudTdmqNamespaceRoleAttachment] *)
Definition resourceTencentCloudTdmqNamespaceRoleAttachment (pkg : Package) : Resource :=
  {| Create := Some (resourceTencentCloudTdmqNamespaceRoleAttachmentCreate pkg);
     Read := Some (resourceTencentCloudTdmqNamespaceRoleAttachmentRead pkg);
     Update := Some (resourceTencentCloudTdmqNamespaceRoleAttachmentUpdate pkg);
     Delete := Some (resourceTencentCloudTdmqNamespaceRoleAttachmentDelete pkg);
     Importer := Some ImportStatePassthrough;
     Schema_ :=
       [ ("environ_id", required (ofType TypeString));
         ("role_name", required (ofType TypeString));
         ("permissions", required (elemSchema (ofType TypeString) (ofType TypeList)));
         ("cluster_id", required (ofType TypeString));
         ("create_time", computed (ofType TypeString)) ] |}.

(** [resourceTencentCloudTdmqRabbitmqUser] *)
Definition resourceTencentCloudTdmqRabbitmqUser (pkg : Package) : Resource :=
  {| Create := Some (resourceTencentCloudTdmqRabbitmqUserCreate pkg);
     Read := Some (resourceTencentCloudTdmqRabbitmqUserRead pkg);
     Update := Some (resourceTencentCloudTdmqRabbitmqUserUpdate pkg);
     Delete := Some (resourceTencentCloudTdmqRabbitmqUserDelete pkg);
     Importer := None;
     Schema_ :=
       [ ("instance_id", required (ofType TypeString));
         ("user", required (ofType TypeString));
         ("password", sensitive (required (ofType TypeString)));
         ("description", optional (ofType TypeString));
         ("tags", elemSchema (ofType TypeString) (optional (ofType TypeList)));
         ("max_connections", optional (ofType TypeInt));
         ("max_channels", optional (ofType TypeInt)) ] |}.

(** [resourceTencentCloudEmrCluster] *)
Definition resourceTencentCloudEmrCluster (pkg : Package) : Resource :=
  {| Create := Some (resourceTencentCloudEmrClusterCreate pkg);
     Read := Some (resourceTencentCloudEmrClusterRead pkg);
     Delete := Some (resourceTencentCloudEmrClusterDelete pkg);
     Update := Some (resourceTencentCloudEmrClusterUpdate pkg);
     Importer := None;
     Schema_ :=
       [ ("display_strategy", forceNew (required (ofType TypeString)));
         ("product_id", forceNew (required (ofType TypeInt)));
         ("vpc_settings", forceNew (required (ofType TypeMap)));
         ("softwares",
           elemSchema (ofType TypeString) (forceNew (required (ofType TypeList))));
         ("resource_spec",
           elemResource
             [ ("master_resource_spec", buildResourceSpecSchema pkg);
               ("core_resource_spec", buildResourceSpecSchema pkg);
               ("task_resource_spec", buildResourceSpecSchema pkg);
               ("master_count", optional (ofType TypeInt));
               ("core_count", optional (ofType TypeInt));
               ("task_count", optional (ofType TypeInt));
               ("common_resource_spec", buildResourceSpecSchema pkg);
               ("common_count", forceNew (optional (ofType TypeInt))) ]
             (maxItems 1 (optional (ofType TypeList))));
         ("support_ha",
           validateFunc (validateIntegerInRange 0 1)
             (forceNew (required (ofType TypeInt))));
         ("instance_name",
           validateFunc (validateStringLengthInRange 6 36)
             (forceNew (required (ofType TypeString))));
         ("pay_mode",
           validateFunc (validateIntegerInRange 0 1) (required (ofType TypeInt)));
         ("placement", forceNew (required (ofType TypeMap)));
         ("time_span", required (ofType TypeInt));
         ("time_unit", required (ofType TypeString));
         ("login_settings", forceNew (required (ofType TypeMap)));
         ("extend_fs_field", optional (ofType TypeString));
         ("instance_id", computed (ofType TypeString));
         ("need_master_wan",
           validateFunc (validateAllowedStringValue (EMR_MASTER_WAN_TYPES pkg))
             (withDefault (VStr (EMR_MASTER_WAN_TYPE_NEED_MASTER_WAN pkg))
                (forceNew (optional (ofType TypeString)))));
         ("sg_id", forceNew (optional (ofType TypeString)));
         ("tags", computed (optional (ofType TypeMap))) ] |}.

(** The resource definitions of these files, by the name of the
    function that builds them. *)
Definition resources (pkg : Package) : list (string * Resource) :=
  [ ("resourceTencentCloudMonitorTmpCvmAgent", resourceTencentCloudMonitorTmpCvmAgent pkg);
    ("resourceTencentCloudWedataRuleTemplate", resourceTencentCloudWedataRuleTemplate pkg);
    ("resourceTencentCloudNatGateway", resourceTencentCloudNatGateway pkg);
    ("resourceTencentCloudScfFunctionEventInvokeConfig",
      resourceTencentCloudScfFunctionEventInvokeConfig pkg);
    ("resourceTencentCloudTdmqNamespaceRoleAttachment",
      resourceTencentCloudTdmqNamespaceRoleAttachment pkg);
    ("resourceTencentCloudTdmqRabbitmqUser", resourceTencentCloudTdmqRabbitmqUser pkg);
    ("resourceTencentCloudEmrCluster", resourceTencentCloudEmrCluster pkg) ].

(** The lifecycle operations a resource definition declares. *)
Definition declaresAllFour (r : Resource) : bool :=
  isSome (Create r) && isSome (Read r) && isSome (Update r) && isSome (Delete r).

(* ================================================================== *)
(** * Validation of a configuration against a schema                   *)
(* ================================================================== *)

(** The checks [helper/schema] makes on a configuration before any
    operation runs, for the schema fields the resource files use: a
    required argument is set, a computed-only attribute is not, the
    value has the declared type, a list or set has between [MinItems]
    and [MaxItems] elements ([MaxItems] 0 is no limit) and each element
    passes the element schema, a primitive passes its [ValidateFunc]. *)
Definition hasType (t : ValueType) (v : Value) : bool :=
  match t, v with
  | TypeBool, VBool _ | TypeInt, VInt _ | TypeString, VStr _
  | TypeList, VList _ | TypeSet, VSet _ | TypeMap, VMap _ => true
  | _, _ => false
  end.

Definition passes (f : option (Value -> bool)) (v : Value) : bool :=
  match f with
  | Some f => f v
  | None => true
  end.

Definition validateElem (s : Schema) (v : Value) : bool :=
  match Elem s with
  | Some (inl e) => hasType (Type_ e) v && passes (ValidateFunc e) v
  | _ => true
  end.

Definition validateValue (s : Schema) (v : Value) : bool :=
  hasType (Type_ s) v
  && match v with
     | VList l | VSet l =>
         (MinItems s <=? length l)%nat
         && ((MaxItems s =? 0)%nat || (length l <=? MaxItems s)%nat)
         && forallb (validateElem s) l
     | VMap _ => true
     | _ => passes (ValidateFunc s) v
     end.

Definition validateField (config : gmap string Value) (field : string * Schema) : bool :=
  let (k, s) := field in
  match config !! k with
  | None => negb (Required s)
  | Some v => (Required s || Optional s) && validateValue s v
  end.

Definition Validate (schema : list (string * Schema)) (config : gmap string Value) : bool :=
  forallb (validateField config) schema
  && forallb (fun k => existsb (String.eqb k) (map fst schema))
       (map fst (map_to_list config)).

(** What an operation reads for an argument of the configuration: the
    configured value, else the default of the schema. *)
Definition configured (schema : list (string * Schema)) (config : gmap string Value)
    (k : string) : option Value :=
  match config !! k with
  | Some v => Some v
  | None =>
      match List.find (fun f => String.eqb (fst f) k) schema with
      | Some (_, s) => Default s
      | None => None
      end
  end.

(* ================================================================== *)
(** * The retry discipline, as a property of programs                  *)
(* ================================================================== *)

(** The two timeouts declared for reads and writes. *)
Definition fixedTimeout (t : Timeout) : Prop :=
  t = readRetryTimeout \/ t = writeRetryTimeout.

(** A closure handed to [Retry] that does not itself call [Retry]. *)
Fixpoint flat {A : Type} (p : Prog A) : Prop :=
  match p with
  | Ret _ | Panic _ => True
  | SdkCall _ k => forall r, flat (k r)
  | ServiceCall _ k => forall r, flat (k r)
  | Sleep _ k => flat k
  | Retry _ _ _ _ => False
  end.

(** [disciplined err p]: in [p] no SDK call stands outside a [Retry],
    every [Retry] has one of the two fixed timeouts and a flat closure,
    and when a [Retry] returns an error [p] returns at once with that
    error ([err] reads the error out of the result of [p]). *)
Fixpoint disciplined {A : Type} (err : A -> option error) (p : Prog A) : Prop :=
  match p with
  | Ret _ | Panic _ => True
  | SdkCall _ _ => False
  | ServiceCall _ k => forall r, disciplined err (k r)
  | Sleep _ k => disciplined err k
  | Retry t f _ k =>
      fixedTimeout t
      /\ (forall s, flat (f s))
      /\ (forall s e, exists a, k (s, Some e) = Ret a /\ err a = Some e)
      /\ (forall s, disciplined err (k (s, None)))
  end.

(** What a trace shows of the discipline: the SDK calls all happen
    inside a [Retry] with a fixed timeout, and a [Retry] that returned
    an error is the last thing that happened. *)
Definition sdkInFixedRetry (ev : Event) : Prop :=
  match ev with
  | EvSdk inRetry _ _ => exists t, inRetry = Some t /\ fixedTimeout t
  | _ => True
  end.

Definition isSdk (ev : Event) : bool :=
  match ev with
  | EvSdk _ _ _ => true
  | _ => false
  end.

Definition isCall (ev : Event) : bool :=
  match ev with
  | EvSdk _ _ _ | EvService _ _ _ => true
  | _ => false
  end.

(** The error of the result of a run ([None] when it panicked or
    returned nil). *)
Definition returned (r : option Result) : option error :=
  match r with
  | Some (_, e) => e
  | None => None
  end.

(* ================================================================== *)
(** * What the events of a run say                                     *)
(* ================================================================== *)

(** The answer of a [DescribeNatGateways] call. *)
Definition describeNatGatewaysReply (ev : Event) : option (error + list NatGateway) :=
  match ev with
  | EvSdk _ c r =>
      match c in Sdk R return R -> option (error + list NatGateway) with
      | DescribeNatGateways _ => fun r => Some r
      | _ => fun _ => None
      end r
  | _ => None
  end.

(** The request of a [ModifyRuleTemplate] call. *)
Definition modifyRuleTemplateRequest (ev : Event) : option ModifyRuleTemplateRequest :=
  match ev with
  | EvSdk _ c _ =>
      match c with
      | ModifyRuleTemplate request => Some request
      | _ => None
      end
  | _ => None
  end.

(** The answer of a [DescribeInstancesById] call of the EMR service. *)
Definition describeInstancesReply (ev : Event)
  : option (list ClusterInstancesInfo * option error) :=
  match ev with
  | EvService _ c r =>
      match c in Service R return R -> option (list ClusterInstancesInfo * option error) with
      | EMRService_DescribeInstancesById _ _ => fun r => Some r
      | _ => fun _ => None
      end r
  | _ => None
  end.

(** The status of the first cluster an EMR poll saw. *)
Definition polledStatus (ev : Event) : option Z :=
  match describeInstancesReply ev with
  | Some (c :: _, _) => Some (ci_Status c)
  | _ => None
  end.

(** The addresses of a disassociate or an associate request. *)
Definition disassociated (ev : Event) : option (list string) :=
  match ev with
  | EvService _ c _ =>
      match c with
      | VpcService_DisassociateNatGatewayAddress _ ips => Some ips
      | _ => None
      end
  | _ => None
  end.

Definition associated (ev : Event) : option (list string) :=
  match ev with
  | EvSdk _ c _ =>
      match c with
      | AssociateNatGatewayAddress _ ips => Some ips
      | _ => None
      end
  | _ => None
  end.

(** The events a flat closure leaves when it runs inside a [Retry]
    with timeout [t]. *)
Definition inClosure (t : Timeout) (ev : Event) : Prop :=
  match ev with
  | EvSdk inRetry _ _ | EvService inRetry _ _ => inRetry = Some t
  | EvSleep _ => True
  | EvRetryEnd _ _ => False
  end.

(** The event of one poll of the NAT gateway operations. *)
Definition pollEvent (id : string) (r : error + list NatGateway) : Event :=
  EvSdk (Some readRetryTimeout) (DescribeNatGateways [id]) r.

(** The loop of the poll of the NAT gateway create, with [n] attempts
    left, and that of the delete. *)
Abbreviation createPollLoop C pkg id n last w :=
  (retry_loop C n (fun s => run C (Some readRetryTimeout) (natCreatePoll pkg id s))
     last tt w).

Abbreviation deletePollLoop C pkg id n last w :=
  (retry_loop C n (fun s => run C (Some readRetryTimeout) (natDeletePoll pkg id s))
     last tt w).

(** The event of one poll of the EMR cluster operations. *)
Definition emrEvent (t : Timeout) (id ds : string)
    (r : list ClusterInstancesInfo * option error) : Event :=
  EvService (Some t) (EMRService_DescribeInstancesById id ds) r.

(** The error of an EMR poll that saw another status. *)
Definition stillMessage (id : string) (status : Z) : error :=
  Errorf (id +:+ " create cluster endpoint  status still is " +:+ pretty status).

(** What a polling loop of the EMR cluster guarantees: it ends without
    error only after a poll whose error has one of [doneCodes], or that
    has no error and either lists no cluster or lists first a cluster
    with the [expected] status; and a poll that lists first a cluster
    with another status, without such an error code, is tried again
    while attempts are left. *)
Definition emrPollSpec (C : Cloud) (t : Timeout)
    (poll : unit -> Prog (unit * option RetryError))
    (doneCodes : list string) (expected : Z) (id ds : string) : Prop :=
  (forall n last w s' w' tr,
     retry_loop C n (fun s => run C (Some t) (poll s)) last tt w
     = (Some (s', None), w', tr) ->
     exists tr0 clusters err,
       tr = tr0 ++ [emrEvent t id ds (clusters, err)]
       /\ (hasCode err doneCodes = true
           \/ (err = None
               /\ (clusters = []
                   \/ exists c rest, clusters = c :: rest /\ ci_Status c = expected))))
  /\ (forall n last w c rest err w1,
        service C _ (EMRService_DescribeInstancesById id ds) w = ((c :: rest, err), w1) ->
        hasCode err doneCodes = false ->
        ci_Status c <> expected ->
        retry_loop C (S n) (fun s => run C (Some t) (poll s)) last tt w
        = let '(r, w2, tr2) :=
            retry_loop C n (fun s => run C (Some t) (poll s))
              (stillMessage id (ci_Status c)) tt w1 in
          (r, w2, [emrEvent t id ds (c :: rest, err)] ++ tr2)).

(** The [ModifyRuleTemplate] request that carries the template ID and
    nothing else. *)
Definition bareModifyRequest (pkg : Package) (d : ResourceData)
  : ModifyRuleTemplateRequest :=
  {| mrt_TemplateId := StrToUint64Point pkg (Id d);
     mrt_Type := None; mrt_Name := None; mrt_QualityDim := None;
     mrt_SourceObjectType := None; mrt_Description := None;
     mrt_SourceEngineTypes := []; mrt_MultiSourceFlag := None;
     mrt_SqlExpression := None; mrt_ProjectId := None; mrt_WhereFlag := None |}.

(** An argument that an update cannot change in place: it forces a new
    resource or is only computed. *)
Definition fixedArgument (s : Schema) : bool :=
  ForceNew s || (Computed s && negb (Required s || Optional s)).

(** An ID that does not split into two parts. *)
Definition broken (id : string) : Prop :=
  length (GoStrings.Split id FILED_SP) <> 2.

(** The addresses the associate requests of a run carry, request by
    request, and those of its disassociate requests. *)
Definition associatedBy (tr : list Event) : list (list string) := omap associated tr.
Definition disassociatedBy (tr : list Event) : list (list string) := omap disassociated tr.

(* ================================================================== *)
(** * An instance of the package and of the cloud, to run examples     *)
(* ================================================================== *)

Module Demo.

Definition isDigit (c : ascii) : bool :=
  (48 <=? nat_of_ascii c)%nat && (nat_of_ascii c <=? 57)%nat.

Fixpoint parseDigits (acc : Z) (s : string) : option Z :=
  match s with
  | EmptyString => Some acc
  | String c s' =>
      if isDigit c
      then parseDigits (10 * acc + Z.of_nat (nat_of_ascii c - 48)) s'
      else None
  end.

Definition parseUint (s : string) : option Z :=
  match s with
  | EmptyString => None
  | _ => parseDigits 0 s
  end.

(** A stand-in for the IP validator: digits and dots. *)
Definition dotted (v : Value) : bool :=
  match v with
  | VStr s =>
      negb (String.eqb s EmptyString)
      && forallb (fun c => isDigit c || Ascii.eqb c ".") (list_ascii_of_string s)
  | _ => false
  end.

Definition package : Package :=
  {| retryError := fun e codes =>
       match e with
       | TencentCloudSDKError code _ =>
           if existsb (String.eqb code) ("RequestLimitExceeded" :: codes)
           then RetryableError e
           else NonRetryableError e
       | Errorf _ => NonRetryableError e
       end;
     InternalError := "InternalError";
     VPCNotFound := "ResourceNotFound";
     NAT_FAILED_STATE := "FAILED";
     NAT_EIP_MAX_LIMIT := 10;
     EmrInternetStatusCreated := 2;
     EmrInternetStatusDeleted := 201;
     DisplayStrategyIsclusterList := "clusterList";
     EMR_MASTER_WAN_TYPE_NEED_MASTER_WAN := "NEED_MASTER_WAN";
     EMR_MASTER_WAN_TYPES := ["NEED_MASTER_WAN"; "NOT_NEED_MASTER_WAN"];
     buildResourceSpecSchema := optional (ofType TypeList);
     StrToUint64Point := parseUint;
     UInt64ToStr := pretty;
     validateIp := dotted |}.

Definition meta : Meta := {| Region := "ap-guangzhou" |}.

(** A cloud whose world is the list of its NAT gateways.  With
    [fail := Some e] every SDK call answers [e]; [emr] is what the EMR
    service answers to [DescribeInstancesById]. *)
Definition gatewayOf (request : CreateNatGatewayRequest) : NatGateway :=
  {| NatGatewayId := "nat-1asg3t63";
     NatGatewayName := cng_NatGatewayName request;
     VpcId := cng_VpcId request;
     MaxConcurrentConnection := cng_MaxConcurrentConnection request;
     InternetMaxBandwidthOut := cng_InternetMaxBandwidthOut request;
     CreatedTime := "2023-01-01 00:00:00";
     PublicIpAddressSet := Build_NatGatewayAddress <$> cng_PublicIpAddresses request;
     Zone := default "ap-guangzhou-3" (cng_Zone request);
     State := "AVAILABLE" |}.

Definition answerSdk (fail : option error) (R : Type) (c : Sdk R) (w : list NatGateway)
  : R * list NatGateway :=
  match c in Sdk R return R * list NatGateway with
  | CreateNatGateway request =>
      match fail with
      | Some e => (inl e, w)
      | None => (inr [gatewayOf request], gatewayOf request :: w)
      end
  | DescribeNatGateways ids =>
      match fail with
      | Some e => (inl e, w)
      | None =>
          (inr (List.filter (fun g => existsb (String.eqb (NatGatewayId g)) ids) w), w)
      end
  | DeleteNatGateway id =>
      match fail with
      | Some e => (Some e, w)
      | None => (None, List.filter (fun g => negb (String.eqb (NatGatewayId g) id)) w)
      end
  | ModifyNatGatewayAttribute _ | ResetNatGatewayConnection _ _
  | AssociateNatGatewayAddress _ _ | ModifyRuleTemplate _
  | ModifyRabbitMQUser _ | UpdateFunctionEventInvokeConfig _ => (fail, w)
  | CreatePrometheusAgent _ _ =>
      match fail with
      | Some e => (inl e, w)
      | None => (inr "agent-7kpfmm5y", w)
      end
  | CreateRuleTemplate _ =>
      match fail with
      | Some e => (inl e, w)
      | None => (inr 57, w)
      end
  | CreateRabbitMQUser _ =>
      match fail with
      | Some e => (inl e, w)
      | None => (inr "keep-user", w)
      end
  end%Z.

Definition answerService (emr : list ClusterInstancesInfo * option error)
    (R : Type) (c : Service R) (w : list NatGateway) : R * list NatGateway :=
  match c in Service R return R * list NatGateway with
  | TagService_ModifyTags _ _ _ => (None, w)
  | TagService_DescribeResourceTags _ _ _ _ => (inr ∅, w)
  | VpcService_DisassociateNatGatewayAddress _ _ => (None, w)
  | MonitorService_DescribeMonitorTmpCvmAgent instanceId agentId =>
      (inr (Some {| pa_InstanceId := Some instanceId;
                    pa_Name := Some "tf-agent";
                    pa_AgentId := Some agentId |}), w)
  | TdmqService_CreateTdmqNamespaceRoleAttachment _ _ _ _ => (None, w)
  | TdmqService_DescribeTdmqNamespaceRoleAttachment environId roleName _ =>
      (inr (Some {| er_EnvironmentId := environId;
                    er_RoleName := roleName;
                    er_Permissions := ["produce"; "consume"];
                    er_CreateTime := "2023-01-01 00:00:00" |}), w)
  | TdmqService_ModifyTdmqNamespaceRoleAttachment _ _ _ _ => (None, w)
  | TdmqService_DeleteTdmqNamespaceRoleAttachment _ _ _ => (None, w)
  | ScfService_DescribeScfFunctionEventInvokeConfigById _ _ =>
      (inr (Some {| atc_RetryConfig := Some [ {| RetryNum := Some 2%Z |} ];
                    atc_MsgTTL := Some 24%Z |}), w)
  | TdmqService_DescribeTdmqRabbitmqUserById _ _ => (inr None, w)
  | TdmqService_DeleteTdmqRabbitmqUserById _ _ => (None, w)
  | WedataService_DescribeWedataRuleTemplateById _ => (inr None, w)
  | WedataService_DeleteWedataRuleTemplateById _ => (None, w)
  | EMRService_CreateInstance _ => (inr "emr-ay9c3n5w", w)
  | EMRService_DescribeInstancesById _ _ => (emr, w)
  | EMRService_UpdateInstance _ => (None, w)
  | EMRService_DeleteInstance _ => (None, w)
  | MysqlService_OfflineIsolatedInstances _ => (None, w)
  end.

Definition cloud (fail : option error) (emr : list ClusterInstancesInfo * option error)
  : Cloud :=
  {| World := list NatGateway;
     sdk := answerSdk fail;
     service := answerService emr;
     retries := fun _ => 2 |}.

(** The NAT gateway of the documentation of the resource. *)
Definition natConfig : gmap string Value :=
  list_to_map
    [ ("vpc_id", VStr "vpc-4xxr2cy7");
      ("name", VStr "tf_example_nat_gateway");
      ("bandwidth", VInt 100);
      ("max_concurrent", VInt 1000000);
      ("assigned_eip_set", VSet [VStr "1.1.1.1"; VStr "2.2.2.2"]);
      ("tags", VMap [("tf_tag_key", VStr "tf_tag_value")]) ].

Definition natData : ResourceData := mkResourceData EmptyString ∅ natConfig.

Definition natCreated : ResourceData :=
  mkResourceData "nat-1asg3t63" natConfig natConfig.

(** An update that keeps the EIP 1.1.1.1 and adds five. *)
Definition natEipChange : ResourceData :=
  mkResourceData "nat-1asg3t63"
    (<["assigned_eip_set" := VSet [VStr "1.1.1.1"]]> natConfig)
    (<["assigned_eip_set" :=
         VSet [VStr "1.1.1.1"; VStr "2.2.2.1"; VStr "2.2.2.2"; VStr "2.2.2.3";
               VStr "2.2.2.4"; VStr "2.2.2.5"]]> natConfig).

Definition emrData : ResourceData :=
  mkResourceData EmptyString ∅
    (list_to_map [ ("display_strategy", VStr "clusterList") ]).

Definition wedataChanged : ResourceData :=
  mkResourceData "57"
    (list_to_map [ ("name", VStr "fo test"); ("project_id", VStr "1840731346428280832") ])
    (list_to_map [ ("name", VStr "renamed"); ("project_id", VStr "1840731346428280832") ]).


(** A monitor agent whose ID holds no separator. *)
Definition monitorBroken : ResourceData :=
  mkResourceData "prom-1uv0zf9q" ∅ ∅.

(** A monitor agent, an attachment and an invoke configuration with
    compound IDs. *)
Definition compound : ResourceData :=
  mkResourceData "keep-1676351130#default"
    ∅ (list_to_map [ ("cluster_id", VStr "pulsar-9n95ax58b9vn") ]).

(** A configuration of the NAT gateway that leaves [max_concurrent]
    out. *)
Definition natMinimal : gmap string Value :=
  list_to_map
    [ ("vpc_id", VStr "vpc-4xxr2cy7");
      ("name", VStr "tf_example_nat_gateway");
      ("assigned_eip_set", VSet [VStr "1.1.1.1"; VStr "2.2.2.2"]) ].

(** The world after the gateway of [natConfig] was created. *)
Definition natWorld : list NatGateway :=
  [ {| NatGatewayId := "nat-1asg3t63";
       NatGatewayName := "tf_example_nat_gateway";
       VpcId := "vpc-4xxr2cy7";
       MaxConcurrentConnection := 1000000;
       InternetMaxBandwidthOut := 100;
       CreatedTime := "2023-01-01 00:00:00";
       PublicIpAddressSet :=
         [ {| PublicIpAddress := "1.1.1.1" |}; {| PublicIpAddress := "2.2.2.2" |} ];
       Zone := "ap-guangzhou-3";
       State := "AVAILABLE" |} ].

(** An error of the SDK that [retryError] does not retry. *)
Definition unauthorized : error :=
  TencentCloudSDKError "UnauthorizedOperation" "not allowed".

(** A cluster the EMR service reports as created. *)
Definition created : list ClusterInstancesInfo * option error :=
  ([ {| ci_Status := 2; ci_MetaDb := None |} ], None).

End Demo.

(* ================================================================== *)
(** * The calls of a program                                          *)
(* ================================================================== *)

(** [allCalls PS PV p]: every call that stands in [p], the closures of
    its [Retry]s included, satisfies [PS] when it is a call on an SDK
    client and [PV] when it is a call of the service layer. *)
Fixpoint allCalls {A : Type} (PS : forall R, Sdk R -> Prop)
    (PV : forall R, Service R -> Prop) (p : Prog A) : Prop :=
  match p with
  | Ret _ | Panic _ => True
  | SdkCall c k => PS _ c /\ forall r, allCalls PS PV (k r)
  | ServiceCall c k => PV _ c /\ forall r, allCalls PS PV (k r)
  | Sleep _ k => allCalls PS PV k
  | Retry _ f _ k => (forall s, allCalls PS PV (f s)) /\ forall r, allCalls PS PV (k r)
  end.

(** The same of the call an event records. *)
Definition eventCall (PS : forall R, Sdk R -> Prop) (PV : forall R, Service R -> Prop)
    (ev : Event) : Prop :=
  match ev with
  | EvSdk _ c _ => PS _ c
  | EvService _ c _ => PV _ c
  | _ => True
  end.

(** No call on an SDK client. *)
Definition noSdk : forall R, Sdk R -> Prop := fun _ _ => False.

(* ================================================================== *)
(** * The EIPs an update of the NAT gateway has to move                *)
(* ================================================================== *)

(** [ip] is none of [eips], as the inner loops of the update decide it. *)
Definition notIn (eips : list string) (ip : string) : bool :=
  negb (existsb (String.eqb ip) eips).

(** The old and the new EIPs of an update, in the order of
    [Set.List()]. *)
Definition oldEips (d : ResourceData) : list string :=
  strings_of (asList (fst (GetChange d "assigned_eip_set"))).

Definition newEips (d : ResourceData) : list string :=
  strings_of (asList (snd (GetChange d "assigned_eip_set"))).

(** The old EIPs that the new set leaves out, and the new EIPs that the
    old set did not hold. *)
Definition removedEips (d : ResourceData) : list string :=
  List.filter (notIn (newEips d)) (oldEips d).

Definition addedEips (d : ResourceData) : list string :=
  List.filter (notIn (oldEips d)) (newEips d).

(** The request of a withheld EIP: none when [backUpOldIp] or
    [backUpNewIp] is still the empty string. *)
Definition withheld (ip : string) : list string :=
  if String.eqb ip EmptyString then [] else [ip].

(** What stands behind a call of the update of the NAT gateway: the
    change of an argument.  A [ModifyNatGatewayAttribute] carries the
    name and the bandwidth that changed, a [ResetNatGatewayConnection]
    the new [max_concurrent], an associate request only added EIPs; the
    update makes no other call on the SDK client. *)
Definition natUpdateSdk (d : ResourceData) : forall R, Sdk R -> Prop :=
  fun _ c =>
    match c with
    | ModifyNatGatewayAttribute request =>
        HasChange d "name" || HasChange d "bandwidth" = true
        /\ request
           = {| mng_NatGatewayId := Id d;
                mng_NatGatewayName :=
                  if HasChange d "name" then Some (asString (Get d "name")) else None;
                mng_InternetMaxBandwidthOut :=
                  if HasChange d "bandwidth"
                  then Some (uint64 (asInt (Get d "bandwidth"))) else None |}
    | ResetNatGatewayConnection natGatewayId maxConcurrent =>
        HasChange d "max_concurrent" = true
        /\ natGatewayId = Id d
        /\ maxConcurrent = uint64 (asInt (Get d "max_concurrent"))
    | AssociateNatGatewayAddress natGatewayId ips =>
        HasChange d "assigned_eip_set" = true
        /\ natGatewayId = Id d
        /\ ips <> []
        /\ Forall (fun ip => In ip (addedEips d)) ips
    | _ => False
    end.

(** The same of its calls of the service layer: a disassociate request
    carries only removed EIPs, and the tags are modified when they
    changed. *)
Definition natUpdateService (d : ResourceData) (meta : Meta) : forall R, Service R -> Prop :=
  fun _ c =>
    match c with
    | VpcService_DisassociateNatGatewayAddress natGatewayId ips =>
        HasChange d "assigned_eip_set" = true
        /\ natGatewayId = Id d
        /\ ips <> []
        /\ Forall (fun ip => In ip (removedEips d)) ips
    | TagService_ModifyTags resourceName _ _ =>
        HasChange d "tags" = true
        /\ resourceName = BuildTagResourceName "vpc" "nat" (Region meta) (Id d)
    | _ => False
    end.

(* ================================================================== *)
(** * Resource data that fits a schema, and the operations of a
      resource                                                         *)
(* ================================================================== *)

(** Every argument of [schema] that [m] holds has a value of the
    declared type, as [helper/schema] hands it to an operation. *)
Definition typedMap (schema : list (string * Schema)) (m : gmap string Value) : bool :=
  forallb (fun f => match m !! fst f with
                    | Some v => hasType (Type_ (snd f)) v
                    | None => true
                    end) schema.

Definition typed (schema : list (string * Schema)) (d : ResourceData) : bool :=
  typedMap schema (rd_state d) && typedMap schema (rd_attrs d).

(** The operations a resource definition declares. *)
Definition operations (r : Resource) : list (option Operation) :=
  [Create r; Read r; Update r; Delete r].

(** The resources other than the NAT gateway whose operations use
    [resource.Retry] with the read or the write timeout. *)
Definition retryingResources (pkg : Package) : list Resource :=
  [ resourceTencentCloudMonitorTmpCvmAgent pkg;
    resourceTencentCloudWedataRuleTemplate pkg;
    resourceTencentCloudScfFunctionEventInvokeConfig pkg;
    resourceTencentCloudTdmqNamespaceRoleAttachment pkg;
    resourceTencentCloudTdmqRabbitmqUser pkg ].

(** The number of separators in an ID. *)
Fixpoint separators (id : string) : nat :=
  match id with
  | EmptyString => 0
  | String _ id' => (if String.prefix FILED_SP id then 1 else 0) + separators id'
  end.

(** The answers that end the delete of the tdmq attachment: no error,
    or an SDK error with the code [VPCNotFound]. *)
Definition deletedOrNotFound (pkg : Package) (answer : option error) : Prop :=
  answer = None
  \/ exists message, answer = Some (TencentCloudSDKError (VPCNotFound pkg) message).

(** The calls among the events of a run. *)
Definition calls (tr : list Event) : list Event := List.filter isCall tr.

(** What stands behind a call of the update of the rabbitmq user whose
    ID holds the instance [instanceId] and the user [user]: a
    [ModifyRabbitMQUser] is sent when the description or one of the two
    limits changed and none of the fixed arguments did, for the user of
    the ID; the only other call is the describe call of the read. *)
Definition rabbitmqUpdateSdk (d : ResourceData) (instanceId user : string)
  : forall R, Sdk R -> Prop :=
  fun _ c =>
    match c with
    | ModifyRabbitMQUser request =>
        firstChanged d ["instance_id"; "user"; "password"] = None
        /\ HasChange d "description" || HasChange d "max_connections"
           || HasChange d "max_channels" = true
        /\ mru_InstanceId request = Some instanceId
        /\ mru_User request = Some user
    | _ => False
    end.

Definition rabbitmqUpdateService (instanceId user : string) : forall R, Service R -> Prop :=
  fun _ c =>
    match c with
    | TdmqService_DescribeTdmqRabbitmqUserById i u => i = instanceId /\ u = user
    | _ => False
    end.

(* ================================================================== *)
(** * What a program can return                                       *)
(* ================================================================== *)

(** [returns Q p]: every result that [p] can return satisfies [Q],
    whatever the calls answer.  The variables a [Retry] closure assigns
    are followed through the attempts: [Inv] holds of them when an
    attempt starts, [Fin] of them and of the error when [Retry] returns
    (after an attempt that returned nil or an error that is not
    retried, or when the attempts are used up). *)
Fixpoint returns {A : Type} (Q : A -> Prop) (p : Prog A) : Prop :=
  match p with
  | Ret a => Q a
  | Panic _ => True
  | SdkCall _ k => forall r, returns Q (k r)
  | ServiceCall _ k => forall r, returns Q (k r)
  | Sleep _ k => returns Q k
  | Retry _ f s k =>
      exists (Inv : _ -> Prop) (Fin : _ -> option error -> Prop),
        Inv s
        /\ (forall s0, Inv s0 ->
              returns (fun r => match snd r with
                                | Some (RetryableError _) => Inv (fst r)
                                | Some (NonRetryableError e) => Fin (fst r) (Some e)
                                | None => Fin (fst r) None
                                end) (f s0))
        /\ (forall s0 e, Inv s0 -> Fin s0 (Some e))
        /\ (forall s0 oe, Fin s0 oe -> returns Q (k (s0, oe)))
  end.

(** [d'] differs from [d] at most in the ID and in the attributes
    [keys]. *)
Definition sameExcept (keys : list string) (d d' : ResourceData) : Prop :=
  rd_state d' = rd_state d
  /\ forall k, ~ In k keys -> rd_attrs d' !! k = rd_attrs d !! k.

(** The attributes the read of each resource writes. *)
Definition natGatewayRefreshed : list string :=
  ["vpc_id"; "name"; "max_concurrent"; "bandwidth"; "created_time";
   "assigned_eip_set"; "zone"; "tags"].

Definition monitorTmpCvmAgentRefreshed : list string :=
  ["instance_id"; "name"; "agent_id"].

Definition wedataRuleTemplateRefreshed : list string :=
  ["type"; "name"; "quality_dim"; "source_object_type"; "description";
   "source_engine_types"; "multi_source_flag"; "sql_expression"; "where_flag"].

Definition scfFunctionEventInvokeConfigRefreshed : list string :=
  ["async_trigger_config"; "function_name"; "namespace"].

Definition tdmqNamespaceRoleAttachmentRefreshed : list string :=
  ["environ_id"; "role_name"; "permissions"; "create_time"].

Definition tdmqRabbitmqUserRefreshed : list string :=
  ["instance_id"; "user"; "password"; "description"; "tags"].

Definition emrClusterRefreshed : list string := ["tags"].

Definition refreshedBy (pkg : Package) : list (Resource * list string) :=
  [ (resourceTencentCloudNatGateway pkg, natGatewayRefreshed);
    (resourceTencentCloudMonitorTmpCvmAgent pkg, monitorTmpCvmAgentRefreshed);
    (resourceTencentCloudWedataRuleTemplate pkg, wedataRuleTemplateRefreshed);
    (resourceTencentCloudScfFunctionEventInvokeConfig pkg,
      scfFunctionEventInvokeConfigRefreshed);
    (resourceTencentCloudTdmqNamespaceRoleAttachment pkg,
      tdmqNamespaceRoleAttachmentRefreshed);
    (resourceTencentCloudTdmqRabbitmqUser pkg, tdmqRabbitmqUserRefreshed);
    (resourceTencentCloudEmrCluster pkg, emrClusterRefreshed) ].

(** The arguments of the schema of a resource that its read does not
    write. *)
Definition neverRefreshed (r : Resource) (refreshed : list string) : list string :=
  List.filter (notIn refreshed) (map fst (Schema_ r)).

(** What a read may do to the ID: keep it, or clear it, changing
    nothing else, and return nil. *)
Definition keepsOrDrops (d : ResourceData) (r : Result) : Prop :=
  Id (fst r) = Id d \/ (fst r = SetId EmptyString d /\ snd r = None).

(** The reads that treat a resource the cloud does not know as
    deleted. *)
Definition droppingReads (pkg : Package) : list Operation :=
  [ resourceTencentCloudNatGatewayRead pkg;
    resourceTencentCloudWedataRuleTemplateRead pkg;
    resourceTencentCloudScfFunctionEventInvokeConfigRead pkg;
    resourceTencentCloudTdmqNamespaceRoleAttachmentRead pkg;
    resourceTencentCloudTdmqRabbitmqUserRead pkg ].

(** The error of the read of the monitor agent for an agent the cloud
    does not know. *)
Definition doesNotExist (agentId : string) : error :=
  Errorf ("resource `tmpCvmAgent` " +:+ agentId +:+ " does not exist").

(** An asynchronous trigger configuration in which every field the
    read and the update of the scf invoke configuration look at is set:
    the retry configurations are there, each with its number of
    attempts, and so is the message retention period. *)
Definition fullySet (config : AsyncTriggerConfig) : Prop :=
  (exists l, atc_RetryConfig config = Some l /\ l <> []
             /\ Forall (fun rc => isSome (RetryNum rc) = true) l)
  /\ isSome (atc_MsgTTL config) = true.

(* ================================================================== *)
(** * The calls of the EMR cluster operations                          *)
(* ================================================================== *)

(** The database of an [OfflineIsolatedInstances] call. *)
Definition offlinedDatabase (ev : Event) : option string :=
  match ev with
  | EvService _ c _ =>
      match c with
      | MysqlService_OfflineIsolatedInstances db => Some db
      | _ => None
      end
  | _ => None
  end.

(** One of the three node counts of the EMR cluster changed. *)
Definition countChanged (d : ResourceData) : bool :=
  HasChange d "resource_spec.0.master_count"
  || HasChange d "resource_spec.0.task_count"
  || HasChange d "resource_spec.0.core_count".

(** What stands behind a call of the update of the EMR cluster: the
    tags are modified when they changed; [UpdateInstance] is called, and
    the cluster then polled, when a node count changed and
    [extend_fs_field] did not. *)
Definition emrUpdateService (pkg : Package) (d : ResourceData) (meta : Meta)
  : forall R, Service R -> Prop :=
  fun _ c =>
    match c with
    | TagService_ModifyTags resourceName _ _ =>
        HasChange d "tags" = true
        /\ resourceName = BuildTagResourceName "emr" "emr-instance" (Region meta) (Id d)
    | EMRService_UpdateInstance request =>
        countChanged d = true
        /\ HasChange d "extend_fs_field" = false
        /\ so_InstanceId request = Id d
        /\ isSome (so_MasterCount request) = HasChange d "resource_spec.0.master_count"
        /\ isSome (so_TaskCount request) = HasChange d "resource_spec.0.task_count"
        /\ isSome (so_CoreCount request) = HasChange d "resource_spec.0.core_count"
    | EMRService_DescribeInstancesById instanceId displayStrategy =>
        countChanged d = true
        /\ HasChange d "extend_fs_field" = false
        /\ instanceId = Id d
        /\ displayStrategy = DisplayStrategyIsclusterList pkg
    | _ => False
    end.

(* ================================================================== *)
(** * Further resource data, to run examples                           *)
(* ================================================================== *)

Module Cases.

(** An update of the NAT gateway that renames it and swaps the EIP
    2.2.2.2 for 3.3.3.3. *)
Definition natEipSwap : ResourceData :=
  mkResourceData "nat-1asg3t63" Demo.natConfig
    (<["name" := VStr "renamed"]>
       (<["assigned_eip_set" := VSet [VStr "1.1.1.1"; VStr "3.3.3.3"]]> Demo.natConfig)).

(** The configuration of an attachment that leaves [environ_id]
    empty. *)
Definition tdmqEmptyEnviron : ResourceData :=
  mkResourceData EmptyString ∅
    (list_to_map
       [ ("environ_id", VStr EmptyString);
         ("role_name", VStr "keep-role");
         ("permissions", VList [VStr "produce"; VStr "consume"]);
         ("cluster_id", VStr "pulsar-9n95ax58b9vn") ]).

(** An attachment whose permissions lose [consume]. *)
Definition tdmqAttachment (permissions : list string) : gmap string Value :=
  list_to_map
    [ ("environ_id", VStr "keep-ns");
      ("role_name", VStr "keep-role");
      ("permissions", VList (VStr <$> permissions));
      ("cluster_id", VStr "pulsar-9n95ax58b9vn") ].

Definition tdmqNarrowed : ResourceData :=
  mkResourceData "keep-ns#keep-role"
    (tdmqAttachment ["produce"; "consume"]) (tdmqAttachment ["produce"]).

(** The rabbitmq user of the documentation of the resource, and an
    update of its description. *)
Definition rabbitmqUser (description : string) : gmap string Value :=
  list_to_map
    [ ("instance_id", VStr "amqp-kzbe8p3n");
      ("user", VStr "keep-user");
      ("password", VStr "asdf1234");
      ("description", VStr description);
      ("tags", VList [VStr "management"; VStr "monitoring"]);
      ("max_connections", VInt 3);
      ("max_channels", VInt 3) ].

Definition rabbitmqData : ResourceData :=
  mkResourceData EmptyString ∅ (rabbitmqUser "test user").

Definition rabbitmqDescribed : ResourceData :=
  mkResourceData "amqp-kzbe8p3n#keep-user"
    (rabbitmqUser "test user") (rabbitmqUser "console user").

(** A monitor agent on an instance whose ID holds the separator. *)
Definition monitorSeparated : ResourceData :=
  mkResourceData EmptyString ∅
    (list_to_map [ ("instance_id", VStr "prom#1uv0zf9q"); ("name", VStr "tf-agent") ]).

(** An EMR cluster with its billing arguments and no [resource_spec],
    whose tags changed. *)
Definition emrBilling (tags : list (string * Value)) : gmap string Value :=
  list_to_map
    [ ("time_unit", VStr "h");
      ("time_span", VInt 1);
      ("pay_mode", VInt 0);
      ("tags", VMap tags) ].

Definition emrRetagged : ResourceData :=
  mkResourceData "emr-ay9c3n5w"
    (emrBilling [("owner", VStr "dev")]) (emrBilling [("owner", VStr "ops")]).

(** An EMR cluster that grows from two core nodes to three. *)
Definition emrSpec (coreCount : Z) : gmap string Value :=
  list_to_map
    [ ("time_unit", VStr "h");
      ("time_span", VInt 1);
      ("pay_mode", VInt 0);
      ("resource_spec",
        VList [VMap [("master_count", VInt 1); ("core_count", VInt coreCount)]]);
      ("resource_spec.0.master_count", VInt 1);
      ("resource_spec.0.core_count", VInt coreCount) ].

Definition emrScaled : ResourceData :=
  mkResourceData "emr-ay9c3n5w" (emrSpec 2) (emrSpec 3).

(** A deleted cluster with its meta database. *)
Definition withMetaDb : ClusterInstancesInfo :=
  {| ci_Status := 201; ci_MetaDb := Some "cdb-8v2p1m3k" |}.

Definition emrCreated : ResourceData :=
  mkResourceData "emr-ay9c3n5w" ∅ (list_to_map [ ("display_strategy", VStr "clusterList") ]).

(** The configuration the scf service of [Demo.cloud] answers. *)
Definition asyncConfig : AsyncTriggerConfig :=
  {| atc_RetryConfig := Some [ {| RetryNum := Some 2%Z |} ];
     atc_MsgTTL := Some 24%Z |}.

(** A cloud whose tdmq service answers [e] to every delete of an
    attachment. *)
Definition refusingService (e : error) (R : Type) (c : Service R) (w : list NatGateway)
  : R * list NatGateway :=
  match c in Service R return R * list NatGateway with
  | TdmqService_DeleteTdmqNamespaceRoleAttachment _ _ _ => (Some e, w)
  | c => Demo.answerService ([], None) _ c w
  end.

Definition refusing (e : error) : Cloud :=
  {| World := list NatGateway;
     sdk := Demo.answerSdk None;
     service := refusingService e;
     retries := fun _ => 2 |}.

(** A cloud whose monitor service knows no agent. *)
Definition noAgentService (R : Type) (c : Service R) (w : list NatGateway)
  : R * list NatGateway :=
  match c in Service R return R * list NatGateway with
  | MonitorService_DescribeMonitorTmpCvmAgent _ _ => (inr None, w)
  | c => Demo.answerService ([], None) _ c w
  end.

Definition noAgent : Cloud :=
  {| World := list NatGateway;
     sdk := Demo.answerSdk None;
     service := noAgentService;
     retries := fun _ => 2 |}.

(** The monitor agent of the documentation of the resource. *)
Definition monitorData : ResourceData :=
  mkResourceData EmptyString ∅
    (list_to_map [ ("instance_id", VStr "prom-1uv0zf9q"); ("name", VStr "tf-agent") ]).



End Cases.

(* ================================================================== *)
(** * Compound IDs                                                     *)
(* ================================================================== *)

#[local] Arguments String.append !_ _ / : simpl nomatch.

(** The examples of the documentation of [strings.Split]. *)
Example Split_commas :
  GoStrings.Split "a,b,c" "," = ["a"; "b"; "c"].
Proof. reflexivity. Qed.

Example Split_panama :
  GoStrings.Split "a man a plan a canal panama" "a "
  = [EmptyString; "man "; "plan "; "canal panama"].
Proof. reflexivity. Qed.

Example Split_explode :
  GoStrings.Split " xyz " EmptyString = [" "; "x"; "y"; "z"; " "].
Proof. reflexivity. Qed.

Example Split_empty :
  GoStrings.Split EmptyString "Bernardo O'Higgins" = [EmptyString].
Proof. reflexivity. Qed.

(** Compound IDs: one separator gives two parts, none gives one, two
    give three. *)
Example Split_compound :
  GoStrings.Split "prom-1uv0zf9q#agent-7kpfmm5y" FILED_SP
  = ["prom-1uv0zf9q"; "agent-7kpfmm5y"]
  /\ GoStrings.Split "prom-1uv0zf9q" FILED_SP = ["prom-1uv0zf9q"]
  /\ GoStrings.Split "a#b#c" FILED_SP = ["a"; "b"; "c"]
  /\ GoStrings.Split "#" FILED_SP = [EmptyString; EmptyString].
Proof. repeat split. Qed.

(** A set attribute changes when its elements do, not when their order
    does. *)
Example HasChange_set :
  let d old new :=
    mkResourceData "nat-1asg3t63"
      {[ "assigned_eip_set" := VSet old ]} {[ "assigned_eip_set" := VSet new ]} in
  HasChange (d [VStr "1.1.1.1"; VStr "2.2.2.2"] [VStr "2.2.2.2"; VStr "1.1.1.1"])
    "assigned_eip_set" = false
  /\ HasChange (d [VStr "1.1.1.1"] [VStr "1.1.1.1"; VStr "2.2.2.2"])
       "assigned_eip_set" = true
  /\ HasChange (d [] []) "name" = false.
Proof. repeat split. Qed.

Section SplitFacts.
Import GoStrings.

Lemma prefix_single c s :
  String.prefix (String c EmptyString) s =
  match s with
  | EmptyString => false
  | String c' _ => if ascii_dec c c' then true else false
  end.
Proof.
  destruct s as [|c' s']; simpl; [reflexivity|].
  destruct (ascii_dec c c'); [destruct s'|]; reflexivity.
Qed.

(** A string without the separator byte is one piece. *)
Lemma split_from_none c s :
  Contains s (String c EmptyString) = false ->
  split_from (String c EmptyString) 0 s = [s].
Proof.
  induction s as [|c' s IH]; intros H; [reflexivity|].
  cbn [Contains] in H. apply orb_false_iff in H as [Hp Hc].
  cbn [split_from]. rewrite Hp, (IH Hc). reflexivity.
Qed.

(** Splitting [a ++ sep ++ b] on a one-byte separator that occurs in
    neither part gives back the two parts. *)
Lemma split_from_join c a b :
  Contains a (String c EmptyString) = false ->
  Contains b (String c EmptyString) = false ->
  split_from (String c EmptyString) 0 (a +:+ String c b) = [a; b].
Proof.
  intros Ha Hb. induction a as [|c' a IH].
  - cbn [String.append split_from]. rewrite prefix_single.
    destruct (ascii_dec c c) as [_|n]; [|contradiction].
    cbn [String.length Nat.sub]. rewrite (split_from_none c b Hb). reflexivity.
  - cbn [Contains] in Ha. apply orb_false_iff in Ha as [Hp Hc].
    cbn [String.append split_from]. rewrite prefix_single in *.
    destruct (ascii_dec c c'); [discriminate|].
    rewrite (IH Hc). reflexivity.
Qed.

Lemma Split_join a b :
  Contains a FILED_SP = false ->
  Contains b FILED_SP = false ->
  Split (Join [a; b] FILED_SP) FILED_SP = [a; b]
  /\ Split (a +:+ FILED_SP +:+ b) FILED_SP = [a; b].
Proof.
  intros Ha Hb. unfold Split, Join, FILED_SP. cbn [String.concat].
  split; apply (split_from_join "#" a b); assumption.
Qed.

End SplitFacts.

Ltac broken_id H :=
  unfold broken in H;
  match goal with
  | |- context [GoStrings.Split ?id FILED_SP] =>
      destruct (GoStrings.Split id FILED_SP) as [|? [|? [|? ?]]]; simpl in H;
      try (exfalso; apply H; reflexivity); reflexivity
  end.

Ltac in_cases H :=
  repeat match type of H with
         | In _ (_ ++ _) => apply in_app_or in H as [H|H]
         | In _ (_ :: _) => destruct H as [<-|H]
         | In _ [] => destruct H
         end.

Section CompoundIds.
Variables (pkg : Package) (meta : Meta).
Import GoStrings.

Lemma monitor_read_broken d :
  broken (Id d) ->
  resourceTencentCloudMonitorTmpCvmAgentRead pkg d meta
  = Ret (d, Some (Errorf ("id is broken, id is " +:+ Id d))).
Proof. intros H. unfold resourceTencentCloudMonitorTmpCvmAgentRead. broken_id H. Qed.

Lemma tdmq_read_broken d :
  broken (Id d) ->
  resourceTencentCloudTdmqNamespaceRoleAttachmentRead pkg d meta
  = Ret (d, Some (Errorf ("environment role id is borken, id is " +:+ Id d))).
Proof. intros H. unfold resourceTencentCloudTdmqNamespaceRoleAttachmentRead. broken_id H. Qed.

Lemma tdmq_update_broken d :
  broken (Id d) ->
  resourceTencentCloudTdmqNamespaceRoleAttachmentUpdate pkg d meta
  = Ret (d, Some (Errorf ("environment role id is borken, id is " +:+ Id d))).
Proof. intros H. unfold resourceTencentCloudTdmqNamespaceRoleAttachmentUpdate. broken_id H. Qed.

Lemma tdmq_delete_broken d :
  broken (Id d) ->
  resourceTencentCloudTdmqNamespaceRoleAttachmentDelete pkg d meta
  = Ret (d, Some (Errorf ("environment role id is borken, id is " +:+ Id d))).
Proof. intros H. unfold resourceTencentCloudTdmqNamespaceRoleAttachmentDelete. broken_id H. Qed.

Lemma scf_read_broken d :
  broken (Id d) ->
  resourceTencentCloudScfFunctionEventInvokeConfigRead pkg d meta
  = Ret (d, Some (Errorf ("id is broken," +:+ Id d))).
Proof. intros H. unfold resourceTencentCloudScfFunctionEventInvokeConfigRead. broken_id H. Qed.

Lemma scf_update_broken d :
  broken (Id d) ->
  resourceTencentCloudScfFunctionEventInvokeConfigUpdate pkg d meta
  = Ret (d, Some (Errorf ("id is broken," +:+ Id d))).
Proof. intros H. unfold resourceTencentCloudScfFunctionEventInvokeConfigUpdate. broken_id H. Qed.

(** The operations that read the ID back hand its two parts to the
    call they make. *)
Lemma parse_two_parts d a b :
  Id d = a +:+ FILED_SP +:+ b ->
  Contains a FILED_SP = false ->
  Contains b FILED_SP = false ->
  let clusterId := asString (Get d "cluster_id") in
  (exists k, resourceTencentCloudMonitorTmpCvmAgentRead pkg d meta
             = ServiceCall (MonitorService_DescribeMonitorTmpCvmAgent a b) k)
  /\ (exists f k,
        resourceTencentCloudTdmqNamespaceRoleAttachmentRead pkg d meta
        = Retry readRetryTimeout f d k
        /\ forall d0, exists k0,
             f d0 = ServiceCall
                      (TdmqService_DescribeTdmqNamespaceRoleAttachment a b clusterId) k0)
  /\ (exists permissions k,
        resourceTencentCloudTdmqNamespaceRoleAttachmentUpdate pkg d meta
        = ServiceCall
            (TdmqService_ModifyTdmqNamespaceRoleAttachment a b permissions clusterId) k)
  /\ (exists f k,
        resourceTencentCloudTdmqNamespaceRoleAttachmentDelete pkg d meta
        = Retry writeRetryTimeout f tt k
        /\ forall u, exists k0,
             f u = ServiceCall
                     (TdmqService_DeleteTdmqNamespaceRoleAttachment a b clusterId) k0)
  /\ (exists k, resourceTencentCloudScfFunctionEventInvokeConfigRead pkg d meta
                = ServiceCall (ScfService_DescribeScfFunctionEventInvokeConfigById b a) k)
  /\ (exists config f k,
        resourceTencentCloudScfFunctionEventInvokeConfigUpdate pkg d meta
        = Retry writeRetryTimeout f tt k
        /\ forall u, exists k0,
             f u = SdkCall
                     (UpdateFunctionEventInvokeConfig
                        {| ufe_Namespace := b; ufe_FunctionName := a;
                           ufe_AsyncTriggerConfig := config |}) k0).
Proof.
  intros HId Ha Hb clusterId.
  destruct (Split_join a b Ha Hb) as [_ HS].
  unfold resourceTencentCloudMonitorTmpCvmAgentRead,
    resourceTencentCloudTdmqNamespaceRoleAttachmentRead,
    resourceTencentCloudTdmqNamespaceRoleAttachmentUpdate,
    resourceTencentCloudTdmqNamespaceRoleAttachmentDelete,
    resourceTencentCloudScfFunctionEventInvokeConfigRead,
    resourceTencentCloudScfFunctionEventInvokeConfigUpdate.
  rewrite HId, HS.
  repeat split.
  - eexists. reflexivity.
  - do 2 eexists. split; [reflexivity|]. intros d0. eexists. reflexivity.
  - destruct (GetChange d "permissions") as [old now].
    do 2 eexists. reflexivity.
  - do 2 eexists. split; [reflexivity|]. intros u. eexists. reflexivity.
  - eexists. reflexivity.
  - do 3 eexists. split; [reflexivity|]. intros u. eexists. reflexivity.
Qed.

(** What [d.GetOk] reads of a string argument that is set. *)
Lemma GetOk_string d k s :
  rd_attrs d !! k = Some (VStr s) ->
  asString (GetOk d k) = s
  /\ isSet (GetOk d k) && (String.length (asString (GetOk d k)) <? 1)%nat = false.
Proof.
  intros H. unfold GetOk. rewrite H. cbn [is_zero].
  destruct s as [|c s]; cbn; split; reflexivity.
Qed.

(** The create of the monitor agent joins the instance ID and the agent
    ID the cloud answered, and reads the resource back under that ID. *)
Lemma monitor_create_sets_id C d w agentId w1 :
  (forall i n, sdk C _ (CreatePrometheusAgent i n) w = (inr agentId, w1)) ->
  exists ev,
    run C None (resourceTencentCloudMonitorTmpCvmAgentCreate pkg d meta) w
    = let '(r, w2, tr) :=
        run C None
          (resourceTencentCloudMonitorTmpCvmAgentRead pkg
             (SetId (Join [asString (GetOk d "instance_id"); agentId] FILED_SP) d) meta)
          w1 in
      (r, w2, ev :: EvRetryEnd writeRetryTimeout None :: tr).
Proof.
  intros Hs. eexists.
  unfold resourceTencentCloudMonitorTmpCvmAgentCreate.
  cbn [bind retry sdk_call run retry_loop]. rewrite Hs. cbn [run fst snd app].
  match goal with
  | |- context [run C None ?p w1] => destruct (run C None p w1) as [[r w2] tr]
  end.
  reflexivity.
Qed.

(** The create of the attachment joins the environment and the role and
    reads the resource back under that ID. *)
Lemma tdmq_create_sets_id C d w e r c w1 :
  rd_attrs d !! "environ_id" = Some (VStr e) ->
  rd_attrs d !! "role_name" = Some (VStr r) ->
  rd_attrs d !! "cluster_id" = Some (VStr c) ->
  (forall p, service C _ (TdmqService_CreateTdmqNamespaceRoleAttachment e r p c) w
             = (None, w1)) ->
  exists ev,
    run C None (resourceTencentCloudTdmqNamespaceRoleAttachmentCreate pkg d meta) w
    = let '(res, w2, tr) :=
        run C None
          (resourceTencentCloudTdmqNamespaceRoleAttachmentRead pkg
             (SetId (e +:+ FILED_SP +:+ r) d) meta) w1 in
      (res, w2, ev :: tr).
Proof.
  intros He Hr Hc Hs. eexists.
  unfold resourceTencentCloudTdmqNamespaceRoleAttachmentCreate.
  destruct (GetOk_string d _ _ He) as [-> ->].
  destruct (GetOk_string d _ _ Hr) as [-> ->].
  destruct (GetOk_string d _ _ Hc) as [-> ->].
  unfold orReturn. cbn [bind service_call run]. rewrite Hs.
  match goal with
  | |- context [run C None ?p w1] => destruct (run C None p w1) as [[res w2] tr]
  end.
  reflexivity.
Qed.

(** Claim C1, amended.  Each of the three resources with a compound ID
    (monitor tmp cvm agent, tdmq namespace role attachment, scf function
    event invoke config) sets in create the ID to its two components
    joined by FILED_SP; such an ID splits back into exactly the two
    components when neither holds the separator; the operations that
    read the ID (read of the agent; read, update and delete of the
    attachment; read and update of the invoke configuration) hand these
    two components to the call they make, and return an error, without
    any call, for every ID that does not split into exactly two parts. *)
Theorem compound_id_round_trip :
  (forall C d w agentId w1,
     (forall i n, sdk C _ (CreatePrometheusAgent i n) w = (inr agentId, w1)) ->
     exists ev,
       run C None (resourceTencentCloudMonitorTmpCvmAgentCreate pkg d meta) w
       = let '(r, w2, tr) :=
           run C None
             (resourceTencentCloudMonitorTmpCvmAgentRead pkg
                (SetId (Join [asString (GetOk d "instance_id"); agentId] FILED_SP) d) meta)
             w1 in
         (r, w2, ev :: EvRetryEnd writeRetryTimeout None :: tr))
  /\ (forall C d w e r c w1,
        rd_attrs d !! "environ_id" = Some (VStr e) ->
        rd_attrs d !! "role_name" = Some (VStr r) ->
        rd_attrs d !! "cluster_id" = Some (VStr c) ->
        (forall p, service C _ (TdmqService_CreateTdmqNamespaceRoleAttachment e r p c) w
                   = (None, w1)) ->
        exists ev,
          run C None (resourceTencentCloudTdmqNamespaceRoleAttachmentCreate pkg d meta) w
          = let '(res, w2, tr) :=
              run C None
                (resourceTencentCloudTdmqNamespaceRoleAttachmentRead pkg
                   (SetId (e +:+ FILED_SP +:+ r) d) meta) w1 in
            (res, w2, ev :: tr))
  /\ (forall d,
        resourceTencentCloudScfFunctionEventInvokeConfigCreate pkg d meta
        = resourceTencentCloudScfFunctionEventInvokeConfigUpdate pkg
            (SetId (asString (Get d "function_name") +:+ FILED_SP
                    +:+ asString (Get d "namespace")) d) meta)
  /\ (forall a b,
        Contains a FILED_SP = false ->
        Contains b FILED_SP = false ->
        Split (Join [a; b] FILED_SP) FILED_SP = [a; b]
        /\ Split (a +:+ FILED_SP +:+ b) FILED_SP = [a; b])
  /\ (forall d a b,
        Id d = a +:+ FILED_SP +:+ b ->
        Contains a FILED_SP = false ->
        Contains b FILED_SP = false ->
        let clusterId := asString (Get d "cluster_id") in
        (exists k, resourceTencentCloudMonitorTmpCvmAgentRead pkg d meta
                   = ServiceCall (MonitorService_DescribeMonitorTmpCvmAgent a b) k)
        /\ (exists f k,
              resourceTencentCloudTdmqNamespaceRoleAttachmentRead pkg d meta
              = Retry readRetryTimeout f d k
              /\ forall d0, exists k0,
                   f d0 = ServiceCall
                            (TdmqService_DescribeTdmqNamespaceRoleAttachment a b clusterId)
                            k0)
        /\ (exists permissions k,
              resourceTencentCloudTdmqNamespaceRoleAttachmentUpdate pkg d meta
              = ServiceCall
                  (TdmqService_ModifyTdmqNamespaceRoleAttachment a b permissions clusterId)
                  k)
        /\ (exists f k,
              resourceTencentCloudTdmqNamespaceRoleAttachmentDelete pkg d meta
              = Retry writeRetryTimeout f tt k
              /\ forall u, exists k0,
                   f u = ServiceCall
                           (TdmqService_DeleteTdmqNamespaceRoleAttachment a b clusterId) k0)
        /\ (exists k, resourceTencentCloudScfFunctionEventInvokeConfigRead pkg d meta
                      = ServiceCall
                          (ScfService_DescribeScfFunctionEventInvokeConfigById b a) k)
        /\ (exists config f k,
              resourceTencentCloudScfFunctionEventInvokeConfigUpdate pkg d meta
              = Retry writeRetryTimeout f tt k
              /\ forall u, exists k0,
                   f u = SdkCall
                           (UpdateFunctionEventInvokeConfig
                              {| ufe_Namespace := b; ufe_FunctionName := a;
                                 ufe_AsyncTriggerConfig := config |}) k0))
  /\ (forall d,
        broken (Id d) ->
        resourceTencentCloudMonitorTmpCvmAgentRead pkg d meta
        = Ret (d, Some (Errorf ("id is broken, id is " +:+ Id d)))
        /\ resourceTencentCloudTdmqNamespaceRoleAttachmentRead pkg d meta
           = Ret (d, Some (Errorf ("environment role id is borken, id is " +:+ Id d)))
        /\ resourceTencentCloudTdmqNamespaceRoleAttachmentUpdate pkg d meta
           = Ret (d, Some (Errorf ("environment role id is borken, id is " +:+ Id d)))
        /\ resourceTencentCloudTdmqNamespaceRoleAttachmentDelete pkg d meta
           = Ret (d, Some (Errorf ("environment role id is borken, id is " +:+ Id d)))
        /\ resourceTencentCloudScfFunctionEventInvokeConfigRead pkg d meta
           = Ret (d, Some (Errorf ("id is broken," +:+ Id d)))
        /\ resourceTencentCloudScfFunctionEventInvokeConfigUpdate pkg d meta
           = Ret (d, Some (Errorf ("id is broken," +:+ Id d)))).
Proof.
  split; [exact monitor_create_sets_id|].
  split; [exact tdmq_create_sets_id|].
  split; [reflexivity|].
  split; [exact Split_join|].
  split; [exact parse_two_parts|].
  intros d H.
  split; [exact (monitor_read_broken d H)|].
  split; [exact (tdmq_read_broken d H)|].
  split; [exact (tdmq_update_broken d H)|].
  split; [exact (tdmq_delete_broken d H)|].
  split; [exact (scf_read_broken d H)|exact (scf_update_broken d H)].
Qed.

End CompoundIds.

(* ================================================================== *)
(** * Runs of programs                                               *)
(* ================================================================== *)

Section RunLemmas.
Variable C : Cloud.

Lemma run_bind {A B} (p : Prog A) (g : A -> Prog B) ctx w :
  run C ctx (bind p g) w =
  match run C ctx p w with
  | (None, w', tr) => (None, w', tr)
  | (Some a, w', tr) =>
      let '(b, w'', tr') := run C ctx (g a) w' in (b, w'', tr ++ tr')
  end.
Proof.
  revert B g ctx w.
  induction p as [A a|A m|A R c k IH|A R c k IH|A n k IH|A St t f _ s k IH];
    intros B g ctx w; cbn [run bind].
  - destruct (run C ctx (g a) w) as [[b w'] tr]; reflexivity.
  - reflexivity.
  - destruct (sdk C R c w) as [r w1]. rewrite IH.
    destruct (run C ctx (k r) w1) as [[[a|] w2] tr]; [|reflexivity].
    destruct (run C ctx (g a) w2) as [[b w3] tr']; reflexivity.
  - destruct (service C R c w) as [r w1]. rewrite IH.
    destruct (run C ctx (k r) w1) as [[[a|] w2] tr]; [|reflexivity].
    destruct (run C ctx (g a) w2) as [[b w3] tr']; reflexivity.
  - rewrite IH.
    destruct (run C ctx k w) as [[[a|] w2] tr]; [|reflexivity].
    destruct (run C ctx (g a) w2) as [[b w3] tr']; reflexivity.
  - match goal with
    | |- context [retry_loop C ?n ?f0 ?l s w] =>
        destruct (retry_loop C n f0 l s w) as [[[[s' oe]|] w1] tr]; [|reflexivity]
    end.
    rewrite IH.
    destruct (run C ctx (k (s', oe)) w1) as [[[a|] w2] tr2]; [|reflexivity].
    destruct (run C ctx (g a) w2) as [[b w3] tr3].
    rewrite <- app_assoc. reflexivity.
Qed.

(** Every event of a retry loop is an event of a run of its closure. *)
Lemma retry_loop_Forall {St} (P : Event -> Prop) n
    (f : St -> World C -> option (St * option RetryError) * World C * list Event) :
  (forall s w r w' tr, f s w = (r, w', tr) -> Forall P tr) ->
  forall last s w r w' tr,
    retry_loop C n f last s w = (r, w', tr) -> Forall P tr.
Proof.
  intros Hf. induction n as [|n IH]; intros last s w r w' tr; simpl.
  - intros [= <- <- <-]. constructor.
  - destruct (f s w) as [[[[s1 [[e|e]|]]|] w1] tr1] eqn:Ef.
    + destruct (retry_loop C n f e s1 w1) as [[r2 w2] tr2] eqn:El.
      intros [= <- <- <-]. apply Forall_app. split; eauto.
    + intros [= <- <- <-]; eauto.
    + intros [= <- <- <-]; eauto.
    + intros [= <- <- <-]; eauto.
Qed.

(** A retry loop that ends without error ends with a run of its
    closure that returned nil. *)
Lemma retry_loop_success {St} n
    (f : St -> World C -> option (St * option RetryError) * World C * list Event) :
  forall last s w s' w' tr,
    retry_loop C n f last s w = (Some (s', None), w', tr) ->
    exists s0 w0 tr0 tr1,
      f s0 w0 = (Some (s', None), w', tr1) /\ tr = tr0 ++ tr1.
Proof.
  induction n as [|n IH]; intros last s w s' w' tr; simpl.
  - intros [=].
  - destruct (f s w) as [[[[s1 [[e|e]|]]|] w1] tr1] eqn:Ef.
    + destruct (retry_loop C n f e s1 w1) as [[r2 w2] tr2] eqn:El.
      intros [= -> -> <-].
      destruct (IH _ _ _ _ _ _ El) as (s0 & w0 & tr0 & tr3 & Hf & ->).
      exists s0, w0, (tr1 ++ tr0), tr3. split; [assumption|].
      rewrite app_assoc. reflexivity.
    + intros [=].
    + intros [= <- <- <-]. exists s, w, [], tr1. split; [assumption|reflexivity].
    + intros [=].
Qed.

Lemma flat_run {A} (p : Prog A) t :
  flat p ->
  forall w r w' tr, run C (Some t) p w = (r, w', tr) -> Forall (inClosure t) tr.
Proof.
  induction p as [A a|A m|A R c k IH|A R c k IH|A n k IH|A St t0 f _ s k IH];
    cbn [flat run]; intros Hflat w r w' tr.
  - intros [= <- <- <-]. constructor.
  - intros [= <- <- <-]. constructor.
  - destruct (sdk C R c w) as [x w1].
    destruct (run C (Some t) (k x) w1) as [[a w2] tr2] eqn:E.
    intros [= <- <- <-]. constructor; [reflexivity|]. eapply IH; eauto.
  - destruct (service C R c w) as [x w1].
    destruct (run C (Some t) (k x) w1) as [[a w2] tr2] eqn:E.
    intros [= <- <- <-]. constructor; [reflexivity|]. eapply IH; eauto.
  - destruct (run C (Some t) k w) as [[a w2] tr2] eqn:E.
    intros [= <- <- <-]. constructor; [exact I|]. eapply IH; eauto.
  - contradiction.
Qed.

Lemma inClosure_fixed t ev :
  fixedTimeout t -> inClosure t ev -> sdkInFixedRetry ev.
Proof. intros Ht. destruct ev; simpl; eauto. Qed.

(** Where the first [EvRetryEnd] of a trace sits, when the events
    before it come from a closure. *)
Lemma split_at_retry_end t l1 x l2 l1' t' e l2' :
  Forall (inClosure t) l1 ->
  l1 ++ x :: l2 = l1' ++ EvRetryEnd t' e :: l2' ->
  (l1' = l1 /\ x = EvRetryEnd t' e /\ l2 = l2')
  \/ (exists m, l2 = m ++ EvRetryEnd t' e :: l2').
Proof.
  intros H. revert l1'. induction H as [|y l1 Hy H IH]; intros l1' E.
  - destruct l1' as [|z l1']; simpl in E.
    + injection E as -> ->. left. auto.
    + injection E as -> ->. right. eauto.
  - destruct l1' as [|z l1']; simpl in E.
    + injection E as -> _. contradiction.
    + injection E as -> E. destruct (IH _ E) as [(-> & -> & ->)|[m ->]].
      * left. auto.
      * right. eauto.
Qed.

(** What the discipline of a program means for its runs. *)
Lemma disciplined_run {A} (err : A -> option error) (p : Prog A) :
  disciplined err p ->
  forall w r w' tr,
    run C None p w = (r, w', tr) ->
    Forall sdkInFixedRetry tr
    /\ forall tr1 t e tr2,
         tr = tr1 ++ EvRetryEnd t (Some e) :: tr2 ->
         tr2 = [] /\ exists a, r = Some a /\ err a = Some e.
Proof.
  induction p as [A a|A m|A R c k IH|A R c k IH|A n k IH|A St t0 f _ s k IH];
    cbn [disciplined run]; intros Hd w r w' tr.
  - intros [= <- <- <-]. split; [constructor|].
    intros [|? ?] ? ? ? [=].
  - intros [= <- <- <-]. split; [constructor|].
    intros [|? ?] ? ? ? [=].
  - contradiction.
  - destruct (service C R c w) as [x w1].
    destruct (run C None (k x) w1) as [[a w2] tr2] eqn:E.
    intros [= <- <- <-]. destruct (IH x err (Hd x) _ _ _ _ E) as [Ha Hb].
    split; [constructor; [exact I|assumption]|].
    intros [|z tr1] t e tr3 [=]; subst. eauto.
  - destruct (run C None k w) as [[a w2] tr2] eqn:E.
    intros [= <- <- <-]. destruct (IH err Hd _ _ _ _ E) as [Ha Hb].
    split; [constructor; [exact I|assumption]|].
    intros [|z tr1] t e tr3 [=]; subst. eauto.
  - destruct Hd as (Ht & Hf & Hk & Hn).
    match goal with
    | |- context [retry_loop C ?n ?f0 ?l s w] =>
        destruct (retry_loop C n f0 l s w) as [[[[s' oe]|] w1] ltr] eqn:El
    end.
    + assert (Hl : Forall (inClosure t0) ltr).
      { eapply retry_loop_Forall; [|exact El].
        intros s0 w0 r0 w0' tr0 E0. eapply flat_run; [apply Hf|exact E0]. }
      destruct (run C None (k (s', oe)) w1) as [[a w2] tr2] eqn:E.
      intros [= <- <- <-].
      assert (Hk' : match oe with
                    | Some e => tr2 = [] /\ exists x, a = Some x /\ err x = Some e
                    | None => True
                    end).
      { destruct oe as [e|]; [|exact I].
        destruct (Hk s' e) as (x & Hx & Hex). rewrite Hx in E.
        cbn [run] in E. injection E as <- <- <-. eauto. }
      split.
      * apply Forall_app. split.
        -- eapply Forall_impl; [exact Hl|]. intros ev. apply inClosure_fixed, Ht.
        -- constructor; [exact I|].
           destruct oe as [e|].
           ++ destruct Hk' as [-> _]. constructor.
           ++ eapply IH; [apply Hn|exact E].
      * intros tr1 t e tr3 Etr.
        destruct (split_at_retry_end _ _ _ _ _ _ _ _ Hl Etr) as [(_ & Ex & <-)|[m Em]].
        -- injection Ex as <- ->. exact Hk'.
        -- destruct oe as [e'|].
           ++ destruct Hk' as [-> _]. destruct m; discriminate.
           ++ destruct (IH (s', None) err (Hn s') _ _ _ _ E) as [_ Hb].
              eapply Hb. exact Em.
    + intros [= <- <- <-]. split.
      * eapply Forall_impl.
        -- eapply retry_loop_Forall; [|exact El].
           intros s0 w0 r0 w0' tr0 E0. eapply flat_run; [apply Hf|exact E0].
        -- intros ev. apply inClosure_fixed, Ht.
      * intros tr1 t e tr3 Etr. exfalso.
        assert (Hl : Forall (inClosure t0) (tr1 ++ EvRetryEnd t (Some e) :: tr3)).
        { rewrite <- Etr. eapply retry_loop_Forall; [|exact El].
          intros s0 w0 r0 w0' tr0 E0. eapply flat_run; [apply Hf|exact E0]. }
        apply Forall_app in Hl as [_ Hl]. inversion Hl; subst. assumption.
Qed.

(** The discipline of a sequence of blocks. *)
Lemma disciplined_bind {A B} (errA : A -> option error) (errB : B -> option error)
    (p : Prog A) (g : A -> Prog B) :
  disciplined errA p ->
  (forall a e, errA a = Some e -> exists b, g a = Ret b /\ errB b = Some e) ->
  (forall a, errA a = None -> disciplined errB (g a)) ->
  disciplined errB (bind p g).
Proof.
  intros Hp Hg1 Hg2.
  induction p as [A a|A m|A R c k IH|A R c k IH|A n k IH|A St t0 f _ s k IH];
    cbn [disciplined bind] in *.
  - destruct (errA a) as [e|] eqn:Ea.
    + destruct (Hg1 a e Ea) as (b & -> & _). exact I.
    + apply Hg2, Ea.
  - exact I.
  - contradiction.
  - intros r. eapply IH; eauto.
  - eapply IH; eauto.
  - destruct Hp as (Ht & Hf & Hk & Hn). repeat split; try assumption.
    + intros s0 e. destruct (Hk s0 e) as (a & -> & Ha).
      cbn [bind]. apply Hg1, Ha.
    + intros s0. eapply IH; eauto.
Qed.
End RunLemmas.

Section Blocks.
Variable C : Cloud.

Lemma run_orReturn d blk rest w :
  run C None (orReturn d blk rest) w =
  match run C None blk w with
  | (None, w1, tr1) => (None, w1, tr1)
  | (Some (Some e), w1, tr1) => (Some (d, Some e), w1, tr1 ++ [])
  | (Some None, w1, tr1) =>
      let '(r, w2, tr2) := run C None rest w1 in (r, w2, tr1 ++ tr2)
  end.
Proof.
  unfold orReturn. rewrite run_bind.
  destruct (run C None blk w) as [[[[e|]|] w1] tr1]; reflexivity.
Qed.

Lemma run_retry_block {St} t (f : St -> Prog (St * option RetryError)) s ctx w :
  run C ctx (r <- retry t f s ;; Ret (snd r)) w =
  match retry_loop C (S (retries C t)) (fun s0 => run C (Some t) (f s0)) timeoutError s w with
  | (None, w1, tr) => (None, w1, tr)
  | (Some (s', oe), w1, tr) => (Some oe, w1, tr ++ [EvRetryEnd t oe])
  end.
Proof.
  cbn [bind retry run].
  match goal with
  | |- context [retry_loop C ?n ?f0 ?l s w] =>
      destruct (retry_loop C n f0 l s w) as [[[[s' oe]|] w1] tr]; reflexivity
  end.
Qed.

Lemma run_retry_bind {St A} t (f : St -> Prog (St * option RetryError)) s
    (g : St * option error -> Prog A) ctx w :
  run C ctx (r <- retry t f s ;; g r) w =
  match retry_loop C (S (retries C t)) (fun s0 => run C (Some t) (f s0)) timeoutError s w with
  | (None, w1, tr) => (None, w1, tr)
  | (Some r, w1, tr) =>
      let '(a, w2, tr2) := run C ctx (g r) w1 in
      (a, w2, tr ++ EvRetryEnd t (snd r) :: tr2)
  end.
Proof.
  cbn [bind retry run].
  match goal with
  | |- context [retry_loop C ?n ?f0 ?l s w] =>
      destruct (retry_loop C n f0 l s w) as [[[[s' oe]|] w1] tr]; reflexivity
  end.
Qed.

Lemma retry_loop_S {St} n
    (f : St -> World C -> option (St * option RetryError) * World C * list Event)
    last s w :
  retry_loop C (S n) f last s w =
  match f s w with
  | (None, w', tr) => (None, w', tr)
  | (Some (s', None), w', tr) => (Some (s', None), w', tr)
  | (Some (s', Some (NonRetryableError e)), w', tr) => (Some (s', Some e), w', tr)
  | (Some (s', Some (RetryableError e)), w', tr) =>
      let '(r, w'', tr') := retry_loop C n f e s' w' in
      (r, w'', tr ++ tr')
  end.
Proof. reflexivity. Qed.
End Blocks.


(* ================================================================== *)
(** * The retry discipline of the NAT gateway                        *)
(* ================================================================== *)

Section NatDiscipline.
Variables (pkg : Package) (meta : Meta).

Lemma disciplined_orReturn d blk rest :
  disciplined id blk -> disciplined snd rest -> disciplined snd (orReturn d blk rest).
Proof.
  intros Hb Hr. unfold orReturn.
  eapply disciplined_bind; [exact Hb| |].
  - intros a e Ha. unfold id in Ha. subst a. eexists. split; reflexivity.
  - intros a Ha. unfold id in Ha. subst a. exact Hr.
Qed.

Lemma disciplined_andThen blk rest :
  disciplined id blk -> disciplined id rest -> disciplined id (andThen blk rest).
Proof.
  intros Hb Hr. unfold andThen.
  eapply disciplined_bind; [exact Hb| |].
  - intros a e Ha. unfold id in Ha. subst a. eexists. split; reflexivity.
  - intros a Ha. unfold id in Ha. subst a. exact Hr.
Qed.

(** A block that is one [Retry] and returns its error. *)
Lemma disciplined_retry_block {St} t (f : St -> Prog (St * option RetryError)) s :
  fixedTimeout t -> (forall s0, flat (f s0)) ->
  disciplined id (r <- retry t f s ;; Ret (snd r)).
Proof.
  intros Ht Hf. cbn. repeat split; try assumption.
  intros s0 e. eexists. split; reflexivity.
Qed.

Lemma flat_retryClosure_sdk codes (c : Sdk (option error)) u :
  flat (retryClosure pkg codes (sdk_call c) u).
Proof. cbn. intros [e|]; exact I. Qed.

Lemma flat_retryClosure_service codes (c : Service (option error)) u :
  flat (retryClosure pkg codes (service_call c) u).
Proof. cbn. intros [e|]; exact I. Qed.

Lemma flat_natCreatePoll id u : flat (natCreatePoll pkg id u).
Proof.
  cbn. intros [e|[|nat [|? ?]]]; cbn; try exact I.
  destruct (String.eqb _ _); exact I.
Qed.

Lemma flat_natDeletePoll id u : flat (natDeletePoll pkg id u).
Proof.
  cbn. intros [e|[|nat ?]]; cbn; try exact I.
  destruct (String.eqb _ _); cbn; exact I.
Qed.

Create HintDb discipline.
Hint Resolve disciplined_orReturn disciplined_andThen disciplined_retry_block
  flat_retryClosure_sdk flat_retryClosure_service flat_natCreatePoll flat_natDeletePoll : discipline.
Hint Extern 1 (fixedTimeout _) => (left; reflexivity) || (right; reflexivity) : discipline.

Lemma nat_read_disciplined d :
  disciplined snd (resourceTencentCloudNatGatewayRead pkg d meta).
Proof.
  unfold resourceTencentCloudNatGatewayRead. cbn.
  repeat split.
  - left; reflexivity.
  - intros s [e|l]; exact I.
  - intros s e. eexists. split; reflexivity.
  - intros [[|nat l]|]; cbn; try exact I.
    intros [e|tags]; exact I.
Qed.

Lemma nat_create_disciplined d :
  disciplined snd (resourceTencentCloudNatGatewayCreate pkg d meta).
Proof.
  unfold resourceTencentCloudNatGatewayCreate. cbn [bind retry disciplined].
  repeat split.
  - left; reflexivity.
  - intros s. cbn. intros [e|l]; exact I.
  - intros s e. eexists. split; reflexivity.
  - intros [[|gw l]|]; cbn [bind disciplined]; try exact I.
    apply disciplined_orReturn.
    + destruct (0 <? _)%nat; cbn; [intros ?|]; exact I.
    + apply disciplined_orReturn; [|apply nat_read_disciplined].
      apply disciplined_retry_block; auto with discipline.
Qed.

Lemma natUpdateEips_disciplined d : disciplined id (natUpdateEips pkg d).
Proof.
  unfold natUpdateEips, associate, disassociate.
  destruct (HasChange d "assigned_eip_set"); [|exact I].
  apply disciplined_andThen.
  { destruct (0 <? _)%nat; [|exact I].
    apply disciplined_retry_block; auto with discipline. }
  cbn [bind sleep disciplined].
  apply disciplined_andThen.
  { destruct (0 <? _)%nat; [|exact I].
    apply disciplined_retry_block; auto with discipline. }
  cbn [bind sleep disciplined].
  apply disciplined_andThen.
  { destruct (negb _); [|exact I].
    apply disciplined_retry_block; auto with discipline. }
  destruct (negb _); [|exact I].
  apply disciplined_retry_block; auto with discipline.
Qed.

Lemma nat_update_disciplined d :
  disciplined snd (resourceTencentCloudNatGatewayUpdate pkg d meta).
Proof.
  unfold resourceTencentCloudNatGatewayUpdate.
  destruct (firstChanged d ["zone"]); [exact I|].
  apply disciplined_orReturn.
  { unfold natUpdateAttribute. destruct (_ || _); [|exact I].
    apply disciplined_retry_block; auto with discipline. }
  apply disciplined_orReturn.
  { unfold natUpdateConcurrent. destruct (HasChange _ _); [|exact I].
    apply disciplined_retry_block; auto with discipline. }
  apply disciplined_orReturn; [apply natUpdateEips_disciplined|].
  apply disciplined_orReturn; [|exact I].
  unfold natUpdateTags. destruct (HasChange _ _); [|exact I].
  destruct (GetChange _ _) as [o n]. destruct (diffTags _ _) as [rt dt].
  cbn. intros ?. exact I.
Qed.

Lemma nat_delete_disciplined d :
  disciplined snd (resourceTencentCloudNatGatewayDelete pkg d meta).
Proof.
  unfold resourceTencentCloudNatGatewayDelete.
  apply disciplined_orReturn; [apply disciplined_retry_block; auto with discipline|].
  cbn [bind sleep disciplined].
  apply disciplined_orReturn; [apply disciplined_retry_block; auto with discipline|exact I].
Qed.
End NatDiscipline.

(** Claim C6.  In a run of any lifecycle operation of the NAT gateway
    resource, every call on the SDK client happens inside a
    [resource.Retry] whose timeout is readRetryTimeout or
    writeRetryTimeout, and a [Retry] that returned an error is the last
    event of the run: the operation makes no further call and returns
    that error. *)
Theorem nat_gateway_retry_discipline (pkg : Package) (meta : Meta) (C : Cloud)
    (op : Operation) (d : ResourceData) (w : World C) r w' tr :
  let resource := resourceTencentCloudNatGateway pkg in
  In (Some op) [Create resource; Read resource; Update resource; Delete resource] ->
  run C None (op d meta) w = (r, w', tr) ->
  Forall sdkInFixedRetry tr
  /\ forall tr1 t e tr2,
       tr = tr1 ++ EvRetryEnd t (Some e) :: tr2 ->
       tr2 = [] /\ returned r = Some e.
Proof.
  intros resource Hop Hrun.
  assert (Hd : disciplined snd (op d meta)).
  { cbn in Hop. destruct Hop as [[= <-]|[[= <-]|[[= <-]|[[= <-]|[]]]]].
    - apply nat_create_disciplined.
    - apply nat_read_disciplined.
    - apply nat_update_disciplined.
    - apply nat_delete_disciplined. }
  destruct (disciplined_run C snd _ Hd _ _ _ _ Hrun) as [Ha Hb].
  split; [exact Ha|].
  intros tr1 t e tr2 E. destruct (Hb _ _ _ _ E) as (-> & [d' oe] & -> & Hoe).
  split; [reflexivity|exact Hoe].
Qed.

(* ================================================================== *)
(** * The polls of the NAT gateway                                   *)
(* ================================================================== *)

Section NatDelete.
Variables (C : Cloud) (pkg : Package) (meta : Meta).

(** One run of the closure of the delete poll. *)
Lemma run_natDeletePoll id u w :
  run C (Some readRetryTimeout) (natDeletePoll pkg id u) w =
  let (r, w1) := sdk C _ (DescribeNatGateways [id]) w in
  match r with
  | inl e => (Some (tt, Some (retryError pkg e [])), w1, [pollEvent id r])
  | inr [] => (Some (tt, None), w1, [pollEvent id r])
  | inr (nat :: _) =>
      if String.eqb (State nat) (NAT_FAILED_STATE pkg)
      then (Some (tt, Some (NonRetryableError (Errorf "delete NAT failed"))), w1,
            [pollEvent id r])
      else (Some (tt, Some (RetryableError (Errorf "deleting retry"))), w1,
            [pollEvent id r; EvSleep 3])
  end.
Proof.
  unfold natDeletePoll. cbn [bind sdk_call run].
  destruct (sdk C _ (DescribeNatGateways [id]) w) as [[e|[|nat l]] w1]; cbn; try reflexivity.
  destruct (String.eqb _ _); reflexivity.
Qed.

(** The delete poll ends without error only on an empty answer. *)
Lemma natDeletePoll_success id n last w s' w' tr :
  deletePollLoop C pkg id n last w = (Some (s', None), w', tr) ->
  exists tr0, tr = tr0 ++ [pollEvent id (inr [])].
Proof.
  intros H. apply retry_loop_success in H as (s0 & w0 & tr0 & tr1 & Hf & ->).
  exists tr0. f_equal.
  rewrite run_natDeletePoll in Hf.
  destruct (sdk C _ (DescribeNatGateways [id]) w0) as [[e|[|nat l]] w1].
  - discriminate.
  - injection Hf as <- <- <-. reflexivity.
  - destruct (String.eqb _ _); discriminate.
Qed.

(** A poll that saw the failed state ends the loop with the error
    "delete NAT failed". *)
Lemma natDeletePoll_failed id n :
  forall last w r w' tr,
  deletePollLoop C pkg id n last w = (r, w', tr) ->
  forall ev nat l,
    In ev tr ->
    describeNatGatewaysReply ev = Some (inr (nat :: l)) ->
    State nat = NAT_FAILED_STATE pkg ->
    r = Some (tt, Some (Errorf "delete NAT failed")).
Proof.
  induction n as [|n IH]; intros last w r w' tr H ev nat l Hin Hev Hst.
  - injection H as <- <- <-. destruct Hin.
  - rewrite retry_loop_S, run_natDeletePoll in H.
    destruct (sdk C _ (DescribeNatGateways [id]) w) as [[e|[|nat0 l0]] w1].
    + destruct (retryError pkg e []) as [e'|e'].
      * destruct (retry_loop C n _ e' tt w1) as [[r2 w2] tr2] eqn:El.
        injection H as <- <- <-.
        destruct Hin as [<-|Hin]; [discriminate|]. eapply IH; eauto.
      * injection H as <- <- <-. destruct Hin as [<-|[]]. discriminate.
    + injection H as <- <- <-. destruct Hin as [<-|[]]. discriminate.
    + destruct (String.eqb (State nat0) (NAT_FAILED_STATE pkg)) eqn:Es.
      * injection H as <- <- <-. reflexivity.
      * destruct (retry_loop C n _ _ tt w1) as [[r2 w2] tr2] eqn:El.
        injection H as <- <- <-.
        destruct Hin as [<-|[<-|Hin]].
        -- cbn in Hev. injection Hev as <- <-.
           apply String.eqb_neq in Es. contradiction.
        -- discriminate.
        -- eapply IH; eauto.
Qed.

(** One run of the closure around [DeleteNatGateway]. *)
Lemma run_deleteClosure id u w :
  run C (Some writeRetryTimeout)
    (retryClosure pkg [] (sdk_call (DeleteNatGateway id)) u) w =
  let (r, w1) := sdk C _ (DeleteNatGateway id) w in
  (Some (tt, match r with
             | Some e => Some (retryError pkg e [])
             | None => None
             end), w1,
   [EvSdk (Some writeRetryTimeout) (DeleteNatGateway id) r]).
Proof.
  unfold retryClosure. cbn [bind sdk_call run].
  destruct (sdk C _ (DeleteNatGateway id) w) as [[e|] w1]; reflexivity.
Qed.

(** Claim C3.  The delete of the NAT gateway returns success only after
    a poll of DescribeNatGateways, made after the gateway was deleted
    without error, reported no gateway; when a poll of the delete sees
    the first gateway in the failed state (NAT_FAILED_STATE) the delete
    returns the error "delete NAT failed"; any other non-empty answer
    makes the poll sleep three seconds and be tried again while its
    timeout leaves attempts, after which the last error is returned. *)
Theorem nat_delete_waits_until_gone d w :
  (forall d' w' tr,
     run C None (resourceTencentCloudNatGatewayDelete pkg d meta) w
     = (Some (d', None), w', tr) ->
     exists tr1 tr2,
       tr = tr1 ++ pollEvent (Id d) (inr []) :: tr2
       /\ In (EvSdk (Some writeRetryTimeout) (DeleteNatGateway (Id d)) None) tr1)
  /\ (forall r w' tr ev nat l,
        run C None (resourceTencentCloudNatGatewayDelete pkg d meta) w = (r, w', tr) ->
        In ev tr ->
        describeNatGatewaysReply ev = Some (inr (nat :: l)) ->
        State nat = NAT_FAILED_STATE pkg ->
        returned r = Some (Errorf "delete NAT failed"))
  /\ (forall n last w0 nat l w1,
        sdk C _ (DescribeNatGateways [Id d]) w0 = (inr (nat :: l), w1) ->
        State nat <> NAT_FAILED_STATE pkg ->
        deletePollLoop C pkg (Id d) (S n) last w0
        = let '(r, w2, tr2) :=
            deletePollLoop C pkg (Id d) n (Errorf "deleting retry") w1 in
          (r, w2, [pollEvent (Id d) (inr (nat :: l)); EvSleep 3] ++ tr2)).
Proof.
  split; [|split].
  - intros d' w' tr.
    unfold resourceTencentCloudNatGatewayDelete.
    rewrite run_orReturn, run_retry_block.
    destruct (retry_loop C _ _ timeoutError tt w) as [[[[u [e|]]|] w1] tr1] eqn:E1;
      try discriminate.
    cbn [bind sleep run]. rewrite run_orReturn, run_retry_block.
    destruct (retry_loop C _ _ timeoutError tt w1) as [[[[u2 [e|]]|] w2] tr2] eqn:E2;
      try discriminate.
    cbn [run]. intros [= <- <- <-].
    apply natDeletePoll_success in E2 as [tr0 ->].
    apply retry_loop_success in E1 as (s0 & w0 & tr3 & tr4 & Hf & ->).
    rewrite run_deleteClosure in Hf.
    destruct (sdk C _ (DeleteNatGateway (Id d)) w0) as [[e|] w3]; [discriminate|].
    injection Hf as <- <- <-.
    exists (((tr3 ++ [EvSdk (Some writeRetryTimeout) (DeleteNatGateway (Id d)) None])
             ++ [EvRetryEnd writeRetryTimeout None]) ++ EvSleep 10 :: tr0),
      [EvRetryEnd readRetryTimeout None].
    split.
    + rewrite <- !app_assoc. cbn [app]. reflexivity.
    + apply in_or_app. left. apply in_or_app. left. apply in_or_app. right. left.
      reflexivity.
  - intros r w' tr ev nat l.
    unfold resourceTencentCloudNatGatewayDelete.
    rewrite run_orReturn, run_retry_block.
    destruct (retry_loop C _ _ timeoutError tt w) as [[r1 w1] tr1] eqn:E1.
    assert (F1 : forall x, In x tr1 -> describeNatGatewaysReply x = None).
    { apply List.Forall_forall.
      eapply retry_loop_Forall
        with (P := fun ev => describeNatGatewaysReply ev = None); [|exact E1].
      intros s0 w0 r0 w0' tr0 E0. cbv beta in E0. rewrite run_deleteClosure in E0.
      destruct (sdk C _ (DeleteNatGateway (Id d)) w0) as [x w3].
      injection E0 as <- <- <-. repeat constructor. }
    destruct r1 as [[u [e|]]|].
    + intros [= <- <- <-] Hin Hev Hst. exfalso.
      rewrite app_nil_r in Hin. apply in_app_or in Hin as [Hin|[<-|[]]]; [|discriminate].
      rewrite (F1 _ Hin) in Hev. discriminate.
    + cbn [bind sleep run]. rewrite run_orReturn, run_retry_block.
      destruct (retry_loop C _ _ timeoutError tt w1) as [[r2 w2] tr2] eqn:E2.
      intros Hrun Hin Hev Hst.
      assert (Hpoll : In ev tr2 -> r2 = Some (tt, Some (Errorf "delete NAT failed"))).
      { intros Hin2. exact (natDeletePoll_failed _ _ _ _ _ _ _ E2 _ _ _ Hin2 Hev Hst). }
      destruct r2 as [[u2 [e|]]|]; cbn [run] in Hrun; injection Hrun as <- <- <-;
        in_cases Hin;
        try (rewrite (F1 _ Hin) in Hev; discriminate Hev);
        try discriminate Hev;
        specialize (Hpoll Hin); try discriminate Hpoll.
      injection Hpoll as Hu He. subst e. reflexivity.
    + intros [= <- <- <-] Hin Hev Hst. exfalso.
      rewrite (F1 _ Hin) in Hev. discriminate.
  - intros n last w0 nat l w1 Hs Hst.
    rewrite retry_loop_S, run_natDeletePoll, Hs.
    apply String.eqb_neq in Hst. rewrite Hst.
    destruct (retry_loop C n _ _ tt w1) as [[r2 w2] tr2]. reflexivity.
Qed.
End NatDelete.

Section NatCreate.
Variables (C : Cloud) (pkg : Package) (meta : Meta).

(** One run of the closure of the create poll. *)
Lemma run_natCreatePoll id u w :
  run C (Some readRetryTimeout) (natCreatePoll pkg id u) w =
  let (r, w1) := sdk C _ (DescribeNatGateways [id]) w in
  (Some (tt, match r with
             | inl e => Some (retryError pkg e [])
             | inr [nat] =>
                 if String.eqb (State nat) "AVAILABLE" then None
                 else Some (RetryableError (Errorf "creating not ready retry"))
             | inr _ => Some (NonRetryableError (Errorf "creating error"))
             end), w1, [pollEvent id r]).
Proof.
  unfold natCreatePoll. cbn [bind sdk_call run].
  destruct (sdk C _ (DescribeNatGateways [id]) w) as [[e|[|nat [|? ?]]] w1];
    cbn; try reflexivity.
  destruct (String.eqb _ _); reflexivity.
Qed.

Lemma natCreatePoll_success id n last w s' w' tr :
  createPollLoop C pkg id n last w = (Some (s', None), w', tr) ->
  exists tr0 nat,
    tr = tr0 ++ [pollEvent id (inr [nat])] /\ State nat = "AVAILABLE".
Proof.
  intros H. apply retry_loop_success in H as (s0 & w0 & tr0 & tr1 & Hf & ->).
  cbv beta in Hf. rewrite run_natCreatePoll in Hf.
  destruct (sdk C _ (DescribeNatGateways [id]) w0) as [[e|[|nat [|? ?]]] w1];
    try discriminate.
  destruct (String.eqb (State nat) "AVAILABLE") eqn:Es; [|discriminate].
  injection Hf as <- <- <-. exists tr0, nat. split; [reflexivity|].
  apply String.eqb_eq, Es.
Qed.

(** A poll that did not see exactly one gateway ends the loop with the
    error "creating error". *)
Lemma natCreatePoll_not_one id n :
  forall last w r w' tr,
  createPollLoop C pkg id n last w = (r, w', tr) ->
  forall ev l,
    In ev tr ->
    describeNatGatewaysReply ev = Some (inr l) ->
    length l <> 1 ->
    r = Some (tt, Some (Errorf "creating error")).
Proof.
  induction n as [|n IH]; intros last w r w' tr H ev l Hin Hev Hl.
  - injection H as <- <- <-. destruct Hin.
  - rewrite retry_loop_S, run_natCreatePoll in H.
    destruct (sdk C _ (DescribeNatGateways [id]) w) as [[e|[|nat [|? ?]]] w1].
    + destruct (retryError pkg e []) as [e'|e'].
      * destruct (retry_loop C n _ e' tt w1) as [[r2 w2] tr2] eqn:El.
        injection H as <- <- <-.
        destruct Hin as [<-|Hin]; [discriminate|]. eapply IH; eauto.
      * injection H as <- <- <-. destruct Hin as [<-|[]]. discriminate.
    + injection H as <- <- <-. reflexivity.
    + destruct (String.eqb (State nat) "AVAILABLE").
      * injection H as <- <- <-. destruct Hin as [<-|[]].
        cbn in Hev. injection Hev as <-. contradiction Hl. reflexivity.
      * destruct (retry_loop C n _ _ tt w1) as [[r2 w2] tr2] eqn:El.
        injection H as <- <- <-.
        destruct Hin as [<-|Hin].
        -- cbn in Hev. injection Hev as <-. contradiction Hl. reflexivity.
        -- eapply IH; eauto.
    + injection H as <- <- <-. reflexivity.
Qed.

(** One run of the closure around [CreateNatGateway]. *)
Lemma run_createClosure request response w :
  run C (Some readRetryTimeout)
    (res <- sdk_call (CreateNatGateway request) ;;
     match res with
     | inl e => Ret (response, Some (retryError pkg e []))
     | inr result => Ret (Some result, None)
     end) w =
  let (r, w1) := sdk C _ (CreateNatGateway request) w in
  (Some match r with
        | inl e => (response, Some (retryError pkg e []))
        | inr result => (Some result, None)
        end, w1,
   [EvSdk (Some readRetryTimeout) (CreateNatGateway request) r]).
Proof.
  cbn [bind sdk_call run].
  destruct (sdk C _ (CreateNatGateway request) w) as [[e|l] w1]; reflexivity.
Qed.

Lemma run_tagBlock (b : bool) (c : Service (option error)) w :
  exists o w1 tr,
    run C None (if b then service_call c else Ret None) w = (Some o, w1, tr)
    /\ forall x, In x tr -> describeNatGatewaysReply x = None.
Proof.
  destruct b; cbn [service_call run].
  - destruct (service C _ c w) as [o w1]. do 3 eexists. split; [reflexivity|].
    intros x [<-|[]]. reflexivity.
  - do 3 eexists. split; [reflexivity|]. intros x [].
Qed.

(** Claim C2.  The create of the NAT gateway returns success only if,
    after a CreateNatGateway call that answered a gateway, a poll of
    DescribeNatGateways saw exactly that one gateway in the state
    "AVAILABLE"; a poll that sees one gateway in another state is tried
    again while the timeout leaves attempts; a poll whose answer does
    not hold exactly one gateway ends the wait at once with the
    non-retryable error "creating error", which create returns (a
    describe answer of another size in the trace of create is either
    that poll or the final read after the gateway was seen available). *)
Theorem nat_create_waits_until_available d w :
  (forall d' w' tr,
     run C None (resourceTencentCloudNatGatewayCreate pkg d meta) w
     = (Some (d', None), w', tr) ->
     exists tr1 tr2 tr3 request gw gws nat,
       tr = tr1 ++ EvSdk (Some readRetryTimeout) (CreateNatGateway request)
                     (inr (gw :: gws))
                :: tr2 ++ pollEvent (NatGatewayId gw) (inr [nat]) :: tr3
       /\ State nat = "AVAILABLE")
  /\ (forall id n last w0 nat w1,
        sdk C _ (DescribeNatGateways [id]) w0 = (inr [nat], w1) ->
        State nat <> "AVAILABLE" ->
        createPollLoop C pkg id (S n) last w0
        = let '(r, w2, tr2) :=
            createPollLoop C pkg id n (Errorf "creating not ready retry") w1 in
          (r, w2, [pollEvent id (inr [nat])] ++ tr2))
  /\ (forall id n last w0 l w1,
        sdk C _ (DescribeNatGateways [id]) w0 = (inr l, w1) ->
        length l <> 1 ->
        createPollLoop C pkg id (S n) last w0
        = (Some (tt, Some (Errorf "creating error")), w1, [pollEvent id (inr l)]))
  /\ (forall r w' tr ev l,
        run C None (resourceTencentCloudNatGatewayCreate pkg d meta) w = (r, w', tr) ->
        In ev tr ->
        describeNatGatewaysReply ev = Some (inr l) ->
        length l <> 1 ->
        returned r = Some (Errorf "creating error")
        \/ exists ev' nat,
             In ev' tr
             /\ describeNatGatewaysReply ev' = Some (inr [nat])
             /\ State nat = "AVAILABLE").
Proof.
  split; [|split; [|split]].
  - intros d' w' tr.
    unfold resourceTencentCloudNatGatewayCreate.
    rewrite run_retry_bind.
    match goal with
    | |- context [retry_loop C ?n ?f0 ?l None w] =>
        destruct (retry_loop C n f0 l None w) as [[[[resp [e|]]|] w1] tr1] eqn:E1
    end; cbn [fst snd run]; try discriminate.
    destruct resp as [[|gw gws]|]; cbn [run]; try discriminate.
    rewrite run_orReturn.
    match goal with
    | |- context [run C None (if ?b then service_call ?c else Ret None) w1] =>
        destruct (run_tagBlock b c w1) as (o & w2 & trt & -> & _)
    end.
    destruct o as [e|]; [discriminate|].
    rewrite run_orReturn, run_retry_block.
    match goal with
    | |- context [retry_loop C ?n ?f0 ?l tt w2] =>
        destruct (retry_loop C n f0 l tt w2) as [[[[u [e|]]|] w3] tr2] eqn:E2
    end; try discriminate.
    match goal with
    | |- context [run C None ?p w3] =>
        destruct (run C None p w3) as [[r4 w4] tr4]
    end.
    intros [= -> <- <-].
    apply natCreatePoll_success in E2 as (tr0 & nat & -> & Hst).
    apply retry_loop_success in E1 as (s0 & w0 & tr5 & tr6 & Hf & ->).
    cbv beta in Hf. rewrite run_createClosure in Hf.
    match type of Hf with
    | context [sdk C _ (CreateNatGateway ?req) w0] =>
        destruct (sdk C _ (CreateNatGateway req) w0) as [[e|l] w5] eqn:Es;
        [discriminate|]; injection Hf as -> <- <-;
        exists tr5, (EvRetryEnd readRetryTimeout None :: trt ++ tr0),
          (EvRetryEnd readRetryTimeout None :: tr4), req, gw, gws, nat
    end.
    split; [|exact Hst].
    rewrite <- !app_assoc. cbn [app]. rewrite <- !app_assoc. cbn [app]. reflexivity.
  - intros id n last w0 nat w1 Hs Hst.
    rewrite retry_loop_S, run_natCreatePoll, Hs.
    apply String.eqb_neq in Hst. rewrite Hst.
    destruct (retry_loop C n _ _ tt w1) as [[r2 w2] tr2]. reflexivity.
  - intros id n last w0 l w1 Hs Hl.
    rewrite retry_loop_S, run_natCreatePoll, Hs.
    destruct l as [|nat [|? ?]]; try reflexivity. contradiction Hl. reflexivity.
  - intros r w' tr ev l.
    unfold resourceTencentCloudNatGatewayCreate.
    rewrite run_retry_bind.
    match goal with
    | |- context [retry_loop C ?n ?f0 ?l None w] =>
        destruct (retry_loop C n f0 l None w) as [[r1 w1] tr1] eqn:E1
    end.
    assert (F1 : forall x, In x tr1 -> describeNatGatewaysReply x = None).
    { apply List.Forall_forall.
      eapply retry_loop_Forall
        with (P := fun ev => describeNatGatewaysReply ev = None); [|exact E1].
      intros s0 w0 r0 w0' tr0 E0. cbv beta in E0. rewrite run_createClosure in E0.
      match type of E0 with
      | context [sdk C _ (CreateNatGateway ?req) w0] =>
          destruct (sdk C _ (CreateNatGateway req) w0) as [x w5]
      end.
      injection E0 as <- <- <-. repeat constructor. }
    destruct r1 as [[resp [e|]]|]; cbn [fst snd run].
    + intros [= <- <- <-] Hin Hev Hl. exfalso. in_cases Hin; try discriminate Hev.
      rewrite (F1 _ Hin) in Hev. discriminate.
    + destruct resp as [[|gw gws]|]; cbn [run].
      * intros [= <- <- <-] Hin Hev Hl. exfalso. in_cases Hin; try discriminate Hev.
        rewrite (F1 _ Hin) in Hev. discriminate.
      * rewrite run_orReturn.
        match goal with
        | |- context [run C None (if ?b then service_call ?c else Ret None) w1] =>
            destruct (run_tagBlock b c w1) as (o & w2 & trt & -> & Ft)
        end.
        destruct o as [e|].
        { intros [= <- <- <-] Hin Hev Hl. exfalso. in_cases Hin; try discriminate Hev.
          - rewrite (F1 _ Hin) in Hev. discriminate.
          - rewrite (Ft _ Hin) in Hev. discriminate. }
        rewrite run_orReturn, run_retry_block.
        match goal with
        | |- context [retry_loop C ?n ?f0 ?l tt w2] =>
            destruct (retry_loop C n f0 l tt w2) as [[r2 w3] tr2] eqn:E2
        end.
        intros Hrun Hin Hev Hl.
        assert (Hpoll : In ev tr2 -> r2 = Some (tt, Some (Errorf "creating error"))).
        { intros Hin2. exact (natCreatePoll_not_one _ _ _ _ _ _ _ E2 _ _ Hin2 Hev Hl). }
        destruct r2 as [[u [e|]]|].
        -- injection Hrun as <- <- <-. left.
           in_cases Hin; try discriminate Hev;
             try (rewrite (F1 _ Hin) in Hev; discriminate Hev);
             try (rewrite (Ft _ Hin) in Hev; discriminate Hev).
           specialize (Hpoll Hin). injection Hpoll as _ ->. reflexivity.
        -- right.
           apply natCreatePoll_success in E2 as (tr0 & nat & -> & Hst).
           exists (pollEvent (NatGatewayId gw) (inr [nat])), nat.
           split; [|split; [reflexivity|exact Hst]].
           match type of Hrun with
           | context [run C None ?p w3] =>
               destruct (run C None p w3) as [[r4 w4] tr4]
           end.
           injection Hrun as <- <- <-.
           apply in_or_app. right. right. apply in_or_app. right.
           apply in_or_app. left. apply in_or_app. left.
           apply in_or_app. right. left. reflexivity.
        -- injection Hrun as <- <- <-. exfalso.
           in_cases Hin; try discriminate Hev;
             try (rewrite (F1 _ Hin) in Hev; discriminate Hev);
             try (rewrite (Ft _ Hin) in Hev; discriminate Hev).
           specialize (Hpoll Hin). discriminate.
      * intros [= <- <- <-] Hin Hev Hl. exfalso. in_cases Hin; try discriminate Hev.
        rewrite (F1 _ Hin) in Hev. discriminate.
    + intros [= <- <- <-] Hin Hev Hl. exfalso.
      rewrite (F1 _ Hin) in Hev. discriminate.
Qed.
End NatCreate.

(* ================================================================== *)
(** * The EIP update of the NAT gateway                              *)
(* ================================================================== *)

Section EipUpdate.
Variable pkg : Package.

(** The first disassociate request is shorter than the old set. *)
Lemma unassignLoop_short newEipSet lenOld oldEipSet request backUp :
  length request < lenOld ->
  length (fst (unassignLoop newEipSet lenOld oldEipSet request backUp)) < lenOld.
Proof.
  revert request backUp.
  induction oldEipSet as [|publicIp rest IH]; intros request backUp Hlen; [exact Hlen|].
  cbn [unassignLoop].
  destruct (negb (existsb (String.eqb publicIp) newEipSet)); [|apply IH, Hlen].
  destruct (length request + 1 =? lenOld)%nat eqn:E; [apply IH, Hlen|].
  apply IH. rewrite length_app. cbn [length].
  apply Nat.eqb_neq in E. lia.
Qed.

(** The first disassociate request of an update never holds every old
    EIP. *)
Lemma unassigned_never_all d :
  let oldEipSet := strings_of (asList (fst (GetChange d "assigned_eip_set"))) in
  oldEipSet <> [] ->
  length (unassigned (eipPlan pkg d)) < length oldEipSet.
Proof.
  intros oldEipSet Hne. unfold eipPlan.
  destruct (GetChange d "assigned_eip_set") as [o n] eqn:E.
  cbn [fst] in oldEipSet. fold oldEipSet.
  destruct oldEipSet as [|x l] eqn:El; [contradiction|].
  cbn [length Nat.ltb Nat.leb].
  pose proof (unassignLoop_short (strings_of (asList n)) (S (length l)) (x :: l)
                [] EmptyString ltac:(cbn; lia)) as H.
  destruct (unassignLoop _ _ (x :: l) [] EmptyString) as [un bo].
  destruct (if (0 <? length (strings_of (asList n)))%nat then _ else _) as [asg bn].
  exact H.
Qed.

End EipUpdate.

(** Claim C8, at the input where the code departs from it.  A gateway
    holds the EIP 1.1.1.1 and the update asks for 1.1.1.1 and five new
    EIPs, with NAT_EIP_MAX_LIMIT 10.  The associate loop meets
    2.2.2.4 and then 2.2.2.5 with three addresses in the request, the
    test [3 + 6 + 1 = 10] holds for both, and the second overwrites the
    first in [backUpNewIp]: two new EIPs are withheld, and 2.2.2.4 is in
    none of the requests the update sends. *)
Theorem nat_update_loses_withheld_eip :
  let d := Demo.natEipChange in
  eipPlan Demo.package d
  = {| unassigned := []; backUpOldIp := EmptyString;
       assigned := ["2.2.2.1"; "2.2.2.2"; "2.2.2.3"]; backUpNewIp := "2.2.2.5" |}
  /\ strings_of (asList (snd (GetChange d "assigned_eip_set")))
     = ["1.1.1.1"; "2.2.2.1"; "2.2.2.2"; "2.2.2.3"; "2.2.2.4"; "2.2.2.5"]
  /\ (let '(r, _, tr) :=
        run (Demo.cloud None ([], None)) None
          (resourceTencentCloudNatGatewayUpdate Demo.package d Demo.meta) [] in
      returned r = None
      /\ associatedBy tr = [["2.2.2.1"; "2.2.2.2"; "2.2.2.3"]; ["2.2.2.5"]]
      /\ disassociatedBy tr = []).
Proof. vm_compute. repeat split. Qed.

(* ================================================================== *)
(** * The polls of the EMR cluster                                   *)
(* ================================================================== *)

Section Emr.
Variable C : Cloud.

Lemma run_emrPoll t doneCodes expected id ds u w :
  run C (Some t) (emrPoll doneCodes expected id ds u) w =
  let (r, w1) := service C _ (EMRService_DescribeInstancesById id ds) w in
  (Some (tt,
         if hasCode (snd r) doneCodes then None
         else match fst r with
              | c :: _ =>
                  if negb (ci_Status c =? expected)%Z
                  then Some (RetryableError (stillMessage id (ci_Status c)))
                  else RetryableError <$> snd r
              | [] => RetryableError <$> snd r
              end), w1, [emrEvent t id ds r]).
Proof.
  unfold emrPoll. cbn [bind service_call run].
  destruct (service C _ (EMRService_DescribeInstancesById id ds) w)
    as [[clusters err] w1].
  cbn [fst snd]. destruct (hasCode err doneCodes); [reflexivity|].
  destruct clusters as [|c rest].
  - destruct err; reflexivity.
  - destruct (negb _); [reflexivity|]. destruct err; reflexivity.
Qed.

Lemma emrPoll_spec t doneCodes expected id ds :
  emrPollSpec C t (emrPoll doneCodes expected id ds) doneCodes expected id ds.
Proof.
  split.
  - intros n last w s' w' tr H.
    apply retry_loop_success in H as (s0 & w0 & tr0 & tr1 & Hf & ->).
    cbv beta in Hf. rewrite run_emrPoll in Hf.
    destruct (service C _ (EMRService_DescribeInstancesById id ds) w0)
      as [[clusters err] w1].
    cbn [fst snd] in Hf.
    destruct (hasCode err doneCodes) eqn:Hc.
    + injection Hf as <- <- <-. exists tr0, clusters, err. auto.
    + destruct clusters as [|c rest].
      * destruct err; [discriminate|]. injection Hf as <- <- <-.
        exists tr0, [], None. auto.
      * destruct (ci_Status c =? expected)%Z eqn:Es; [|discriminate].
        destruct err; [discriminate|]. injection Hf as <- <- <-.
        exists tr0, (c :: rest), None. split; [reflexivity|].
        right. split; [reflexivity|]. right. exists c, rest.
        split; [reflexivity|]. apply Z.eqb_eq, Es.
  - intros n last w c rest err w1 Hs Hc Hst.
    rewrite retry_loop_S, run_emrPoll, Hs. cbn [fst snd]. rewrite Hc.
    apply Z.eqb_neq in Hst. rewrite Hst. cbn [negb].
    destruct (retry_loop C n _ _ tt w1) as [[r2 w2] tr2]. reflexivity.
Qed.
End Emr.

(** Claim C5, amended.  Each polling loop of the EMR cluster operations
    (create, update, delete) ends without error only after a poll whose
    error is ClusterNotFound (for delete also UnauthorizedOperation), or
    that has no error and lists either no cluster or first a cluster
    whose status is the expected one (EmrInternetStatusCreated for
    create and update, EmrInternetStatusDeleted for delete); a poll
    that, without such an error, lists first a cluster with another
    status is tried again while the timeout leaves attempts. *)
Theorem emr_polls_wait_for_status (C : Cloud) (pkg : Package)
    (instanceId displayStrategy : string) :
  let t := TimesTimeout 10 readRetryTimeout in
  emrPollSpec C t (emrCreatePoll pkg instanceId displayStrategy)
    ["InternalError.ClusterNotFound"] (EmrInternetStatusCreated pkg)
    instanceId displayStrategy
  /\ emrPollSpec C t (emrUpdatePoll pkg instanceId)
       ["InternalError.ClusterNotFound"] (EmrInternetStatusCreated pkg)
       instanceId (DisplayStrategyIsclusterList pkg)
  /\ emrPollSpec C t (emrDeletePoll pkg instanceId)
       ["InternalError.ClusterNotFound"; "UnauthorizedOperation"]
       (EmrInternetStatusDeleted pkg)
       instanceId (DisplayStrategyIsclusterList pkg).
Proof. intros t. repeat split; apply emrPoll_spec. Qed.

(* ================================================================== *)
(** * Immutable arguments, declarations and validation               *)
(* ================================================================== *)

Section Wedata.
Variables (pkg : Package) (meta : Meta).

Lemma firstChanged_complete d args k :
  In k args -> HasChange d k = true ->
  exists v, firstChanged d args = Some v /\ In v args /\ HasChange d v = true.
Proof.
  intros Hin Hk. unfold firstChanged.
  destruct (List.find (HasChange d) args) as [v|] eqn:E.
  - exists v. apply List.find_some in E. tauto.
  - pose proof (List.find_none _ _ E k Hin). congruence.
Qed.

Lemma wedata_request_unchanged d :
  firstChanged d wedataImmutableArgs = None ->
  wedataModifyRequest pkg d = bareModifyRequest pkg d.
Proof.
  intros H. unfold firstChanged in H.
  assert (Hn : forall k, In k wedataImmutableArgs -> HasChange d k = false).
  { intros k Hk. exact (List.find_none _ _ H k Hk). }
  unfold wedataModifyRequest, bareModifyRequest.
  rewrite !Hn by (cbn; tauto). reflexivity.
Qed.

(** Claim C9.  When one of the ten arguments of the wedata rule template
    (type, name, quality_dim, source_object_type, description,
    source_engine_types, multi_source_flag, sql_expression, project_id,
    where_flag) has changed, the update is the bare return of the error
    "argument `<name>` cannot be changed" for the first changed one: no
    call is made.  So a ModifyRuleTemplate request that a run of the
    update issues is issued when none has changed, and carries the
    template ID and no other field. *)
Theorem wedata_update_refuses_changes d :
  (forall k, In k wedataImmutableArgs -> HasChange d k = true ->
     exists v, In v wedataImmutableArgs /\ HasChange d v = true
               /\ resourceTencentCloudWedataRuleTemplateUpdate pkg d meta
                  = Ret (d, Some (Errorf ("argument `" +:+ v +:+ "` cannot be changed"))))
  /\ (forall C w r w' tr ev request,
        run C None (resourceTencentCloudWedataRuleTemplateUpdate pkg d meta) w
        = (r, w', tr) ->
        In ev tr ->
        modifyRuleTemplateRequest ev = Some request ->
        (forall k, In k wedataImmutableArgs -> HasChange d k = false)
        /\ request = bareModifyRequest pkg d).
Proof.
  split.
  - intros k Hin Hk.
    destruct (firstChanged_complete d _ k Hin Hk) as (v & Hv & Hvin & Hvc).
    exists v. repeat split; try assumption.
    unfold resourceTencentCloudWedataRuleTemplateUpdate. rewrite Hv. reflexivity.
  - intros C w r w' tr ev request.
    unfold resourceTencentCloudWedataRuleTemplateUpdate.
    destruct (firstChanged d wedataImmutableArgs) as [v|] eqn:Hf.
    + cbn [run]. intros [= <- <- <-] [].
    + rewrite (wedata_request_unchanged d Hf). rewrite run_retry_bind.
      destruct (retry_loop C _ _ timeoutError tt w) as [[r1 w1] tr1] eqn:E1.
      assert (F1 : forall x rq, In x tr1 -> modifyRuleTemplateRequest x = Some rq ->
                                rq = bareModifyRequest pkg d).
      { intros x rq Hx. revert rq. revert x Hx.
        apply (proj1 (List.Forall_forall
                        (fun x => forall rq, modifyRuleTemplateRequest x = Some rq ->
                                             rq = bareModifyRequest pkg d) tr1)).
        eapply retry_loop_Forall; [|exact E1].
        intros s0 w0 r0 w0' tr0 E0. cbv beta in E0.
        unfold retryClosure in E0. cbn [bind sdk_call run] in E0.
        destruct (sdk C _ (ModifyRuleTemplate (bareModifyRequest pkg d)) w0) as [[e|] w2];
          cbn [run] in E0; injection E0 as <- <- <-;
          (constructor; [|constructor]); intros rq [= <-]; reflexivity. }
      intros Hrun Hin Hev. split.
      { intros k Hk. exact (List.find_none _ _ Hf k Hk). }
      destruct r1 as [[u [e|]]|]; cbn [fst snd run] in Hrun.
      * injection Hrun as <- <- <-. in_cases Hin; try discriminate Hev. eauto.
      * unfold resourceTencentCloudWedataRuleTemplateRead in Hrun.
        cbn [bind service_call run] in Hrun.
        destruct (service C _ (WedataService_DescribeWedataRuleTemplateById (Id d)) w1)
          as [[e|[t|]] w2]; cbn [run] in Hrun; injection Hrun as <- <- <-;
          in_cases Hin; try discriminate Hev; eauto.
      * injection Hrun as <- <- <-. eauto.
Qed.
End Wedata.

Section Declarations.
Variable pkg : Package.

#[local] Arguments Nat.leb : simpl never.
#[local] Arguments Nat.eqb : simpl never.
#[local] Arguments Z.eqb : simpl never.

(** Claim C4, amended.  Every resource definition declares create, read
    and delete; every one declares update too, except the monitor tmp
    cvm agent resource, whose arguments all force a new resource or are
    only computed. *)
Theorem resources_declare_create_read_delete :
  Forall (fun nr : string * Resource =>
            isSome (Create (snd nr)) = true
            /\ isSome (Read (snd nr)) = true
            /\ isSome (Delete (snd nr)) = true
            /\ (isSome (Update (snd nr)) = false ->
                fst nr = "resourceTencentCloudMonitorTmpCvmAgent"
                /\ forallb (fun f => fixedArgument (snd f)) (Schema_ (snd nr)) = true))
         (resources pkg).
Proof.
  unfold resources.
  repeat (constructor; [cbn; repeat split; try reflexivity; try discriminate|]).
  constructor.
Qed.

Lemma Validate_field schema (config : gmap string Value) :
  Validate schema config = true ->
  forall k s, In (k, s) schema -> validateField config (k, s) = true.
Proof.
  unfold Validate. intros H k s Hin. apply andb_prop in H as [H _].
  rewrite List.forallb_forall in H. exact (H _ Hin).
Qed.

(** Claim C7.  A configuration that the schema of the NAT gateway accepts
    has a [name] of length 1 to 60, a [max_concurrent] (1000000 when it
    is left out) that is one of 1000000, 3000000 and 10000000, and an
    [assigned_eip_set] of 1 to 10 elements that each pass the IP
    validator. *)
Theorem nat_schema_validation (config : gmap string Value) :
  let schema := Schema_ (resourceTencentCloudNatGateway pkg) in
  Validate schema config = true ->
  (exists name, config !! "name" = Some (VStr name)
                /\ 1 <= String.length name <= 60)
  /\ (exists n, configured schema config "max_concurrent" = Some (VInt n)
                /\ In n [1000000; 3000000; 10000000]%Z)
  /\ (config !! "max_concurrent" = None ->
      configured schema config "max_concurrent" = Some (VInt 1000000))
  /\ (exists eips, config !! "assigned_eip_set" = Some (VSet eips)
                   /\ 1 <= length eips <= 10
                   /\ forall v, In v eips -> validateIp pkg v = true).
Proof.
  intros schema Hv.
  pose proof (Validate_field _ _ Hv) as Hf. subst schema.
  repeat split.
  - specialize (Hf "name" _ ltac:(cbn [Schema_ resourceTencentCloudNatGateway In]; eauto 10)).
    cbn in Hf. destruct (config !! "name") as [[| name | | | |]|]; try discriminate.
    exists name. split; [reflexivity|].
    cbn in Hf. apply andb_prop in Hf as [X1 X2].
    apply Nat.leb_le in X1, X2. lia.
  - specialize (Hf "max_concurrent" _
                  ltac:(cbn [Schema_ resourceTencentCloudNatGateway In]; eauto 10)).
    cbn in Hf. unfold configured.
    destruct (config !! "max_concurrent") as [[n| | | | |]|]; try discriminate.
    + exists n. split; [reflexivity|].
      cbn in Hf. repeat (apply orb_prop in Hf as [Hf|Hf]); try discriminate;
        apply Z.eqb_eq in Hf; subst; cbn; tauto.
    + exists 1000000%Z. split; [reflexivity|]. cbn; tauto.
  - intros E. unfold configured. rewrite E. reflexivity.
  - specialize (Hf "assigned_eip_set" _
                  ltac:(cbn [Schema_ resourceTencentCloudNatGateway In]; eauto 10)).
    cbn in Hf.
    destruct (config !! "assigned_eip_set") as [[| | | | eips |]|]; try discriminate.
    exists eips. split; [reflexivity|].
    cbn in Hf. apply andb_prop in Hf as [X1 X3]. apply andb_prop in X1 as [X1 X2].
    apply Nat.leb_le in X1, X2.
    split; [lia|]. intros v Hin.
    rewrite List.forallb_forall in X3. specialize (X3 v Hin).
    unfold validateElem in X3. cbn in X3. apply andb_prop in X3 as [_ X3]. exact X3.
Qed.
End Declarations.

(** Claim C10.  The deletes of the monitor tmp cvm agent resource and of
    the scf function event invoke config resource make no call and
    return nil: in every cloud and from every state the run records no
    event, leaves the world as it was and returns the resource data
    unchanged. *)
Theorem delete_is_a_no_op (pkg : Package) (meta : Meta) (C : Cloud)
  (inRetry : option Timeout) (d : ResourceData) (w : World C) :
run C inRetry (resourceTencentCloudMonitorTmpCvmAgentDelete pkg d meta) w
= (Some (d, None), w, [])
/\ run C inRetry (resourceTencentCloudScfFunctionEventInvokeConfigDelete pkg d meta) w
   = (Some (d, None), w, []).
Proof. split; reflexivity. Qed.

(* ================================================================== *)
(** * The theorems on examples                                         *)
(* ================================================================== *)

(** The delete of the monitor agent returns nil for an ID without
    separator: it does not read the ID. *)
Lemma monitor_delete_ignores_broken_id :
  broken (Id Demo.monitorBroken)
  /\ run (Demo.cloud None ([], None)) None
       (resourceTencentCloudMonitorTmpCvmAgentDelete Demo.package Demo.monitorBroken Demo.meta)
       []
     = (Some (Demo.monitorBroken, None), [], []).
Proof. split; [vm_compute; intros [=]|reflexivity]. Qed.

Lemma compound_id_round_trip_witness :
  GoStrings.Split (GoStrings.Join ["prom-1uv0zf9q"; "agent-7kpfmm5y"] FILED_SP) FILED_SP
  = ["prom-1uv0zf9q"; "agent-7kpfmm5y"]
  /\ (exists k,
        resourceTencentCloudScfFunctionEventInvokeConfigRead Demo.package Demo.compound
          Demo.meta
        = ServiceCall
            (ScfService_DescribeScfFunctionEventInvokeConfigById "default" "keep-1676351130")
            k)
  /\ resourceTencentCloudMonitorTmpCvmAgentRead Demo.package Demo.monitorBroken Demo.meta
     = Ret (Demo.monitorBroken, Some (Errorf "id is broken, id is prom-1uv0zf9q")).
Proof.
  destruct (compound_id_round_trip Demo.package Demo.meta)
    as (_ & _ & _ & Hsplit & Hparse & Hbroken).
  split; [apply Hsplit; reflexivity|].
  split.
  - destruct (Hparse Demo.compound "keep-1676351130" "default" eq_refl eq_refl eq_refl)
      as (_ & _ & _ & _ & H & _).
    exact H.
  - apply (Hbroken Demo.monitorBroken). vm_compute. intros [=].
Defined.

Lemma nat_create_waits_witness :
  exists d' w' tr,
    run (Demo.cloud None ([], None)) None
      (resourceTencentCloudNatGatewayCreate Demo.package Demo.natData Demo.meta) []
    = (Some (d', None), w', tr)
    /\ exists tr1 tr2 tr3 request gw gws nat,
         tr = tr1 ++ EvSdk (Some readRetryTimeout) (CreateNatGateway request)
                       (inr (gw :: gws))
                  :: tr2 ++ pollEvent (NatGatewayId gw) (inr [nat]) :: tr3
         /\ State nat = "AVAILABLE".
Proof.
  do 3 eexists. split; [vm_compute; reflexivity|].
  eapply (proj1 (nat_create_waits_until_available (Demo.cloud None ([], None))
                   Demo.package Demo.meta Demo.natData [])).
  vm_compute. reflexivity.
Defined.

Lemma nat_delete_waits_witness :
  exists d' w' tr,
    run (Demo.cloud None ([], None)) None
      (resourceTencentCloudNatGatewayDelete Demo.package Demo.natCreated Demo.meta)
      Demo.natWorld
    = (Some (d', None), w', tr)
    /\ exists tr1 tr2,
         tr = tr1 ++ pollEvent (Id Demo.natCreated) (inr []) :: tr2
         /\ In (EvSdk (Some writeRetryTimeout) (DeleteNatGateway (Id Demo.natCreated)) None)
              tr1.
Proof.
  do 3 eexists. split; [vm_compute; reflexivity|].
  eapply (proj1 (nat_delete_waits_until_gone (Demo.cloud None ([], None))
                   Demo.package Demo.meta Demo.natCreated Demo.natWorld)).
  vm_compute. reflexivity.
Defined.

(** The monitor tmp cvm agent resource declares no update. *)
Lemma monitor_declares_no_update :
  In ("resourceTencentCloudMonitorTmpCvmAgent",
      resourceTencentCloudMonitorTmpCvmAgent Demo.package)
     (resources Demo.package)
  /\ declaresAllFour (resourceTencentCloudMonitorTmpCvmAgent Demo.package) = false.
Proof. split; [left; reflexivity|reflexivity]. Qed.

(** The create of an EMR cluster returns nil after a poll that listed
    no cluster: no polled status equals EmrInternetStatusCreated. *)
Lemma emr_create_succeeds_without_status :
  exists d' w' tr,
    run (Demo.cloud None ([], None)) None
      (resourceTencentCloudEmrClusterCreate Demo.package Demo.emrData Demo.meta) []
    = (Some (d', None), w', tr)
    /\ Forall (fun ev => polledStatus ev = None) tr.
Proof.
  do 3 eexists. split; [vm_compute; reflexivity|].
  repeat constructor.
Qed.

Lemma emr_polls_wait_witness :
  let t := TimesTimeout 10 readRetryTimeout in
  let ev := emrEvent t "emr-ay9c3n5w" "clusterList" Demo.created in
  exists tr0 clusters err,
    [ev] = tr0 ++ [emrEvent t "emr-ay9c3n5w" "clusterList" (clusters, err)]
    /\ (hasCode err ["InternalError.ClusterNotFound"] = true
        \/ (err = None
            /\ (clusters = []
                \/ exists c rest,
                     clusters = c :: rest
                     /\ ci_Status c = EmrInternetStatusCreated Demo.package))).
Proof.
  intros t ev.
  destruct (emr_polls_wait_for_status (Demo.cloud None Demo.created) Demo.package
              "emr-ay9c3n5w" "clusterList") as [[H _] _].
  eapply (H 3 timeoutError [] tt []). vm_compute. reflexivity.
Defined.

Lemma nat_gateway_retry_discipline_witness :
  exists r w' tr,
    run (Demo.cloud (Some Demo.unauthorized) ([], None)) None
      (resourceTencentCloudNatGatewayDelete Demo.package Demo.natCreated Demo.meta)
      Demo.natWorld
    = (r, w', tr)
    /\ returned r = Some Demo.unauthorized
    /\ Forall sdkInFixedRetry tr
    /\ forall tr1 t e tr2,
         tr = tr1 ++ EvRetryEnd t (Some e) :: tr2 ->
         tr2 = [] /\ returned r = Some e.
Proof.
  do 3 eexists. split; [vm_compute; reflexivity|].
  split; [reflexivity|].
  eapply (nat_gateway_retry_discipline Demo.package Demo.meta
            (Demo.cloud (Some Demo.unauthorized) ([], None))
            (resourceTencentCloudNatGatewayDelete Demo.package)
            Demo.natCreated Demo.natWorld).
  - right; right; right; left. reflexivity.
  - vm_compute. reflexivity.
Defined.

Lemma nat_schema_validation_witness :
  let schema := Schema_ (resourceTencentCloudNatGateway Demo.package) in
  (exists name, Demo.natMinimal !! "name" = Some (VStr name)
                /\ 1 <= String.length name <= 60)
  /\ (exists n, configured schema Demo.natMinimal "max_concurrent" = Some (VInt n)
                /\ In n [1000000; 3000000; 10000000]%Z)
  /\ (Demo.natMinimal !! "max_concurrent" = None ->
      configured schema Demo.natMinimal "max_concurrent" = Some (VInt 1000000))
  /\ (exists eips, Demo.natMinimal !! "assigned_eip_set" = Some (VSet eips)
                   /\ 1 <= length eips <= 10
                   /\ forall v, In v eips -> validateIp Demo.package v = true).
Proof.
  apply (nat_schema_validation Demo.package Demo.natMinimal).
  vm_compute. reflexivity.
Defined.

Lemma wedata_update_refuses_witness :
  exists v,
    In v wedataImmutableArgs
    /\ HasChange Demo.wedataChanged v = true
    /\ resourceTencentCloudWedataRuleTemplateUpdate Demo.package Demo.wedataChanged Demo.meta
       = Ret (Demo.wedataChanged,
              Some (Errorf ("argument `" +:+ v +:+ "` cannot be changed"))).
Proof.
  apply (proj1 (wedata_update_refuses_changes Demo.package Demo.meta Demo.wedataChanged)
           "name").
  - cbn. tauto.
  - vm_compute. reflexivity.
Defined.

(* ================================================================== *)
(** * The calls of a run                                              *)
(* ================================================================== *)

Section Calls.
Variable C : Cloud.
Variables (PS : forall R, Sdk R -> Prop) (PV : forall R, Service R -> Prop).

(** The calls of a run are calls of the program. *)
Lemma allCalls_run {A} (p : Prog A) :
  allCalls PS PV p ->
  forall ctx w r w' tr, run C ctx p w = (r, w', tr) -> Forall (eventCall PS PV) tr.
Proof.
  induction p as [A a|A m|A R c k IH|A R c k IH|A n k IH|A St t0 f IHf s k IH];
    cbn [allCalls run]; intros Hp ctx w r w' tr.
  - intros [= <- <- <-]. constructor.
  - intros [= <- <- <-]. constructor.
  - destruct Hp as [Hc Hk]. destruct (sdk C R c w) as [x w1].
    destruct (run C ctx (k x) w1) as [[a w2] tr2] eqn:E.
    intros [= <- <- <-]. constructor; [exact Hc|]. eapply IH; eauto.
  - destruct Hp as [Hc Hk]. destruct (service C R c w) as [x w1].
    destruct (run C ctx (k x) w1) as [[a w2] tr2] eqn:E.
    intros [= <- <- <-]. constructor; [exact Hc|]. eapply IH; eauto.
  - destruct (run C ctx k w) as [[a w2] tr2] eqn:E.
    intros [= <- <- <-]. constructor; [exact I|]. eapply IH; eauto.
  - destruct Hp as [Hf Hk].
    match goal with
    | |- context [retry_loop C ?n ?f0 ?l s w] =>
        destruct (retry_loop C n f0 l s w) as [[[[s' oe]|] w1] ltr] eqn:El
    end.
    + assert (Hl : Forall (eventCall PS PV) ltr).
      { eapply retry_loop_Forall; [|exact El].
        intros s0 w0 r0 w0' tr0 E0. eapply IHf; [apply Hf|exact E0]. }
      destruct (run C ctx (k (s', oe)) w1) as [[a w2] tr2] eqn:E.
      intros [= <- <- <-]. apply Forall_app. split; [exact Hl|].
      constructor; [exact I|]. eapply IH; eauto.
    + intros [= <- <- <-]. eapply retry_loop_Forall; [|exact El].
      intros s0 w0 r0 w0' tr0 E0. eapply IHf; [apply Hf|exact E0].
Qed.

Lemma allCalls_bind {A B} (p : Prog A) (g : A -> Prog B) :
  allCalls PS PV p -> (forall a, allCalls PS PV (g a)) -> allCalls PS PV (bind p g).
Proof.
  intros Hp Hg.
  induction p as [A a|A m|A R c k IH|A R c k IH|A n k IH|A St t0 f _ s k IH];
    cbn [allCalls bind] in *.
  - apply Hg.
  - exact I.
  - destruct Hp as [Hc Hk]. split; [exact Hc|]. intros r. apply IH; auto.
  - destruct Hp as [Hc Hk]. split; [exact Hc|]. intros r. apply IH; auto.
  - apply IH; auto.
  - destruct Hp as [Hf Hk]. split; [exact Hf|]. intros r. apply IH; auto.
Qed.

Lemma allCalls_orReturn d blk rest :
  allCalls PS PV blk -> allCalls PS PV rest -> allCalls PS PV (orReturn d blk rest).
Proof.
  intros Hb Hr. unfold orReturn. apply allCalls_bind; [exact Hb|].
  intros [e|]; [exact I|exact Hr].
Qed.

Lemma allCalls_andThen blk rest :
  allCalls PS PV blk -> allCalls PS PV rest -> allCalls PS PV (andThen blk rest).
Proof.
  intros Hb Hr. unfold andThen. apply allCalls_bind; [exact Hb|].
  intros [e|]; [exact I|exact Hr].
Qed.

(** A block that is one [Retry] around one call. *)
Lemma allCalls_retry_sdk pkg t codes (c : Sdk (option error)) :
  PS _ c ->
  allCalls PS PV (r <- retry t (retryClosure pkg codes (sdk_call c)) tt ;; Ret (snd r)).
Proof.
  intros Hc. cbn. split; [|intros r; exact I].
  intros _. split; [exact Hc|]. intros [e|]; exact I.
Qed.

Lemma allCalls_retry_service pkg t codes (c : Service (option error)) :
  PV _ c ->
  allCalls PS PV (r <- retry t (retryClosure pkg codes (service_call c)) tt ;; Ret (snd r)).
Proof.
  intros Hc. cbn. split; [|intros r; exact I].
  intros _. split; [exact Hc|]. intros [e|]; exact I.
Qed.

End Calls.

Lemma allCalls_impl {A} (PS PS' : forall R, Sdk R -> Prop)
    (PV PV' : forall R, Service R -> Prop) (p : Prog A) :
  (forall R c, PS R c -> PS' R c) -> (forall R c, PV R c -> PV' R c) ->
  allCalls PS PV p -> allCalls PS' PV' p.
Proof.
  intros HS HV.
  induction p as [A a|A m|A R c k IH|A R c k IH|A n k IH|A St t0 f IHf s k IH];
    cbn [allCalls]; try tauto.
  - intros [Hc Hk]. split; [auto|]. intros r. apply IH, Hk.
  - intros [Hc Hk]. split; [auto|]. intros r. apply IH, Hk.
  - intros [Hf Hk]. split; intros x; [apply IHf, Hf|apply IH, Hk].
Qed.

(* ================================================================== *)
(** * The EIP plan of the NAT gateway update, in general              *)
(* ================================================================== *)

Section EipPlan.
Variable pkg : Package.

Lemma filter_all_length {A} (f : A -> bool) (l : list A) :
  length (List.filter f l) = length l -> List.filter f l = l.
Proof.
  induction l as [|x l IH]; [reflexivity|]. cbn [List.filter].
  destruct (f x); cbn [length]; intros H.
  - f_equal. apply IH. lia.
  - pose proof (List.filter_length_le f l). lia.
Qed.

Lemma last_default {A} (l : list A) (d1 d2 : A) :
  l <> [] -> List.last l d1 = List.last l d2.
Proof.
  induction l as [|x [|y l] IH]; intros H; [contradiction|reflexivity|].
  change (List.last (y :: l) d1 = List.last (y :: l) d2). apply IH. discriminate.
Qed.

Lemma between_true (a b c : Z) :
  (a <= b < c)%Z -> (a <=? b)%Z && (b <? c)%Z = true.
Proof. intros H. apply andb_true_iff. rewrite Z.leb_le, Z.ltb_lt. exact H. Qed.

Lemma between_false (a b c : Z) :
  ~ (a <= b < c)%Z -> (a <=? b)%Z && (b <? c)%Z = false.
Proof. intros H. apply andb_false_iff. rewrite Z.leb_gt, Z.ltb_ge. lia. Qed.

(** What [d.GetOk] and [d.Get] give of a set or a list is the same list. *)
Lemma asList_GetOk d k : asList (GetOk d k) = asList (Get d k).
Proof.
  unfold GetOk, Get. destruct (rd_attrs d !! k) as [[z|s|b|l|l|m]|]; cbn; try reflexivity.
  - destruct (Z.eqb z 0); reflexivity.
  - destruct (String.eqb s EmptyString); reflexivity.
  - destruct b; reflexivity.
  - destruct l; reflexivity.
  - destruct l; reflexivity.
  - destruct m; reflexivity.
Qed.

(** The first loop, from any point on: [pre] are the old EIPs it has
    seen, [rest] those to come. *)
Lemma unassignLoop_exact newEipSet lenOld rest :
  forall pre request,
    request = List.filter (notIn newEipSet) pre ->
    lenOld = length pre + length rest ->
    ~ In EmptyString rest ->
    let '(un, bo) := unassignLoop newEipSet lenOld rest request EmptyString in
    un ++ withheld bo = List.filter (notIn newEipSet) (pre ++ rest)
    /\ (bo <> EmptyString ->
        List.filter (notIn newEipSet) (pre ++ rest) = pre ++ rest
        /\ List.last (pre ++ rest) EmptyString = bo).
Proof.
  induction rest as [|x rest IH]; intros pre request Hreq Hlen Hne.
  - cbn [unassignLoop]. change (withheld EmptyString) with (@nil string).
    rewrite !app_nil_r. split; [exact Hreq|]. intros H. contradiction.
  - cbn [unassignLoop]. fold (notIn newEipSet x).
    assert (Hx : x <> EmptyString) by (intros ->; apply Hne; left; reflexivity).
    assert (Hne' : ~ In EmptyString rest) by (intros H; apply Hne; right; exact H).
    assert (Happ : pre ++ x :: rest = (pre ++ [x]) ++ rest)
      by (rewrite <- app_assoc; reflexivity).
    destruct (notIn newEipSet x) eqn:Ex; cbn [negb].
    + destruct (length request + 1 =? lenOld)%nat eqn:Et.
      * (* the only EIP that can be withheld is the last one, when every
           old EIP goes *)
        apply Nat.eqb_eq in Et.
        pose proof (List.filter_length_le (notIn newEipSet) pre) as Hle.
        rewrite <- Hreq in Hle. cbn [length] in Hlen.
        assert (rest = []) as -> by (destruct rest; [reflexivity|cbn [length] in Hlen; lia]).
        cbn [unassignLoop length] in *.
        assert (Hall : List.filter (notIn newEipSet) pre = pre).
        { apply filter_all_length. rewrite <- Hreq. lia. }
        unfold withheld. destruct (String.eqb_spec x EmptyString) as [E|_]; [contradiction|].
        rewrite List.filter_app. cbn [List.filter]. rewrite Ex, Hall, Hreq, Hall.
        split; [reflexivity|]. intros _. split; [reflexivity|].
        apply List.last_last.
      * rewrite Happ. apply (IH (pre ++ [x]) (request ++ [x])).
        -- rewrite List.filter_app. cbn [List.filter]. rewrite Ex, Hreq. reflexivity.
        -- rewrite length_app. cbn [length] in *. lia.
        -- exact Hne'.
    + rewrite Happ. apply (IH (pre ++ [x]) request).
      * rewrite List.filter_app. cbn [List.filter]. rewrite Ex, app_nil_r. exact Hreq.
      * rewrite length_app. cbn [length] in *. lia.
      * exact Hne'.
Qed.

Lemma eipPlan_unfold d :
  eipPlan pkg d =
  let '(un, bo) :=
    if (0 <? length (oldEips d))%nat
    then unassignLoop (newEips d) (length (oldEips d)) (oldEips d) [] EmptyString
    else ([], EmptyString) in
  let '(asg, bn) :=
    if (0 <? length (newEips d))%nat
    then assignLoop pkg (oldEips d) (length (newEips d)) (newEips d) [] EmptyString
    else ([], EmptyString) in
  {| unassigned := un; backUpOldIp := bo; assigned := asg; backUpNewIp := bn |}.
Proof.
  unfold eipPlan, oldEips, newEips. rewrite asList_GetOk.
  unfold GetChange, Get. cbn [fst snd].
  assert (E : forall l, length (strings_of l) = length l)
    by (intros l; apply length_map).
  rewrite !E. reflexivity.
Qed.

(** Property X1. The disassociate requests of the plan carry exactly the
    old EIPs that the new set leaves out, each once and in order; an old
    EIP is withheld only when every old EIP goes, and then it is the
    last. *)
Theorem unassign_plan_exact d :
  ~ In EmptyString (oldEips d) ->
  let plan := eipPlan pkg d in
  unassigned plan ++ withheld (backUpOldIp plan) = removedEips d
  /\ (backUpOldIp plan <> EmptyString ->
      removedEips d = oldEips d
      /\ List.last (oldEips d) EmptyString = backUpOldIp plan).
Proof.
  intros Hne plan. subst plan. rewrite eipPlan_unfold. unfold removedEips.
  destruct (oldEips d) as [|x l] eqn:Eo.
  - cbn [length Nat.ltb Nat.leb].
    destruct (if (0 <? length (newEips d))%nat then _ else _) as [asg bn].
    cbn. split; [reflexivity|]. intros H. contradiction.
  - change (0 <? length (x :: l))%nat with true. cbv iota.
    pose proof (unassignLoop_exact (newEips d) (length (x :: l)) (x :: l) [] []
                  eq_refl eq_refl Hne) as H.
    destruct (unassignLoop (newEips d) (length (x :: l)) (x :: l) [] EmptyString) as [un bo].
    destruct (if (0 <? length (newEips d))%nat then _ else _) as [asg bn].
    cbn [unassigned backUpOldIp app] in *. exact H.
Qed.

(** The second loop, from any point on.  [T] is the length of the
    request at which the test of the loop holds; the request grows up to
    that length, and every new EIP met from then on overwrites
    [backUpNewIp]. *)
Lemma assignLoop_spec oldEipSet eipSetLength rest :
  let T := (NAT_EIP_MAX_LIMIT pkg - Z.of_nat eipSetLength - 1)%Z in
  forall request bn,
    let a := List.filter (notIn oldEipSet) rest in
    assignLoop pkg oldEipSet eipSetLength rest request bn =
    if (Z.of_nat (length request) <=? T)%Z
       && (T <? Z.of_nat (length request + length a))%Z
    then (request ++ take (Z.to_nat T - length request) a, List.last a bn)
    else (request ++ a, bn).
Proof.
  intros T. induction rest as [|x rest IH]; intros request bn a; subst a.
  - cbn [assignLoop List.filter length]. rewrite between_false by lia.
    rewrite app_nil_r. reflexivity.
  - cbn [assignLoop List.filter]. fold (notIn oldEipSet x).
    destruct (notIn oldEipSet x) eqn:Ex; cbn [negb]; [|apply IH].
    set (a := List.filter (notIn oldEipSet) rest) in *.
    assert (Htest : (Z.of_nat (length request + eipSetLength + 1) =? NAT_EIP_MAX_LIMIT pkg)%Z
                    = (Z.of_nat (length request) =? T)%Z).
    { destruct (Z.eqb_spec (Z.of_nat (length request)) T) as [E|E];
        [apply Z.eqb_eq|apply Z.eqb_neq]; subst T; lia. }
    rewrite Htest. clear Htest.
    cbn [length]. destruct (Z.eqb_spec (Z.of_nat (length request)) T) as [Et|Et].
    + (* the test holds: [x] is withheld, the request stays as it is *)
      rewrite IH. fold a.
      replace (Z.to_nat T - length request) with 0 by lia.
      rewrite (between_true _ _ (Z.of_nat (length request + S (length a)))) by lia.
      destruct a as [|y a'] eqn:Ea.
      * rewrite between_false by (cbn [length]; lia).
        cbn. rewrite app_nil_r. reflexivity.
      * rewrite between_true by (cbn [length]; lia).
        cbn [take]. f_equal.
        change (List.last (x :: y :: a') bn) with (List.last (y :: a') bn).
        apply last_default. discriminate.
    + rewrite IH. fold a. rewrite length_app. cbn [length].
      destruct (Z_lt_dec T (Z.of_nat (length request))) as [Hlt|Hge];
        [|destruct (Z_lt_dec T (Z.of_nat (length request + S (length a)))) as [Hin|Hout]].
      * rewrite !between_false by lia. rewrite <- app_assoc. reflexivity.
      * rewrite !between_true by lia.
        replace (Z.to_nat T - length request) with (S (Z.to_nat T - (length request + 1)))
          by lia.
        cbn [take]. rewrite <- app_assoc. cbn [app]. f_equal.
        destruct a as [|y a']; [cbn [length] in *; lia|]. reflexivity.
      * rewrite !between_false by lia. rewrite <- app_assoc. reflexivity.
Qed.

(** Property X2. The associate requests of the plan. With [n] EIPs in
    the new set, of which [added] are new, and the limit [L]: when [n +
    |added| < L] or [L <= n] every added EIP is in the first request and
    none is withheld; otherwise the first request holds the first [L - n
    - 1] added EIPs, the last added EIP is withheld, and of the added
    EIPs [L - n] reach a request. *)
Theorem assign_plan_characterised d :
  let plan := eipPlan pkg d in
  let n := Z.of_nat (length (newEips d)) in
  let a := Z.of_nat (length (addedEips d)) in
  let L := NAT_EIP_MAX_LIMIT pkg in
  ((n + a < L \/ L <= n)%Z ->
   assigned plan = addedEips d /\ backUpNewIp plan = EmptyString)
  /\ ((n < L <= n + a)%Z ->
      assigned plan = take (Z.to_nat (L - n - 1)) (addedEips d)
      /\ backUpNewIp plan = List.last (addedEips d) EmptyString
      /\ (~ In EmptyString (newEips d) ->
          Z.of_nat (length (assigned plan ++ withheld (backUpNewIp plan))) = (L - n)%Z)).
Proof.
  intros plan n a L. subst plan. rewrite eipPlan_unfold.
  destruct (if (0 <? length (oldEips d))%nat then _ else _) as [un bo].
  unfold addedEips in *.
  destruct (newEips d) as [|x l] eqn:En.
  - cbn [length Nat.ltb Nat.leb List.filter assigned backUpNewIp] in *.
    split; [auto|]. intros H. subst n a. cbn in H. lia.
  - change (0 <? length (x :: l))%nat with true. cbv iota.
    rewrite assignLoop_spec. cbn [length app Nat.add Nat.sub].
    set (added := List.filter (notIn (oldEips d)) (x :: l)) in *.
    fold L. change (Z.of_nat (S (length l))) with n.
    rewrite Nat.sub_0_r. split.
    + intros H. rewrite between_false by (subst a; lia).
      cbn [assigned backUpNewIp]. auto.
    + intros H. rewrite between_true by (subst a; lia).
      cbn [assigned backUpNewIp]. split; [reflexivity|]. split; [reflexivity|].
      intros Hne.
      assert (Hadd : added <> []) by (intros E; subst a; rewrite E in H; cbn in H; lia).
      assert (Hlast : In (List.last added EmptyString) added).
      { destruct (exists_last Hadd) as (l' & y & ->).
        rewrite List.last_last. apply in_or_app. right. left. reflexivity. }
      assert (Hin : In (List.last added EmptyString) (x :: l)).
      { apply List.filter_In in Hlast. tauto. }
      unfold withheld.
      destruct (String.eqb_spec (List.last added EmptyString) EmptyString) as [E|_];
        [rewrite E in Hin; contradiction|].
      rewrite length_app, length_take. cbn [length]. subst a. lia.
Qed.

End EipPlan.

(* ================================================================== *)
(** * The calls of the update of the NAT gateway                      *)
(* ================================================================== *)

Section NatUpdateCalls.
Variables (pkg : Package) (meta : Meta).

(** The loops put into their request, and withhold, only EIPs of the
    list they walk that the other set does not hold. *)
Lemma unassignLoop_sound (P : string -> Prop) newEipSet lenOld rest :
  (forall x, In x rest -> notIn newEipSet x = true -> P x) ->
  forall request bo,
    Forall P request -> bo = EmptyString \/ P bo ->
    let '(un, bo') := unassignLoop newEipSet lenOld rest request bo in
    Forall P un /\ (bo' = EmptyString \/ P bo').
Proof.
  induction rest as [|x rest IH]; intros HP request bo Hreq Hbo; cbn [unassignLoop].
  - auto.
  - fold (notIn newEipSet x).
    assert (HP' : forall y, In y rest -> notIn newEipSet y = true -> P y)
      by (intros y Hy; apply HP; right; exact Hy).
    destruct (notIn newEipSet x) eqn:Ex; cbn [negb]; [|apply IH; auto].
    assert (Px : P x) by (apply HP; [left; reflexivity|exact Ex]).
    destruct (length request + 1 =? lenOld)%nat; apply IH; auto.
    apply Forall_app. auto.
Qed.

Lemma assignLoop_sound (P : string -> Prop) oldEipSet eipSetLength rest :
  (forall x, In x rest -> notIn oldEipSet x = true -> P x) ->
  forall request bn,
    Forall P request -> bn = EmptyString \/ P bn ->
    let '(asg, bn') := assignLoop pkg oldEipSet eipSetLength rest request bn in
    Forall P asg /\ (bn' = EmptyString \/ P bn').
Proof.
  induction rest as [|x rest IH]; intros HP request bn Hreq Hbn; cbn [assignLoop].
  - auto.
  - fold (notIn oldEipSet x).
    assert (HP' : forall y, In y rest -> notIn oldEipSet y = true -> P y)
      by (intros y Hy; apply HP; right; exact Hy).
    destruct (notIn oldEipSet x) eqn:Ex; cbn [negb]; [|apply IH; auto].
    assert (Px : P x) by (apply HP; [left; reflexivity|exact Ex]).
    destruct (Z.of_nat _ =? _)%Z; apply IH; auto.
    apply Forall_app. auto.
Qed.

Lemma eipPlan_sound d :
  let plan := eipPlan pkg d in
  Forall (fun ip => In ip (removedEips d)) (unassigned plan)
  /\ (backUpOldIp plan = EmptyString \/ In (backUpOldIp plan) (removedEips d))
  /\ Forall (fun ip => In ip (addedEips d)) (assigned plan)
  /\ (backUpNewIp plan = EmptyString \/ In (backUpNewIp plan) (addedEips d)).
Proof.
  intros plan. subst plan. rewrite eipPlan_unfold.
  assert (H1 : let '(un, bo) :=
                 if (0 <? length (oldEips d))%nat
                 then unassignLoop (newEips d) (length (oldEips d)) (oldEips d) [] EmptyString
                 else ([], EmptyString) in
               Forall (fun ip => In ip (removedEips d)) un
               /\ (bo = EmptyString \/ In bo (removedEips d))).
  { destruct (0 <? length (oldEips d))%nat; [|auto].
    apply unassignLoop_sound; auto.
    intros x Hx Hn. apply List.filter_In. auto. }
  assert (H2 : let '(asg, bn) :=
                 if (0 <? length (newEips d))%nat
                 then assignLoop pkg (oldEips d) (length (newEips d)) (newEips d) []
                        EmptyString
                 else ([], EmptyString) in
               Forall (fun ip => In ip (addedEips d)) asg
               /\ (bn = EmptyString \/ In bn (addedEips d))).
  { destruct (0 <? length (newEips d))%nat; [|auto].
    apply assignLoop_sound; auto.
    intros x Hx Hn. apply List.filter_In. auto. }
  destruct (if (0 <? length (oldEips d))%nat then _ else _) as [un bo].
  destruct (if (0 <? length (newEips d))%nat then _ else _) as [asg bn].
  cbn [unassigned backUpOldIp assigned backUpNewIp]. tauto.
Qed.

Lemma natUpdateEips_calls d :
  allCalls (natUpdateSdk d) (natUpdateService d meta) (natUpdateEips pkg d).
Proof.
  unfold natUpdateEips.
  destruct (HasChange d "assigned_eip_set") eqn:Hc; [|exact I].
  destruct (eipPlan_sound d) as (Hun & Hbo & Has & Hbn).
  set (plan := eipPlan pkg d) in *.
  assert (Hlen : forall l : list string, (0 <? length l)%nat = true -> l <> [])
    by (intros [|x l]; [discriminate|discriminate]).
  apply allCalls_andThen.
  { destruct (0 <? length (unassigned plan))%nat eqn:E; [|exact I].
    apply allCalls_retry_service. cbn. auto. }
  cbn [bind sleep allCalls].
  apply allCalls_andThen.
  { destruct (0 <? length (assigned plan))%nat eqn:E; [|exact I].
    apply allCalls_retry_sdk. cbn. auto. }
  cbn [bind sleep allCalls].
  apply allCalls_andThen.
  { destruct (String.eqb_spec (backUpOldIp plan) EmptyString) as [E|E]; [exact I|].
    apply allCalls_retry_service. cbn.
    destruct Hbo as [Hbo|Hbo]; [contradiction|].
    repeat split; auto; try discriminate. }
  destruct (String.eqb_spec (backUpNewIp plan) EmptyString) as [E|E]; [exact I|].
  apply allCalls_retry_sdk. cbn.
  destruct Hbn as [Hbn|Hbn]; [contradiction|].
  repeat split; auto; try discriminate.
Qed.

Lemma nat_update_calls d :
  allCalls (natUpdateSdk d) (natUpdateService d meta)
    (resourceTencentCloudNatGatewayUpdate pkg d meta).
Proof.
  unfold resourceTencentCloudNatGatewayUpdate.
  destruct (firstChanged d ["zone"]); [exact I|].
  apply allCalls_orReturn.
  { unfold natUpdateAttribute.
    destruct (HasChange d "name" || HasChange d "bandwidth") eqn:E; [|exact I].
    apply allCalls_retry_sdk. cbn. auto. }
  apply allCalls_orReturn.
  { unfold natUpdateConcurrent.
    destruct (HasChange d "max_concurrent") eqn:E; [|exact I].
    apply allCalls_retry_sdk. cbn. auto. }
  apply allCalls_orReturn; [apply natUpdateEips_calls|].
  apply allCalls_orReturn; [|exact I].
  unfold natUpdateTags. destruct (HasChange d "tags") eqn:E; [|exact I].
  destruct (GetChange d "tags") as [o n]. destruct (diffTags _ _) as [rt dt].
  cbn. auto.
Qed.

(** Property X3. Every call of a run of the update of the NAT gateway
    stands for a change: the attribute request for a changed name or
    bandwidth, and it carries those that changed; the connection reset
    for a changed [max_concurrent]; associate and disassociate requests
    for a changed EIP set; the tag request for changed tags. The update
    makes no other call, and none at all when [zone] changed or nothing
    did. *)
Theorem nat_update_calls_stand_for_changes C d w r w' tr :
  run C None (resourceTencentCloudNatGatewayUpdate pkg d meta) w = (r, w', tr) ->
  Forall (eventCall (natUpdateSdk d) (natUpdateService d meta)) tr
  /\ (HasChange d "zone" = true ->
      r = Some (d, Some (cannotBeChanged "zone")) /\ w' = w /\ tr = [])
  /\ ((forall k, In k ["zone"; "name"; "bandwidth"; "max_concurrent";
                       "assigned_eip_set"; "tags"] -> HasChange d k = false) ->
      r = Some (d, None) /\ w' = w /\ tr = []).
Proof.
  intros Hrun. split; [|split].
  - eapply allCalls_run; [apply nat_update_calls|exact Hrun].
  - intros Hz. revert Hrun. unfold resourceTencentCloudNatGatewayUpdate, firstChanged.
    cbn [List.find]. rewrite Hz. cbn [run]. intros [= <- <- <-]. auto.
  - intros Hn. revert Hrun.
    unfold resourceTencentCloudNatGatewayUpdate, firstChanged, natUpdateAttribute,
      natUpdateConcurrent, natUpdateEips, natUpdateTags.
    cbn [List.find].
    rewrite !Hn by (cbn; tauto). cbn. intros [= <- <- <-]. auto.
Qed.

(** Property X4. The EIPs an update of the NAT gateway moves. Every
    address of a disassociate request of a run is an old EIP that the
    new set does not hold, and every address of an associate request is
    a new EIP that the old set did not hold: an EIP that stays is in no
    request. *)
Theorem nat_update_moves_only_changed_eips C d w r w' tr :
  run C None (resourceTencentCloudNatGatewayUpdate pkg d meta) w = (r, w', tr) ->
  forall ev ips ip,
    In ev tr -> In ip ips ->
    (disassociated ev = Some ips -> In ip (oldEips d) /\ ~ In ip (newEips d))
    /\ (associated ev = Some ips -> In ip (newEips d) /\ ~ In ip (oldEips d)).
Proof.
  intros Hrun ev ips ip Hev Hip.
  assert (Hnot : forall l x, notIn l x = true -> ~ In x l).
  { intros l x Hx Hin. unfold notIn in Hx. apply negb_true_iff in Hx.
    assert (existsb (String.eqb x) l = true); [|congruence].
    apply List.existsb_exists. exists x. split; [exact Hin|apply String.eqb_refl]. }
  pose proof (allCalls_run C _ _ _ (nat_update_calls d) _ _ _ _ _ Hrun) as Hall.
  rewrite List.Forall_forall in Hall. specialize (Hall ev Hev).
  destruct ev as [R t c x|R t c x| |]; cbn in *.
  - split; [discriminate|]. destruct c; try discriminate.
    intros [= <-]. destruct Hall as (_ & _ & _ & Hall).
    rewrite List.Forall_forall in Hall. specialize (Hall ip Hip).
    apply List.filter_In in Hall as [H1 H2]. split; [exact H1|apply Hnot, H2].
  - split; [|discriminate]. destruct c; try discriminate.
    intros [= <-]. destruct Hall as (_ & _ & _ & Hall).
    rewrite List.Forall_forall in Hall. specialize (Hall ip Hip).
    apply List.filter_In in Hall as [H1 H2]. split; [exact H1|apply Hnot, H2].
  - split; discriminate.
  - split; discriminate.
Qed.

End NatUpdateCalls.

(* ================================================================== *)
(** * The retry discipline of the other resources                     *)
(* ================================================================== *)

Section Discipline.
Variables (pkg : Package) (meta : Meta).

Ltac discipline :=
  repeat first
    [ exact I
    | match goal with
      | |- fixedTimeout _ => (left; reflexivity) || (right; reflexivity)
      | |- exists a, _ = Ret a /\ _ = Some _ => eexists; split; reflexivity
      | |- disciplined _ (orReturn _ _ _) => apply disciplined_orReturn
      | |- disciplined _ (match ?x with _ => _ end) => destruct x
      | |- disciplined _ (if ?b then _ else _) => destruct b
      | |- flat (match ?x with _ => _ end) => destruct x
      | |- flat (if ?b then _ else _) => destruct b
      | |- forall _, _ => intro
      | |- _ /\ _ => split
      end
    | progress cbn [disciplined flat bind retry sdk_call service_call retryClosure
                      fst snd id] ].

Lemma monitor_read_disciplined d :
  disciplined snd (resourceTencentCloudMonitorTmpCvmAgentRead pkg d meta).
Proof. unfold resourceTencentCloudMonitorTmpCvmAgentRead. discipline. Qed.

Lemma monitor_create_disciplined d :
  disciplined snd (resourceTencentCloudMonitorTmpCvmAgentCreate pkg d meta).
Proof.
  unfold resourceTencentCloudMonitorTmpCvmAgentCreate. discipline.
  apply monitor_read_disciplined.
Qed.

Lemma wedata_read_disciplined d :
  disciplined snd (resourceTencentCloudWedataRuleTemplateRead pkg d meta).
Proof. unfold resourceTencentCloudWedataRuleTemplateRead. discipline. Qed.

Lemma wedata_create_disciplined d :
  disciplined snd (resourceTencentCloudWedataRuleTemplateCreate pkg d meta).
Proof.
  unfold resourceTencentCloudWedataRuleTemplateCreate. discipline.
  apply wedata_read_disciplined.
Qed.

Lemma wedata_update_disciplined d :
  disciplined snd (resourceTencentCloudWedataRuleTemplateUpdate pkg d meta).
Proof.
  unfold resourceTencentCloudWedataRuleTemplateUpdate. discipline.
  apply wedata_read_disciplined.
Qed.

Lemma wedata_delete_disciplined d :
  disciplined snd (resourceTencentCloudWedataRuleTemplateDelete pkg d meta).
Proof. unfold resourceTencentCloudWedataRuleTemplateDelete. discipline. Qed.

Lemma scf_read_disciplined d :
  disciplined snd (resourceTencentCloudScfFunctionEventInvokeConfigRead pkg d meta).
Proof. unfold resourceTencentCloudScfFunctionEventInvokeConfigRead. discipline. Qed.

Lemma scf_update_disciplined d :
  disciplined snd (resourceTencentCloudScfFunctionEventInvokeConfigUpdate pkg d meta).
Proof.
  unfold resourceTencentCloudScfFunctionEventInvokeConfigUpdate.
  destruct (GoStrings.Split (Id d) FILED_SP) as [|a [|b [|? ?]]]; try exact I.
  discipline. apply scf_read_disciplined.
Qed.

Lemma tdmq_read_disciplined d :
  disciplined snd (resourceTencentCloudTdmqNamespaceRoleAttachmentRead pkg d meta).
Proof. unfold resourceTencentCloudTdmqNamespaceRoleAttachmentRead. discipline. Qed.

Lemma tdmq_create_disciplined d :
  disciplined snd (resourceTencentCloudTdmqNamespaceRoleAttachmentCreate pkg d meta).
Proof.
  unfold resourceTencentCloudTdmqNamespaceRoleAttachmentCreate. discipline.
  apply tdmq_read_disciplined.
Qed.

Lemma tdmq_update_disciplined d :
  disciplined snd (resourceTencentCloudTdmqNamespaceRoleAttachmentUpdate pkg d meta).
Proof.
  unfold resourceTencentCloudTdmqNamespaceRoleAttachmentUpdate. discipline.
  apply tdmq_read_disciplined.
Qed.

Lemma tdmq_delete_disciplined d :
  disciplined snd (resourceTencentCloudTdmqNamespaceRoleAttachmentDelete pkg d meta).
Proof. unfold resourceTencentCloudTdmqNamespaceRoleAttachmentDelete. discipline. Qed.

Lemma rabbitmq_read_disciplined d :
  disciplined snd (resourceTencentCloudTdmqRabbitmqUserRead pkg d meta).
Proof. unfold resourceTencentCloudTdmqRabbitmqUserRead. discipline. Qed.

Lemma rabbitmq_create_disciplined d :
  disciplined snd (resourceTencentCloudTdmqRabbitmqUserCreate pkg d meta).
Proof.
  unfold resourceTencentCloudTdmqRabbitmqUserCreate. discipline.
  apply rabbitmq_read_disciplined.
Qed.

Lemma rabbitmq_update_disciplined d :
  disciplined snd (resourceTencentCloudTdmqRabbitmqUserUpdate pkg d meta).
Proof.
  unfold resourceTencentCloudTdmqRabbitmqUserUpdate. discipline;
    apply rabbitmq_read_disciplined.
Qed.

Lemma rabbitmq_delete_disciplined d :
  disciplined snd (resourceTencentCloudTdmqRabbitmqUserDelete pkg d meta).
Proof. unfold resourceTencentCloudTdmqRabbitmqUserDelete. discipline. Qed.

End Discipline.

(** Property X5. The retry discipline of the operations of the monitor
    agent, the wedata rule template, the scf invoke configuration, the
    tdmq attachment and the rabbitmq user. In a run of any of them every
    call on an SDK client happens inside a [resource.Retry] whose
    timeout is readRetryTimeout or writeRetryTimeout, and a [Retry] that
    returned an error is the last event: the operation makes no further
    call and returns that error. *)
Theorem retry_discipline_of_the_other_resources (pkg : Package) (meta : Meta) (C : Cloud)
    (op : Operation) (d : ResourceData) (w : World C) r w' tr :
  In (Some op) (concat (map operations (retryingResources pkg))) ->
  run C None (op d meta) w = (r, w', tr) ->
  Forall sdkInFixedRetry tr
  /\ forall tr1 t e tr2,
       tr = tr1 ++ EvRetryEnd t (Some e) :: tr2 ->
       tr2 = [] /\ returned r = Some e.
Proof.
  intros Hop Hrun.
  assert (Hd : disciplined snd (op d meta)).
  { cbn in Hop.
    repeat (destruct Hop as [Hop|Hop]; [try discriminate Hop; injection Hop as <-|]);
      [..|destruct Hop].
    - apply monitor_create_disciplined.
    - apply monitor_read_disciplined.
    - exact I.
    - apply wedata_create_disciplined.
    - apply wedata_read_disciplined.
    - apply wedata_update_disciplined.
    - apply wedata_delete_disciplined.
    - apply scf_update_disciplined.
    - apply scf_read_disciplined.
    - apply scf_update_disciplined.
    - exact I.
    - apply tdmq_create_disciplined.
    - apply tdmq_read_disciplined.
    - apply tdmq_update_disciplined.
    - apply tdmq_delete_disciplined.
    - apply rabbitmq_create_disciplined.
    - apply rabbitmq_read_disciplined.
    - apply rabbitmq_update_disciplined.
    - apply rabbitmq_delete_disciplined. }
  destruct (disciplined_run C snd _ Hd _ _ _ _ Hrun) as [Ha Hb].
  split; [exact Ha|].
  intros tr1 t e tr2 E. destruct (Hb _ _ _ _ E) as (-> & [d' oe] & -> & Hoe).
  split; [reflexivity|exact Hoe].
Qed.

(* ================================================================== *)
(** * The tdmq namespace role attachment                              *)
(* ================================================================== *)

Section Typed.

Lemma typedMap_lookup schema m k s v :
  typedMap schema m = true -> In (k, s) schema -> m !! k = Some v ->
  hasType (Type_ s) v = true.
Proof.
  unfold typedMap. rewrite List.forallb_forall. intros H Hin Hv.
  specialize (H _ Hin). cbn [fst snd] in H. rewrite Hv in H. exact H.
Qed.

Lemma typed_state schema d k s v :
  typed schema d = true -> In (k, s) schema -> rd_state d !! k = Some v ->
  hasType (Type_ s) v = true.
Proof.
  unfold typed. intros H. apply andb_prop in H as [H _]. eauto using typedMap_lookup.
Qed.

Lemma typed_attrs schema d k s v :
  typed schema d = true -> In (k, s) schema -> rd_attrs d !! k = Some v ->
  hasType (Type_ s) v = true.
Proof.
  unfold typed. intros H. apply andb_prop in H as [_ H]. eauto using typedMap_lookup.
Qed.

(** The guard [if len(x) < 1] under [if temp, ok := d.GetOk(key); ok]
    never holds for a string argument: [GetOk] gives [ok] only for a
    string that is not empty. *)
Lemma GetOk_guard d k :
  (forall v, rd_attrs d !! k = Some v -> hasType TypeString v = true) ->
  isSet (GetOk d k) && (String.length (asString (GetOk d k)) <? 1)%nat = false.
Proof.
  intros H. unfold GetOk. destruct (rd_attrs d !! k) as [v|] eqn:E; [|reflexivity].
  specialize (H v eq_refl). destruct v as [z|s|b|l|l|m]; try discriminate H.
  cbn [is_zero]. destruct s as [|c s]; reflexivity.
Qed.

(** Values that [d.HasChange] finds equal read as the same string. *)
Lemma value_eqb_asString a b :
  value_eqb a b = true -> asString (Some a) = asString (Some b).
Proof.
  destruct a, b; cbn; try discriminate; try reflexivity.
  intros H. apply String.eqb_eq in H. congruence.
Qed.

Lemma list_eqb_strings l1 l2 :
  list_eqb_by value_eqb l1 l2 = true -> strings_of l1 = strings_of l2.
Proof.
  revert l2. induction l1 as [|x l1 IH]; intros [|y l2]; cbn; try discriminate;
    [reflexivity|].
  intros H. apply andb_prop in H as [H1 H2].
  f_equal; [apply value_eqb_asString, H1|apply IH, H2].
Qed.

End Typed.

Section Tdmq.
Variables (pkg : Package) (meta : Meta).

(** Property X6. The three guards of the create of the attachment never
    fire. For resource data that fits the schema the create is the call
    of [CreateTdmqNamespaceRoleAttachment] followed by the read: an
    [environ_id], [role_name] or [cluster_id] that is the empty string
    reaches the service as it is. *)
Theorem tdmq_create_guards_never_fire d :
  typed (Schema_ (resourceTencentCloudTdmqNamespaceRoleAttachment pkg)) d = true ->
  let environId := asString (Get d "environ_id") in
  let roleName := asString (Get d "role_name") in
  let clusterId := asString (Get d "cluster_id") in
  resourceTencentCloudTdmqNamespaceRoleAttachmentCreate pkg d meta
  = orReturn d
      (service_call (TdmqService_CreateTdmqNamespaceRoleAttachment environId roleName
                       (strings_of (asList (Get d "permissions"))) clusterId))
      (resourceTencentCloudTdmqNamespaceRoleAttachmentRead pkg
         (SetId (environId +:+ FILED_SP +:+ roleName) d) meta).
Proof.
  intros Ht environId roleName clusterId.
  unfold resourceTencentCloudTdmqNamespaceRoleAttachmentCreate.
  assert (Hs : forall k, In k ["environ_id"; "role_name"; "cluster_id"] ->
                 forall v, rd_attrs d !! k = Some v -> hasType TypeString v = true).
  { intros k Hk v Hv.
    apply (typed_attrs _ d k (required (ofType TypeString)) v Ht); [|exact Hv].
    cbn in Hk |- *. intuition (subst; auto). }
  assert (Hg : forall k, In k ["environ_id"; "role_name"; "cluster_id"] ->
                 asString (GetOk d k) = asString (Get d k)).
  { intros k Hk. unfold GetOk, Get.
    destruct (rd_attrs d !! k) as [v|] eqn:E; [|reflexivity].
    pose proof (Hs k Hk v E) as Hv. destruct v as [z|s|b|l|l|m]; try discriminate Hv.
    cbn [is_zero]. destruct s; reflexivity. }
  rewrite !GetOk_guard by (apply Hs; cbn; tauto).
  rewrite !Hg by (cbn; tauto). rewrite asList_GetOk. reflexivity.
Qed.

(** Property X7. The update of the attachment always sends the
    permissions of the new configuration: its two branches, on whether
    the permissions changed, build the same request. *)
Theorem tdmq_update_sends_new_permissions d environId roleName :
  typed (Schema_ (resourceTencentCloudTdmqNamespaceRoleAttachment pkg)) d = true ->
  GoStrings.Split (Id d) FILED_SP = [environId; roleName] ->
  resourceTencentCloudTdmqNamespaceRoleAttachmentUpdate pkg d meta
  = orReturn d
      (service_call (TdmqService_ModifyTdmqNamespaceRoleAttachment environId roleName
                       (strings_of (asList (Get d "permissions")))
                       (asString (Get d "cluster_id"))))
      (resourceTencentCloudTdmqNamespaceRoleAttachmentRead pkg d meta).
Proof.
  intros Ht Hid.
  unfold resourceTencentCloudTdmqNamespaceRoleAttachmentUpdate. rewrite Hid.
  unfold GetChange, HasChange, Get.
  assert (Hin : In ("permissions", required (elemSchema (ofType TypeString) (ofType TypeList)))
                  (Schema_ (resourceTencentCloudTdmqNamespaceRoleAttachment pkg)))
    by (cbn; tauto).
  pose proof (fun v => typed_state _ d _ _ v Ht Hin) as Hst.
  pose proof (fun v => typed_attrs _ d _ _ v Ht Hin) as Hat.
  destruct (rd_state d !! "permissions") as [a|], (rd_attrs d !! "permissions") as [b|];
    try reflexivity.
  - specialize (Hst a eq_refl). specialize (Hat b eq_refl).
    destruct (value_eqb a b) eqn:E; [|reflexivity]. cbn [negb].
    destruct a as [| | |l1| |]; try discriminate Hst.
    destruct b as [| | |l2| |]; try discriminate Hat.
    cbn [asList]. cbn in E. rewrite (list_eqb_strings l1 l2 E). reflexivity.
  - specialize (Hst a eq_refl).
    destruct a as [| | |l1| |]; try discriminate Hst.
    destruct l1; reflexivity.
  - specialize (Hat b eq_refl).
    destruct b as [| | |l2| |]; try discriminate Hat.
    destruct l2; reflexivity.
Qed.

(** A retry loop whose closure answers the retryable error [e] at every
    attempt uses up its attempts and returns [e]. *)
Lemma retry_loop_exhausted C {St} n
    (f : St -> World C -> option (St * option RetryError) * World C * list Event) e :
  (forall s w, exists s' w' tr,
      f s w = (Some (s', Some (RetryableError e)), w', tr) /\ length (calls tr) = 1) ->
  forall last s w, exists s' w' tr,
    retry_loop C n f last s w
    = (Some (s', Some (match n with O => last | S _ => e end)), w', tr)
    /\ length (calls tr) = n.
Proof.
  intros Hf. induction n as [|n IH]; intros last s w.
  - exists s, w, []. split; reflexivity.
  - rewrite retry_loop_S. destruct (Hf s w) as (s1 & w1 & tr1 & -> & Hc).
    destruct (IH e s1 w1) as (s2 & w2 & tr2 & -> & Hc2).
    exists s2, w2, (tr1 ++ tr2). split.
    + destruct n; reflexivity.
    + unfold calls in *. rewrite List.filter_app, length_app. lia.
Qed.

(** Property X8. The delete of the attachment. It returns nil only after
    an attempt that the service answered without error or with an SDK
    error of code [VPCNotFound], and it returns nil at the first such
    answer; every other error, an SDK error or not, is tried again: when
    the service answers such an error [e] at every attempt, the delete
    makes as many attempts as the write timeout leaves and returns [e]. *)
Theorem tdmq_delete_retries_every_error C d environId roleName :
  GoStrings.Split (Id d) FILED_SP = [environId; roleName] ->
  let call :=
    TdmqService_DeleteTdmqNamespaceRoleAttachment environId roleName
      (asString (Get d "cluster_id")) in
  let attempt answer := EvService (Some writeRetryTimeout) call answer in
  (forall w d' w' tr,
      run C None (resourceTencentCloudTdmqNamespaceRoleAttachmentDelete pkg d meta) w
      = (Some (d', None), w', tr) ->
      d' = d
      /\ exists tr0 answer,
           tr = tr0 ++ [attempt answer; EvRetryEnd writeRetryTimeout None]
           /\ deletedOrNotFound pkg answer)
  /\ (forall w answer w1,
         service C _ call w = (answer, w1) ->
         deletedOrNotFound pkg answer ->
         run C None (resourceTencentCloudTdmqNamespaceRoleAttachmentDelete pkg d meta) w
         = (Some (d, None), w1, [attempt answer; EvRetryEnd writeRetryTimeout None]))
  /\ (forall e,
         (forall w, fst (service C _ call w) = Some e) ->
         ~ deletedOrNotFound pkg (Some e) ->
         forall w, exists w' tr,
           run C None (resourceTencentCloudTdmqNamespaceRoleAttachmentDelete pkg d meta) w
           = (Some (d, Some e), w', tr)
           /\ length (calls tr) = S (retries C writeRetryTimeout)).
Proof.
  intros Hid call attempt.
  unfold resourceTencentCloudTdmqNamespaceRoleAttachmentDelete. rewrite Hid.
  fold call.
  match goal with
  | |- context [retry writeRetryTimeout ?f tt] => set (closure := f)
  end.
  assert (Hclosure : forall u w,
             run C (Some writeRetryTimeout) (closure u) w
             = let (answer, w1) := service C _ call w in
               (Some (tt, match answer with
                          | Some (TencentCloudSDKError code m) =>
                              if String.eqb code (VPCNotFound pkg) then None
                              else Some (RetryableError (TencentCloudSDKError code m))
                          | Some (Errorf m) => Some (RetryableError (Errorf m))
                          | None => None
                          end), w1, [attempt answer])).
  { intros u w. subst closure. cbn [bind service_call run].
    destruct (service C _ call w) as [[[code m|m]|] w1]; cbn [run]; try reflexivity.
    destruct (String.eqb code (VPCNotFound pkg)); reflexivity. }
  assert (Hdone : forall answer,
             deletedOrNotFound pkg answer ->
             match answer with
             | Some (TencentCloudSDKError code m) =>
                 if String.eqb code (VPCNotFound pkg) then None
                 else Some (RetryableError (TencentCloudSDKError code m))
             | Some (Errorf m) => Some (RetryableError (Errorf m))
             | None => None
             end = None).
  { intros answer [->|[m ->]]; [reflexivity|]. rewrite String.eqb_refl. reflexivity. }
  split; [|split].
  - intros w d' w' tr. rewrite run_retry_bind.
    destruct (retry_loop C _ _ timeoutError tt w) as [[[[u oe]|] w1] tr1] eqn:El;
      cbn [run snd]; [|discriminate].
    intros H. injection H as H1 H2 H3 H4. subst d' oe w' tr. split; [reflexivity|].
    apply retry_loop_success in El as (s0 & w0 & tr0 & tr2 & Hf & ->).
    cbv beta in Hf. rewrite Hclosure in Hf.
    destruct (service C _ call w0) as [answer w2].
    exists tr0, answer. injection Hf as _ Hf <- <-.
    split; [rewrite <- app_assoc; reflexivity|].
    destruct answer as [[code m|m]|]; try discriminate Hf.
    + destruct (String.eqb_spec code (VPCNotFound pkg)) as [->|]; [|discriminate Hf].
      right. eauto.
    + left. reflexivity.
  - intros w answer w1 Hs Hd. rewrite run_retry_bind, retry_loop_S, Hclosure, Hs.
    rewrite (Hdone answer Hd). reflexivity.
  - intros e He Hnot w. rewrite run_retry_bind.
    destruct (retry_loop_exhausted C (S (retries C writeRetryTimeout))
                (fun s0 => run C (Some writeRetryTimeout) (closure s0)) e) with
      (last := timeoutError) (s := tt) (w := w) as (s' & w' & tr & -> & Hc).
    { intros u w0. rewrite Hclosure. specialize (He w0).
      destruct (service C _ call w0) as [answer w1]. cbn [fst] in He. subst answer.
      exists tt, w1, [attempt (Some e)]. split; [|reflexivity].
      destruct e as [code m|m]; [|reflexivity].
      destruct (String.eqb_spec code (VPCNotFound pkg)) as [->|]; [|reflexivity].
      exfalso. apply Hnot. right. eauto. }
    cbn [run snd]. exists w', (tr ++ [EvRetryEnd writeRetryTimeout (Some e)]).
    split; [reflexivity|].
    unfold calls in *. rewrite List.filter_app, length_app. cbn. lia.
Qed.

End Tdmq.

(* ================================================================== *)
(** * The tdmq rabbitmq user                                          *)
(* ================================================================== *)

Section Rabbitmq.
Variables (pkg : Package) (meta : Meta).
Import GoStrings.

(** The create joins the instance ID and the user name the cloud
    answered, and reads the resource back under that ID. *)
Lemma rabbitmq_create_sets_id C d w user w1 :
  (forall request, sdk C _ (CreateRabbitMQUser request) w = (inr user, w1)) ->
  exists ev,
    run C None (resourceTencentCloudTdmqRabbitmqUserCreate pkg d meta) w
    = let '(r, w2, tr) :=
        run C None
          (resourceTencentCloudTdmqRabbitmqUserRead pkg
             (SetId (Join [asString (GetOk d "instance_id"); user] FILED_SP) d) meta)
          w1 in
      (r, w2, ev :: EvRetryEnd writeRetryTimeout None :: tr).
Proof.
  intros Hs. eexists.
  unfold resourceTencentCloudTdmqRabbitmqUserCreate.
  cbn [bind retry sdk_call run retry_loop]. rewrite Hs. cbn [run fst snd app].
  match goal with
  | |- context [run C None ?p w1] => destruct (run C None p w1) as [[r w2] tr]
  end.
  reflexivity.
Qed.

Lemma rabbitmq_broken d :
  broken (Id d) ->
  let err := Some (brokenIdSplit (Split (Id d) FILED_SP)) in
  resourceTencentCloudTdmqRabbitmqUserRead pkg d meta = Ret (d, err)
  /\ resourceTencentCloudTdmqRabbitmqUserUpdate pkg d meta = Ret (d, err)
  /\ resourceTencentCloudTdmqRabbitmqUserDelete pkg d meta = Ret (d, err).
Proof.
  intros H err. subst err.
  unfold resourceTencentCloudTdmqRabbitmqUserRead,
    resourceTencentCloudTdmqRabbitmqUserDelete,
    resourceTencentCloudTdmqRabbitmqUserUpdate.
  unfold broken in H.
  destruct (Split (Id d) FILED_SP) as [|? [|? [|? ?]]]; cbn [length] in H;
    try (exfalso; apply H; reflexivity); repeat split; reflexivity.
Qed.

(** Property X9. The compound ID of the rabbitmq user. The create joins
    the configured [instance_id] and the user name the API answered with
    FILED_SP and reads the resource back under that ID; read and delete
    hand the two parts of the ID to the call they make; read, update and
    delete return the error "id is broken,[parts]", without any call,
    for every ID that does not split into exactly two parts. *)
Theorem rabbitmq_user_compound_id :
  (forall C d w user w1,
     (forall request, sdk C _ (CreateRabbitMQUser request) w = (inr user, w1)) ->
     exists ev,
       run C None (resourceTencentCloudTdmqRabbitmqUserCreate pkg d meta) w
       = let '(r, w2, tr) :=
           run C None
             (resourceTencentCloudTdmqRabbitmqUserRead pkg
                (SetId (Join [asString (GetOk d "instance_id"); user] FILED_SP) d) meta)
             w1 in
         (r, w2, ev :: EvRetryEnd writeRetryTimeout None :: tr))
  /\ (forall d a b,
        Id d = a +:+ FILED_SP +:+ b ->
        Contains a FILED_SP = false ->
        Contains b FILED_SP = false ->
        (exists k, resourceTencentCloudTdmqRabbitmqUserRead pkg d meta
                   = ServiceCall (TdmqService_DescribeTdmqRabbitmqUserById a b) k)
        /\ (exists k, resourceTencentCloudTdmqRabbitmqUserDelete pkg d meta
                      = ServiceCall (TdmqService_DeleteTdmqRabbitmqUserById a b) k))
  /\ (forall d,
        broken (Id d) ->
        let err := Some (brokenIdSplit (Split (Id d) FILED_SP)) in
        resourceTencentCloudTdmqRabbitmqUserRead pkg d meta = Ret (d, err)
        /\ resourceTencentCloudTdmqRabbitmqUserUpdate pkg d meta = Ret (d, err)
        /\ resourceTencentCloudTdmqRabbitmqUserDelete pkg d meta = Ret (d, err)).
Proof.
  split; [exact rabbitmq_create_sets_id|]. split; [|exact rabbitmq_broken].
  intros d a b HId Ha Hb.
  destruct (Split_join a b Ha Hb) as [_ HS].
  unfold resourceTencentCloudTdmqRabbitmqUserDelete,
    resourceTencentCloudTdmqRabbitmqUserRead.
  rewrite HId, HS. split; eexists; reflexivity.
Qed.

(** Property X10. What the update of the rabbitmq user sends. With an ID
    of two parts, a change of [instance_id], [user] or [password] is
    refused with the error "argument `<name>` cannot be changed" and no
    call; when neither these nor [description], [max_connections] and
    [max_channels] changed the update is the read; and every
    [ModifyRabbitMQUser] of a run is sent for a change of one of the
    latter three and names the instance and the user of the ID. *)
Theorem rabbitmq_update_sends_what_changed d instanceId user :
  Split (Id d) FILED_SP = [instanceId; user] ->
  let immutableArgs := ["instance_id"; "user"; "password"] in
  (forall k, In k immutableArgs -> HasChange d k = true ->
     exists v, In v immutableArgs /\ HasChange d v = true
               /\ resourceTencentCloudTdmqRabbitmqUserUpdate pkg d meta
                  = Ret (d, Some (cannotBeChanged v)))
  /\ ((forall k, In k (immutableArgs ++ ["description"; "max_connections"; "max_channels"]) ->
                 HasChange d k = false) ->
      resourceTencentCloudTdmqRabbitmqUserUpdate pkg d meta
      = resourceTencentCloudTdmqRabbitmqUserRead pkg d meta)
  /\ (forall C w r w' tr,
        run C None (resourceTencentCloudTdmqRabbitmqUserUpdate pkg d meta) w = (r, w', tr) ->
        Forall (eventCall (rabbitmqUpdateSdk d instanceId user)
                  (rabbitmqUpdateService instanceId user)) tr).
Proof.
  intros Hid immutableArgs. split; [|split].
  - intros k Hin Hk.
    destruct (firstChanged_complete d _ k Hin Hk) as (v & Hv & Hvin & Hvc).
    exists v. repeat split; try assumption.
    unfold resourceTencentCloudTdmqRabbitmqUserUpdate. rewrite Hid.
    fold immutableArgs. rewrite Hv. reflexivity.
  - intros Hn.
    unfold resourceTencentCloudTdmqRabbitmqUserUpdate. rewrite Hid.
    unfold firstChanged. cbn [List.find].
    rewrite !Hn by (cbn; tauto). reflexivity.
  - intros C w r w' tr Hrun.
    eapply allCalls_run; [|exact Hrun].
    unfold resourceTencentCloudTdmqRabbitmqUserUpdate. rewrite Hid.
    destruct (firstChanged d ["instance_id"; "user"; "password"]) eqn:Ef; [exact I|].
    apply allCalls_orReturn.
    + destruct (HasChange d "description" || HasChange d "max_connections"
                || HasChange d "max_channels") eqn:Ec; [|exact I].
      apply allCalls_retry_sdk. cbn. auto.
    + unfold resourceTencentCloudTdmqRabbitmqUserRead. rewrite Hid.
      cbn. split; [auto|]. intros [e|[u|]]; exact I.
Qed.

End Rabbitmq.

(* ================================================================== *)
(** * What the reads write                                            *)
(* ================================================================== *)

Section Returns.
Variable C : Cloud.

(** What holds of the variables and of the error a retry loop leaves. *)
Lemma retry_loop_fin {St} (Inv : St -> Prop) (Fin : St -> option error -> Prop) n
    (f : St -> World C -> option (St * option RetryError) * World C * list Event) :
  (forall s w s' e w' tr,
      Inv s -> f s w = (Some (s', e), w', tr) ->
      match e with
      | Some (RetryableError _) => Inv s'
      | Some (NonRetryableError e) => Fin s' (Some e)
      | None => Fin s' None
      end) ->
  (forall s e, Inv s -> Fin s (Some e)) ->
  forall last s w s' oe w' tr,
    Inv s -> retry_loop C n f last s w = (Some (s', oe), w', tr) -> Fin s' oe.
Proof.
  intros Hf Hex. induction n as [|n IH]; intros last s w s' oe w' tr Hs; cbn [retry_loop].
  - intros [= <- <- _ _]. apply Hex, Hs.
  - destruct (f s w) as [[[[s1 [[e|e]|]]|] w1] tr1] eqn:Ef.
    + destruct (retry_loop C n f e s1 w1) as [[r2 w2] tr2] eqn:El.
      intros [= -> <- <-]. eapply IH; [|exact El]. exact (Hf _ _ _ _ _ _ Hs Ef).
    + intros [= <- <- _ _]. exact (Hf _ _ _ _ _ _ Hs Ef).
    + intros [= <- <- _ _]. exact (Hf _ _ _ _ _ _ Hs Ef).
    + intros [=].
Qed.

(** What [returns] means for the runs of a program. *)
Lemma returns_run {A} (Q : A -> Prop) (p : Prog A) :
  returns Q p ->
  forall ctx w a w' tr, run C ctx p w = (Some a, w', tr) -> Q a.
Proof.
  revert Q.
  induction p as [A a0|A m|A R c k IH|A R c k IH|A n k IH|A St t0 f IHf s k IH];
    cbn [returns run]; intros Q Hp ctx w a w' tr.
  - intros [= <- _ _]. exact Hp.
  - intros [=].
  - destruct (sdk C R c w) as [x w1].
    destruct (run C ctx (k x) w1) as [[a1 w2] tr2] eqn:E.
    intros [= -> <- <-]. eapply IH; [apply Hp|exact E].
  - destruct (service C R c w) as [x w1].
    destruct (run C ctx (k x) w1) as [[a1 w2] tr2] eqn:E.
    intros [= -> <- <-]. eapply IH; [apply Hp|exact E].
  - destruct (run C ctx k w) as [[a1 w2] tr2] eqn:E.
    intros [= -> <- <-]. eapply IH; [apply Hp|exact E].
  - destruct Hp as (Inv & Fin & Hs & Hf & Hex & Hk).
    match goal with
    | |- context [retry_loop C ?n ?f0 ?l s w] =>
        destruct (retry_loop C n f0 l s w) as [[[[s' oe]|] w1] ltr] eqn:El
    end; [|intros [=]].
    destruct (run C ctx (k (s', oe)) w1) as [[a1 w2] tr2] eqn:E.
    intros [= -> <- <-].
    eapply IH; [|exact E]. apply Hk.
    eapply (retry_loop_fin Inv Fin); [|exact Hex|exact Hs|exact El].
    intros s0 w0 s1 e w0' tr0 Hs0 E0. cbv beta in E0.
    exact (IHf s0 _ (Hf s0 Hs0) _ _ _ _ _ E0).
Qed.

Lemma returns_impl {A} (Q Q' : A -> Prop) (p : Prog A) :
  (forall a, Q a -> Q' a) -> returns Q p -> returns Q' p.
Proof.
  revert Q Q'.
  induction p as [A a0|A m|A R c k IH|A R c k IH|A n k IH|A St t0 f IHf s k IH];
    cbn [returns]; intros Q Q' HQ; try tauto; eauto.
  intros (Inv & Fin & Hs & Hf & Hex & Hk). exists Inv, Fin. repeat split; eauto.
Qed.


End Returns.

Section Frame.
Variables (pkg : Package) (meta : Meta).

Lemma sameExcept_refl keys d : sameExcept keys d d.
Proof. split; [reflexivity|]. intros k _. reflexivity. Qed.

Lemma sameExcept_SetId keys d d' id :
  sameExcept keys d d' -> sameExcept keys d (SetId id d').
Proof. intros H. exact H. Qed.

Lemma sameExcept_Set keys d d' k v :
  In k keys -> sameExcept keys d d' -> sameExcept keys d (Set_ k v d').
Proof.
  intros Hk [H1 H2]. split; [exact H1|]. intros k0 Hk0. cbn [Set_ rd_attrs].
  rewrite lookup_insert_ne; [apply H2, Hk0|]. intros ->. contradiction.
Qed.

Lemma sameExcept_SetIfNotNil keys d d' k v :
  In k keys -> sameExcept keys d d' -> sameExcept keys d (SetIfNotNil k v d').
Proof. intros Hk H. destruct v; [apply sameExcept_Set; assumption|exact H]. Qed.

Ltac frame :=
  repeat first
    [ apply sameExcept_refl
    | assumption
    | apply sameExcept_SetId
    | apply sameExcept_Set; [cbn [In]; tauto|]
    | apply sameExcept_SetIfNotNil; [cbn [In]; tauto|] ].

Ltac framed keys :=
  repeat first
    [ exact I
    | match goal with
      | |- returns _ (match ?x with _ => _ end) => destruct x
      | |- returns _ (if ?b then _ else _) => destruct b
      | |- match ?x with _ => _ end => destruct x
      | |- forall _, _ => intro
      | |- sameExcept _ _ _ => unfold keys; solve [frame]
      end
    | progress cbn [returns bind retry sdk_call service_call orReturn fst snd] ].

Lemma nat_read_frame d :
  returns (fun r => sameExcept natGatewayRefreshed d (fst r))
    (resourceTencentCloudNatGatewayRead pkg d meta).
Proof.
  unfold resourceTencentCloudNatGatewayRead. cbn [bind retry returns].
  exists (fun _ => True), (fun _ _ => True).
  split; [exact I|]. split; [|split; [auto|]]; framed natGatewayRefreshed.
Qed.

Lemma monitor_read_frame d :
  returns (fun r => sameExcept monitorTmpCvmAgentRefreshed d (fst r))
    (resourceTencentCloudMonitorTmpCvmAgentRead pkg d meta).
Proof.
  unfold resourceTencentCloudMonitorTmpCvmAgentRead. framed monitorTmpCvmAgentRefreshed.
Qed.

Lemma wedata_read_frame d :
  returns (fun r => sameExcept wedataRuleTemplateRefreshed d (fst r))
    (resourceTencentCloudWedataRuleTemplateRead pkg d meta).
Proof.
  unfold resourceTencentCloudWedataRuleTemplateRead. framed wedataRuleTemplateRefreshed.
Qed.

Lemma scf_read_frame d :
  returns (fun r => sameExcept scfFunctionEventInvokeConfigRefreshed d (fst r))
    (resourceTencentCloudScfFunctionEventInvokeConfigRead pkg d meta).
Proof.
  unfold resourceTencentCloudScfFunctionEventInvokeConfigRead.
  framed scfFunctionEventInvokeConfigRefreshed.
Qed.

Lemma tdmq_read_frame d :
  returns (fun r => sameExcept tdmqNamespaceRoleAttachmentRefreshed d (fst r))
    (resourceTencentCloudTdmqNamespaceRoleAttachmentRead pkg d meta).
Proof.
  unfold resourceTencentCloudTdmqNamespaceRoleAttachmentRead.
  destruct (GoStrings.Split (Id d) FILED_SP) as [|a [|b [|? ?]]];
    framed tdmqNamespaceRoleAttachmentRefreshed.
  exists (sameExcept tdmqNamespaceRoleAttachmentRefreshed d),
    (fun d0 _ => sameExcept tdmqNamespaceRoleAttachmentRefreshed d d0).
  split; [apply sameExcept_refl|].
  split; [|split; [intros s0 e H; exact H|]];
    framed tdmqNamespaceRoleAttachmentRefreshed.
Qed.

Lemma rabbitmq_read_frame d :
  returns (fun r => sameExcept tdmqRabbitmqUserRefreshed d (fst r))
    (resourceTencentCloudTdmqRabbitmqUserRead pkg d meta).
Proof.
  unfold resourceTencentCloudTdmqRabbitmqUserRead. framed tdmqRabbitmqUserRefreshed.
Qed.

Lemma emr_read_frame d :
  returns (fun r => sameExcept emrClusterRefreshed d (fst r) /\ Id (fst r) = Id d)
    (resourceTencentCloudEmrClusterRead pkg d meta).
Proof.
  unfold resourceTencentCloudEmrClusterRead. cbn [orReturn bind retry returns].
  exists (fun _ => True), (fun _ _ => True). split; [exact I|]. split; [|split; [auto|]].
  - intros [] _. cbn [bind service_call returns]. intros [clusters err]. cbn [snd].
    destruct (hasCode err _); [exact I|]. destruct err; exact I.
  - intros [] [e|] _; cbn [snd bind service_call returns].
    + split; [apply sameExcept_refl|reflexivity].
    + intros [e|tags]; cbn [returns fst]; (split; [unfold emrClusterRefreshed; frame|reflexivity]).
Qed.

(** Property X11. What the reads write. In every run, the read of a
    resource leaves the prior state as it was and writes, besides the
    ID, only the attributes listed for it; the read of the EMR cluster
    writes only [tags] and never the ID. So no read refreshes
    [project_id] of the wedata rule template, [cluster_id] of the tdmq
    attachment or [max_connections] and [max_channels] of the rabbitmq
    user. *)
Theorem reads_write_only_what_they_refresh :
  (forall r keys read,
     In (r, keys) (refreshedBy pkg) -> Read r = Some read ->
     forall C d w d' e w' tr,
       run C None (read d meta) w = (Some (d', e), w', tr) ->
       sameExcept keys d d')
  /\ (forall C d w d' e w' tr,
        run C None (resourceTencentCloudEmrClusterRead pkg d meta) w = (Some (d', e), w', tr) ->
        Id d' = Id d)
  /\ neverRefreshed (resourceTencentCloudWedataRuleTemplate pkg) wedataRuleTemplateRefreshed
     = ["project_id"]
  /\ neverRefreshed (resourceTencentCloudTdmqNamespaceRoleAttachment pkg)
       tdmqNamespaceRoleAttachmentRefreshed
     = ["cluster_id"]
  /\ neverRefreshed (resourceTencentCloudTdmqRabbitmqUser pkg) tdmqRabbitmqUserRefreshed
     = ["max_connections"; "max_channels"].
Proof.
  split; [|split; [|repeat split]].
  - intros r keys read Hin Hread C d w d' e w' tr Hrun.
    assert (H : returns (fun x => sameExcept keys d (fst x)) (read d meta)).
    { cbn in Hin.
      repeat (destruct Hin as [Hin|Hin];
              [injection Hin as <- <-; cbn in Hread; injection Hread as <-|]);
        [..|destruct Hin].
      - apply nat_read_frame.
      - apply monitor_read_frame.
      - apply wedata_read_frame.
      - apply scf_read_frame.
      - apply tdmq_read_frame.
      - apply rabbitmq_read_frame.
      - eapply returns_impl; [|apply emr_read_frame]. intros a [Ha _]. exact Ha. }
    exact (returns_run C _ _ H _ _ _ _ _ Hrun).
  - intros C d w d' e w' tr Hrun.
    exact (proj2 (returns_run C _ _ (emr_read_frame d) _ _ _ _ _ Hrun)).
Qed.

End Frame.

(* ================================================================== *)
(** * Reads of a resource that is gone                                *)
(* ================================================================== *)

Section Dropping.
Variables (pkg : Package) (meta : Meta).

Ltac keeps :=
  first [ left; reflexivity | right; split; reflexivity ].

Ltac dropping d :=
  repeat first
    [ exact I
    | match goal with
      | |- returns _ (match ?x with _ => _ end) => destruct x
      | |- returns _ (if ?b then _ else _) => destruct b
      | |- match ?x with _ => _ end => destruct x
      | |- forall _, _ => intro
      | |- keepsOrDrops _ _ => unfold keepsOrDrops; cbn [fst snd]; solve [keeps]
      end
    | progress cbn [returns bind retry sdk_call service_call orReturn fst snd] ].

Lemma nat_read_drops d :
  returns (keepsOrDrops d) (resourceTencentCloudNatGatewayRead pkg d meta).
Proof.
  unfold resourceTencentCloudNatGatewayRead. cbn [bind retry returns].
  exists (fun _ => True), (fun _ _ => True).
  split; [exact I|]. split; [|split; [auto|]]; dropping d.
Qed.

Lemma wedata_read_drops d :
  returns (keepsOrDrops d) (resourceTencentCloudWedataRuleTemplateRead pkg d meta).
Proof.
  unfold resourceTencentCloudWedataRuleTemplateRead. dropping d.
  unfold keepsOrDrops. left. cbn [fst].
  destruct (rt_Type r), (rt_Name r), (rt_QualityDim r), (rt_SourceObjectType r),
    (rt_Description r), (rt_SourceEngineTypes r), (rt_MultiSourceFlag r),
    (rt_SqlExpression r), (rt_WhereFlag r); reflexivity.
Qed.

Lemma scf_read_drops d :
  returns (keepsOrDrops d) (resourceTencentCloudScfFunctionEventInvokeConfigRead pkg d meta).
Proof. unfold resourceTencentCloudScfFunctionEventInvokeConfigRead. dropping d. Qed.

Lemma tdmq_read_drops d :
  returns (keepsOrDrops d) (resourceTencentCloudTdmqNamespaceRoleAttachmentRead pkg d meta).
Proof.
  unfold resourceTencentCloudTdmqNamespaceRoleAttachmentRead.
  destruct (GoStrings.Split (Id d) FILED_SP) as [|a [|b [|? ?]]]; dropping d.
  exists (fun d0 => d0 = d),
    (fun d0 oe => match oe with
                  | Some _ => d0 = d
                  | None => Id d0 = Id d \/ d0 = SetId EmptyString d
                  end).
  split; [reflexivity|]. split; [|split; [auto|]].
  - intros d0 ->. cbn [bind service_call returns]. intros [e|[info|]]; cbn [returns fst snd].
    + destruct (retryError pkg e []); reflexivity.
    + left. reflexivity.
    + right. reflexivity.
  - intros d0 [e|] H; cbn [returns]; unfold keepsOrDrops; cbn [fst snd].
    + left. congruence.
    + destruct H as [H| ->]; [left; exact H|right; split; reflexivity].
Qed.

Lemma rabbitmq_read_drops d :
  returns (keepsOrDrops d) (resourceTencentCloudTdmqRabbitmqUserRead pkg d meta).
Proof.
  unfold resourceTencentCloudTdmqRabbitmqUserRead. dropping d.
  unfold keepsOrDrops. left. cbn [fst].
  destruct (ru_InstanceId r), (ru_User r), (ru_Password r), (ru_Description r),
    (ru_Tags r); reflexivity.
Qed.

Lemma monitor_read_drops d :
  returns (fun r => Id (fst r) = Id d
                    \/ (fst r = SetId EmptyString d
                        /\ exists agentId, snd r = Some (doesNotExist agentId)))
    (resourceTencentCloudMonitorTmpCvmAgentRead pkg d meta).
Proof.
  unfold resourceTencentCloudMonitorTmpCvmAgentRead.
  destruct (GoStrings.Split (Id d) FILED_SP) as [|a [|b [|? ?]]];
    cbn [bind service_call returns fst snd]; try (left; reflexivity).
  intros [e|[agent|]]; cbn [returns fst snd].
  - left. reflexivity.
  - left. destruct (pa_InstanceId agent), (pa_Name agent), (pa_AgentId agent); reflexivity.
  - right. split; [reflexivity|]. exists b. reflexivity.
Qed.

(** Property X12. A read changes the ID only to clear it. The reads of
    the NAT gateway, the wedata rule template, the scf invoke
    configuration, the tdmq attachment and the rabbitmq user either keep
    the ID or clear it, and when they clear it they change nothing else
    and return nil. *)
Theorem reads_clear_the_id_of_a_missing_resource read C d w d' e w' tr :
  In read (droppingReads pkg) ->
  run C None (read d meta) w = (Some (d', e), w', tr) ->
  Id d' = Id d \/ (d' = SetId EmptyString d /\ e = None).
Proof.
  intros Hin Hrun.
  assert (H : returns (keepsOrDrops d) (read d meta)).
  { cbn in Hin. repeat (destruct Hin as [<-|Hin]); [..|destruct Hin].
    - apply nat_read_drops.
    - apply wedata_read_drops.
    - apply scf_read_drops.
    - apply tdmq_read_drops.
    - apply rabbitmq_read_drops. }
  exact (returns_run C _ _ H _ _ _ _ _ Hrun).
Qed.

(** Property X13. A monitor agent the cloud does not know is an error.
    The read of the monitor agent either keeps the ID or clears it, and
    when it clears it it returns the error "resource `tmpCvmAgent`
    <agent> does not exist". So the create of the monitor agent, which
    ends in that read, returns that error and an empty ID when the
    describe call does not find the agent it has just created. *)
Theorem monitor_read_reports_a_missing_agent :
  (forall C d w d' e w' tr,
     run C None (resourceTencentCloudMonitorTmpCvmAgentRead pkg d meta) w
     = (Some (d', e), w', tr) ->
     Id d' = Id d
     \/ (d' = SetId EmptyString d /\ exists agentId, e = Some (doesNotExist agentId)))
  /\ (forall C d w agentId w1 w2,
        let instanceId := asString (GetOk d "instance_id") in
        (forall i n, sdk C _ (CreatePrometheusAgent i n) w = (inr agentId, w1)) ->
        GoStrings.Contains instanceId FILED_SP = false ->
        GoStrings.Contains agentId FILED_SP = false ->
        service C _ (MonitorService_DescribeMonitorTmpCvmAgent instanceId agentId) w1
        = (inr None, w2) ->
        exists tr,
          run C None (resourceTencentCloudMonitorTmpCvmAgentCreate pkg d meta) w
          = (Some (SetId EmptyString d, Some (doesNotExist agentId)), w2, tr)).
Proof.
  split.
  - intros C d w d' e w' tr Hrun.
    exact (returns_run C _ _ (monitor_read_drops d) _ _ _ _ _ Hrun).
  - intros C d w agentId w1 w2 instanceId Hs Ha Hb Hd.
    destruct (monitor_create_sets_id pkg meta C d w agentId w1 Hs) as [ev ->].
    fold instanceId.
    unfold resourceTencentCloudMonitorTmpCvmAgentRead. cbn [Id SetId rd_id].
    rewrite (proj1 (Split_join instanceId agentId Ha Hb)).
    cbn [bind service_call run]. rewrite Hd. cbn [run]. eexists. reflexivity.
Qed.

End Dropping.

(* ================================================================== *)
(** * The scf function event invoke configuration                     *)
(* ================================================================== *)

Section Scf.
Variables (pkg : Package) (meta : Meta).

(** Property X14. The read and the update of the scf invoke
    configuration are a round trip. When the describe call answers a
    configuration whose fields are all set, the read stores it, with the
    function name and the namespace of the ID, and the update of the
    data the read left sends back exactly that configuration for that
    function and namespace. *)
Theorem scf_read_then_update_round_trip C d w w1 functionName namespace config :
  GoStrings.Split (Id d) FILED_SP = [functionName; namespace] ->
  service C _ (ScfService_DescribeScfFunctionEventInvokeConfigById namespace functionName) w
  = (inr (Some config), w1) ->
  fullySet config ->
  exists d' ev,
    run C None (resourceTencentCloudScfFunctionEventInvokeConfigRead pkg d meta) w
    = (Some (d', None), w1, [ev])
    /\ Id d' = Id d
    /\ Get d' "function_name" = Some (VStr functionName)
    /\ Get d' "namespace" = Some (VStr namespace)
    /\ exists f k,
         resourceTencentCloudScfFunctionEventInvokeConfigUpdate pkg d' meta
         = Retry writeRetryTimeout f tt k
         /\ forall u, exists k0,
              f u = SdkCall
                      (UpdateFunctionEventInvokeConfig
                         {| ufe_Namespace := namespace;
                            ufe_FunctionName := functionName;
                            ufe_AsyncTriggerConfig := Some config |}) k0.
Proof.
  intros Hid Hs ((l & Hl & Hne & Hnum) & Httl).
  destruct config as [rc ttl]. cbn [atc_RetryConfig atc_MsgTTL] in *. subst rc.
  destruct ttl as [ttl|]; [|discriminate Httl].
  do 2 eexists. split.
  { unfold resourceTencentCloudScfFunctionEventInvokeConfigRead. rewrite Hid.
    cbn [bind service_call run]. rewrite Hs. cbn [run atc_RetryConfig atc_MsgTTL app].
    reflexivity. }
  split; [reflexivity|].
  split; [unfold Get; cbn [Set_ rd_attrs];
          rewrite lookup_insert_ne by discriminate; apply lookup_insert_eq|].
  split; [unfold Get; cbn [Set_ rd_attrs]; apply lookup_insert_eq|].
  unfold resourceTencentCloudScfFunctionEventInvokeConfigUpdate.
  cbn [Id Set_ SetId rd_id]. change (rd_id d) with (Id d). rewrite Hid.
  do 2 eexists. split; [reflexivity|]. intros u. eexists.
  cbn [bind sdk_call]. f_equal. f_equal. f_equal.
  unfold GetOk. cbn [Set_ rd_attrs].
  rewrite lookup_insert_ne by discriminate.
  rewrite lookup_insert_ne by discriminate.
  rewrite lookup_insert_eq. cbn [is_zero asList assoc String.eqb Ascii.eqb Bool.eqb].
  f_equal. f_equal.
  rewrite List.map_map.
  assert (Hmap : map (fun rc : RetryConfig =>
                   match VMap match RetryNum rc with
                              | Some n => [("retry_num", VInt n)]
                              | None => []
                              end with
                   | VMap retryConfigMap =>
                       {| RetryNum := (fun v => asInt (Some v))
                                        <$> assoc "retry_num" retryConfigMap |}
                   | _ => {| RetryNum := None |}
                   end) l = l).
  { clear Hne Hs. induction Hnum as [|rc l Hrc Hnum IH]; [reflexivity|].
    cbn [map]. rewrite IH. f_equal.
    destruct rc as [[n|]]; [reflexivity|discriminate Hrc]. }
  rewrite Hmap. destruct l; [contradiction|reflexivity].
Qed.

End Scf.

(* ================================================================== *)
(** * The operations of the EMR cluster                               *)
(* ================================================================== *)

Section EmrOperations.
Variables (pkg : Package) (meta : Meta).

(** Property X15. What the update of the EMR cluster needs. Without
    [time_unit], [time_span] or [pay_mode] it returns the error
    "Time_unit, time_span or pay_mode must be set." and makes no call.
    With the three set and no [resource_spec], an argument the schema
    leaves optional, it never returns nil: it indexes the empty list and
    panics, after it has modified the tags when they changed (an error
    of that call is returned instead). *)
Theorem emr_update_needs_resource_spec d :
  (GetOkExists d "time_unit" = None \/ GetOkExists d "time_span" = None
   \/ GetOkExists d "pay_mode" = None ->
   resourceTencentCloudEmrClusterUpdate pkg d meta
   = Ret (d, Some (Errorf "Time_unit, time_span or pay_mode must be set.")))
  /\ (isSome (GetOkExists d "time_unit") && isSome (GetOkExists d "time_span")
      && isSome (GetOkExists d "pay_mode") = true ->
      asList (Get d "resource_spec") = [] ->
      forall C w,
        (HasChange d "tags" = false ->
         run C None (resourceTencentCloudEmrClusterUpdate pkg d meta) w = (None, w, []))
        /\ (HasChange d "tags" = true ->
            exists request deleteKeys,
              let call :=
                TagService_ModifyTags
                  (BuildTagResourceName "emr" "emr-instance" (Region meta) (Id d))
                  request deleteKeys in
              run C None (resourceTencentCloudEmrClusterUpdate pkg d meta) w
              = let (answer, w1) := service C _ call w in
                (match answer with
                 | Some e => Some (d, Some e)
                 | None => None
                 end, w1, [EvService None call answer]))).
Proof.
  unfold resourceTencentCloudEmrClusterUpdate. split.
  - intros H.
    destruct (GetOkExists d "time_unit"), (GetOkExists d "time_span"),
      (GetOkExists d "pay_mode"); try reflexivity.
    destruct H as [H|[H|H]]; discriminate H.
  - intros H Hspec C w.
    destruct (GetOkExists d "time_unit") as [tu|]; [|discriminate H].
    destruct (GetOkExists d "time_span") as [ts|]; [|discriminate H].
    destruct (GetOkExists d "pay_mode") as [pm|]; [|discriminate H].
    rewrite Hspec. split.
    + intros Ht. rewrite Ht. reflexivity.
    + intros Ht. rewrite Ht.
      destruct (GetChange d "tags") as [o n].
      destruct (diffTags (tags_of o) (tags_of n)) as [rt dt].
      exists rt, dt. cbn zeta. unfold orReturn. cbn [bind service_call run].
      destruct (service C _ _ w) as [[e|] w1]; reflexivity.
Qed.

Lemma emr_update_calls d :
  allCalls noSdk (emrUpdateService pkg d meta)
    (resourceTencentCloudEmrClusterUpdate pkg d meta).
Proof.
  unfold resourceTencentCloudEmrClusterUpdate.
  destruct (GetOkExists d "time_unit") as [tu|]; [|exact I].
  destruct (GetOkExists d "time_span") as [ts|]; [|exact I].
  destruct (GetOkExists d "pay_mode") as [pm|]; [|exact I].
  apply allCalls_orReturn.
  { destruct (HasChange d "tags") eqn:Ht; [|exact I].
    destruct (GetChange d "tags") as [o n].
    destruct (diffTags (tags_of o) (tags_of n)) as [rt dt].
    cbn. auto. }
  destruct (asList (Get d "resource_spec")) as [|tmp rest]; [exact I|].
  destruct (HasChange d "extend_fs_field") eqn:Hx; [exact I|].
  fold (countChanged d).
  destruct (countChanged d) eqn:Hc; [|exact I]. cbn [negb].
  apply allCalls_orReturn.
  { cbn. split; [|intros ?; exact I].
    repeat split;
      first [ exact Hc | exact Hx
            | match goal with
              | |- isSome (if ?b then _ else _) = _ => destruct b; reflexivity
              end ]. }
  apply allCalls_orReturn; [|exact I].
  cbn. split; [|intros ?; exact I]. intros _. split; [repeat split; assumption|].
  intros [clusters err]. destruct (hasCode err _); [exact I|].
  destruct clusters as [|c l]; [destruct err; exact I|].
  destruct (negb _); [exact I|]. destruct err; exact I.
Qed.

(** Property X16. The calls of the update of the EMR cluster. The update
    calls only the service layer: it modifies the tags when they
    changed, and it calls [UpdateInstance], with the counts that
    changed, and polls the cluster only when a node count changed and
    [extend_fs_field] did not. A change of [extend_fs_field] is refused
    with the error "extend_fs_field not support update." only after the
    tags were modified: with changed tags the update returns that error
    having called [ModifyTags]. *)
Theorem emr_update_calls_stand_for_changes d :
  (forall C w r w' tr,
     run C None (resourceTencentCloudEmrClusterUpdate pkg d meta) w = (r, w', tr) ->
     Forall (eventCall noSdk (emrUpdateService pkg d meta)) tr)
  /\ (isSome (GetOkExists d "time_unit") && isSome (GetOkExists d "time_span")
      && isSome (GetOkExists d "pay_mode") = true ->
      asList (Get d "resource_spec") <> [] ->
      HasChange d "extend_fs_field" = true ->
      HasChange d "tags" = true ->
      forall C w, exists request deleteKeys,
        let call :=
          TagService_ModifyTags
            (BuildTagResourceName "emr" "emr-instance" (Region meta) (Id d))
            request deleteKeys in
        run C None (resourceTencentCloudEmrClusterUpdate pkg d meta) w
        = let (answer, w1) := service C _ call w in
          (Some (d, Some (match answer with
                          | Some e => e
                          | None => Errorf "extend_fs_field not support update."
                          end)), w1, [EvService None call answer])).
Proof.
  split.
  - intros C w r w' tr Hrun. eapply allCalls_run; [apply emr_update_calls|exact Hrun].
  - unfold resourceTencentCloudEmrClusterUpdate. intros H Hspec Hx Ht C w.
    destruct (GetOkExists d "time_unit") as [tu|]; [|discriminate H].
    destruct (GetOkExists d "time_span") as [ts|]; [|discriminate H].
    destruct (GetOkExists d "pay_mode") as [pm|]; [|discriminate H].
    destruct (asList (Get d "resource_spec")) as [|tmp rest]; [contradiction|].
    rewrite Ht, Hx.
    destruct (GetChange d "tags") as [o n].
    destruct (diffTags (tags_of o) (tags_of n)) as [rt dt].
    exists rt, dt. cbn zeta. unfold orReturn. cbn [bind service_call run].
    destruct (service C _ _ w) as [[e|] w1]; reflexivity.
Qed.

End EmrOperations.

(* ================================================================== *)
(** * The delete of the EMR cluster                                   *)
(* ================================================================== *)

Section EmrDelete.
Variables (C : Cloud) (pkg : Package) (meta : Meta).

Lemma run_service_call ctx {R} (c : Service R) w :
  run C ctx (service_call c) w
  = let (r, w1) := service C _ c w in (Some r, w1, [EvService ctx c r]).
Proof. cbn. destruct (service C R c w). reflexivity. Qed.

(** The events of a retry loop around the poll of the EMR cluster are
    describe calls. *)
Lemma emrPoll_no_offline t doneCodes expected id ds n last w r w' tr :
  retry_loop C n (fun s => run C (Some t) (emrPoll doneCodes expected id ds s)) last tt w
  = (r, w', tr) ->
  Forall (fun ev => offlinedDatabase ev = None) tr.
Proof.
  apply retry_loop_Forall. intros s w0 r0 w0' tr0. rewrite run_emrPoll.
  destruct (service C _ _ w0) as [x w1]. intros [= <- <- <-].
  constructor; [reflexivity|constructor].
Qed.

(** Property X17. The delete of the EMR cluster. When the first describe
    call lists no cluster the delete returns "Not find clusters.",
    whatever error the call returned, and when it lists a cluster and
    returns an error the delete returns that error; in both cases
    nothing is deleted. The meta database is taken offline last: an
    [OfflineIsolatedInstances] call of a run names the database, not the
    empty string, of the first cluster the first describe call listed,
    and it follows the [DeleteInstance] call that returned nil and the
    poll that ended without error. *)
Theorem emr_delete_offlines_the_database_last d w :
  let describe :=
    EMRService_DescribeInstancesById (Id d) (DisplayStrategyIsclusterList pkg) in
  (forall answer w1,
      service C _ describe w = (answer, w1) ->
      fst answer = [] \/ snd answer <> None ->
      run C None (resourceTencentCloudEmrClusterDelete pkg d meta) w
      = (Some (d, Some (match fst answer, snd answer with
                        | _ :: _, Some e => e
                        | _, _ => Errorf "Not find clusters."
                        end)), w1, [EvService None describe answer]))
  /\ (forall r w' tr ev db,
         run C None (resourceTencentCloudEmrClusterDelete pkg d meta) w = (r, w', tr) ->
         In ev tr ->
         offlinedDatabase ev = Some db ->
         db <> EmptyString
         /\ (exists c l, fst (fst (service C _ describe w)) = c :: l
                         /\ ci_MetaDb c = Some db)
         /\ exists tr1 tr2,
              tr = tr1 ++ EvRetryEnd (TimesTimeout 10 readRetryTimeout) None :: tr2
              /\ In ev tr2
              /\ In (EvService None (EMRService_DeleteInstance d) None) tr1).
Proof.
  intros describe. unfold resourceTencentCloudEmrClusterDelete. fold describe.
  cbn [bind service_call run].
  destruct (service C _ describe w) as [[clusters err] w1] eqn:Hs. split.
  - intros answer w0 [= <- <-] H. cbn [fst snd] in *.
    destruct clusters as [|c l]; [reflexivity|].
    destruct err as [e|]; [reflexivity|].
    destruct H as [H|H]; [discriminate H|contradiction].
  - intros r w' tr ev db Hrun Hin Hev. cbn [fst].
    destruct clusters as [|c l].
    { cbn [run] in Hrun. injection Hrun as <- <- <-.
      in_cases Hin; discriminate Hev. }
    destruct err as [e|].
    { cbn [run] in Hrun. injection Hrun as <- <- <-.
      in_cases Hin; discriminate Hev. }
    change (bind (Ret (c :: l, @None error)) ?g) with (g (c :: l, @None error)) in Hrun.
    cbv beta iota in Hrun.
    rewrite run_orReturn, run_service_call in Hrun.
    destruct (service C _ (EMRService_DeleteInstance d) w1) as [[e|] w2].
    { injection Hrun as <- <- <-. in_cases Hin; discriminate Hev. }
    rewrite run_orReturn, run_retry_block in Hrun.
    unfold emrDeletePoll in Hrun.
    destruct (retry_loop C _ _ timeoutError tt w2) as [[[[u oe]|] w3] tr3] eqn:El;
      pose proof (emrPoll_no_offline _ _ _ _ _ _ _ _ _ _ _ El) as Hno;
      rewrite List.Forall_forall in Hno.
    2:{ injection Hrun as <- <- <-.
        in_cases Hin; try discriminate Hev.
        rewrite (Hno _ Hin) in Hev. discriminate Hev. }
    destruct oe as [e|].
    { injection Hrun as <- <- <-.
      in_cases Hin; try discriminate Hev.
      rewrite (Hno _ Hin) in Hev. discriminate Hev. }
    (* the cluster is gone: the meta database *)
    rewrite run_orReturn in Hrun.
    destruct (ci_MetaDb c) as [db0|] eqn:Hdb.
    2:{ cbn [run] in Hrun. injection Hrun as <- <- <-.
        in_cases Hin; try discriminate Hev.
        rewrite (Hno _ Hin) in Hev. discriminate Hev. }
    destruct (String.eqb_spec db0 EmptyString) as [E|E]; cbn [negb] in Hrun.
    { cbn [run] in Hrun. injection Hrun as <- <- <-.
      in_cases Hin; try discriminate Hev.
      rewrite (Hno _ Hin) in Hev. discriminate Hev. }
    rewrite run_retry_block in Hrun.
    destruct (retry_loop C _ _ timeoutError tt w3) as [[r4 w4] tr4] eqn:El4.
    assert (H4 : Forall (fun x => forall db', offlinedDatabase x = Some db' -> db' = db0) tr4).
    { eapply retry_loop_Forall; [|exact El4].
      intros s w0 r0 w0' tr0. unfold retryClosure.
      cbn [bind service_call run].
      destruct (service C _ (MysqlService_OfflineIsolatedInstances db0) w0) as [[e|] w5];
        cbn [run]; intros [= <- <- <-];
        (constructor; [|constructor]); intros db' [= <-]; reflexivity. }
    rewrite List.Forall_forall in H4.
    assert (Htr : exists tr5,
               tr = (EvService None describe (c :: l, None)
                     :: EvService None (EMRService_DeleteInstance d) None :: tr3)
                    ++ EvRetryEnd (TimesTimeout 10 readRetryTimeout) None :: tr5
               /\ forall x, In x tr5 -> offlinedDatabase x <> None -> In x tr4).
    { destruct r4 as [[u4 [e|]]|]; cbn [run] in Hrun; injection Hrun as <- <- <-;
        eexists; (split; [cbn [app]; rewrite <- ?app_assoc; cbn [app]; reflexivity|]);
        intros x Hx Hne; in_cases Hx; try assumption;
        exfalso; apply Hne; reflexivity. }
    destruct Htr as (tr5 & -> & H5).
    assert (Hin5 : In ev tr5).
    { in_cases Hin; try discriminate Hev; try assumption.
      rewrite (Hno _ Hin) in Hev. discriminate Hev. }
    assert (db = db0) as ->.
    { apply (H4 ev); [|exact Hev]. apply H5; [exact Hin5|]. rewrite Hev. discriminate. }
    split; [exact E|]. split; [exists c, l; auto|].
    do 2 eexists. split; [reflexivity|]. split; [exact Hin5|]. right. left. reflexivity.
Qed.

End EmrDelete.

(* ================================================================== *)
(** * The ID a create leaves                                          *)
(* ================================================================== *)

Section CreateId.
Variables (pkg : Package) (meta : Meta).




End CreateId.

(* ================================================================== *)
(** * Components that hold the separator                              *)
(* ================================================================== *)

Section Separators.
Variables (pkg : Package) (meta : Meta).
Import GoStrings.

Lemma split_from_nonempty sep skip s : split_from sep skip s <> [].
Proof.
  revert skip. induction s as [|c s IH]; intros skip; cbn [split_from]; [discriminate|].
  destruct skip; [|apply IH].
  destruct (String.prefix sep (String c s)); [discriminate|].
  specialize (IH 0). destruct (split_from sep 0 s); [contradiction|discriminate].
Qed.

Lemma separators_cons c s :
  separators (String c s) = (if ascii_dec "#" c then 1 else 0) + separators s.
Proof.
  cbn [separators]. unfold FILED_SP. rewrite prefix_single.
  destruct (ascii_dec "#" c); reflexivity.
Qed.

(** An ID splits into one part more than it holds separators. *)
Lemma Split_length id : length (Split id FILED_SP) = S (separators id).
Proof.
  unfold Split, FILED_SP. induction id as [|c s IH]; [reflexivity|].
  rewrite separators_cons. cbn [split_from]. rewrite prefix_single.
  destruct (ascii_dec "#" c); cbn [length String.length Nat.sub Nat.add].
  - rewrite IH. reflexivity.
  - pose proof (split_from_nonempty "#" 0 s) as Hne.
    destruct (split_from "#" 0 s); [contradiction|]. exact IH.
Qed.

Lemma separators_app a b :
  separators (a +:+ FILED_SP +:+ b) = separators a + 1 + separators b.
Proof.
  induction a as [|c a IH].
  - change (EmptyString +:+ FILED_SP +:+ b) with (String "#" b).
    rewrite separators_cons. destruct (ascii_dec "#" "#"); [reflexivity|contradiction].
  - change (String c a +:+ FILED_SP +:+ b) with (String c (a +:+ FILED_SP +:+ b)).
    rewrite !separators_cons, IH. lia.
Qed.

Lemma broken_separators id : broken id <-> separators id <> 1.
Proof. unfold broken. rewrite Split_length. lia. Qed.

Lemma broken_join a b :
  0 < separators a + separators b -> broken (a +:+ FILED_SP +:+ b).
Proof. intros H. apply broken_separators. rewrite separators_app. lia. Qed.

(** Property X19. An ID is read back when it holds exactly one
    separator, so a component that holds FILED_SP breaks the ID a create
    sets. The create of the scf invoke configuration then returns "id is
    broken" without any call; the creates of the monitor agent, the tdmq
    attachment and the rabbitmq user return the error of their read
    after the call that created the resource, with the ID they set. *)
Theorem separator_in_a_component_breaks_the_id :
  (forall id, length (Split id FILED_SP) = S (separators id))
  /\ (forall a b, separators (a +:+ FILED_SP +:+ b) = separators a + 1 + separators b)
  /\ (forall d,
        let id := asString (Get d "function_name") +:+ FILED_SP
                  +:+ asString (Get d "namespace") in
        separators id <> 1 ->
        resourceTencentCloudScfFunctionEventInvokeConfigCreate pkg d meta
        = Ret (SetId id d, Some (Errorf ("id is broken," +:+ id))))
  /\ (forall C d w agentId w1,
        let id := asString (GetOk d "instance_id") +:+ FILED_SP +:+ agentId in
        (forall i n, sdk C _ (CreatePrometheusAgent i n) w = (inr agentId, w1)) ->
        separators id <> 1 ->
        exists ev,
          run C None (resourceTencentCloudMonitorTmpCvmAgentCreate pkg d meta) w
          = (Some (SetId id d, Some (Errorf ("id is broken, id is " +:+ id))), w1,
             [ev; EvRetryEnd writeRetryTimeout None]))
  /\ (forall C d w user w1,
        let id := asString (GetOk d "instance_id") +:+ FILED_SP +:+ user in
        (forall request, sdk C _ (CreateRabbitMQUser request) w = (inr user, w1)) ->
        separators id <> 1 ->
        exists ev,
          run C None (resourceTencentCloudTdmqRabbitmqUserCreate pkg d meta) w
          = (Some (SetId id d, Some (brokenIdSplit (Split id FILED_SP))), w1,
             [ev; EvRetryEnd writeRetryTimeout None]))
  /\ (forall C d w e r c w1,
        let id := e +:+ FILED_SP +:+ r in
        rd_attrs d !! "environ_id" = Some (VStr e) ->
        rd_attrs d !! "role_name" = Some (VStr r) ->
        rd_attrs d !! "cluster_id" = Some (VStr c) ->
        (forall p, service C _ (TdmqService_CreateTdmqNamespaceRoleAttachment e r p c) w
                   = (None, w1)) ->
        separators id <> 1 ->
        exists ev,
          run C None (resourceTencentCloudTdmqNamespaceRoleAttachmentCreate pkg d meta) w
          = (Some (SetId id d,
                   Some (Errorf ("environment role id is borken, id is " +:+ id))), w1,
             [ev])).
Proof.
  split; [exact Split_length|]. split; [exact separators_app|].
  split; [|split; [|split]].
  - intros d id H. apply broken_separators in H.
    unfold resourceTencentCloudScfFunctionEventInvokeConfigCreate. fold id.
    rewrite (scf_update_broken pkg meta (SetId id d) H). reflexivity.
  - intros C d w agentId w1 id Hs H. apply broken_separators in H.
    destruct (monitor_create_sets_id pkg meta C d w agentId w1 Hs) as [ev ->].
    change (Join [asString (GetOk d "instance_id"); agentId] FILED_SP) with id.
    rewrite (monitor_read_broken pkg meta (SetId id d) H). cbn [run]. eexists. reflexivity.
  - intros C d w user w1 id Hs H. apply broken_separators in H.
    destruct (rabbitmq_create_sets_id pkg meta C d w user w1 Hs) as [ev ->].
    change (Join [asString (GetOk d "instance_id"); user] FILED_SP) with id.
    destruct (rabbitmq_broken pkg meta (SetId id d) H) as [-> _].
    cbn [run]. eexists. reflexivity.
  - intros C d w e r c w1 id He Hr Hc Hs H. apply broken_separators in H.
    destruct (tdmq_create_sets_id pkg meta C d w e r c w1 He Hr Hc Hs) as [ev ->].
    fold id. rewrite (tdmq_read_broken pkg meta (SetId id d) H). cbn [run].
    eexists. reflexivity.
Qed.

End Separators.

(* ================================================================== *)
(** * The further theorems on examples                                 *)
(* ================================================================== *)

Lemma unassign_plan_exact_witness :
  let plan := eipPlan Demo.package Cases.natEipSwap in
  removedEips Cases.natEipSwap = ["2.2.2.2"]
  /\ unassigned plan ++ withheld (backUpOldIp plan) = removedEips Cases.natEipSwap.
Proof.
  split; [vm_compute; reflexivity|].
  apply (unassign_plan_exact Demo.package Cases.natEipSwap).
  vm_compute. intros [H|[H|[]]]; discriminate H.
Defined.

Lemma assign_plan_characterised_witness :
  let plan := eipPlan Demo.package Demo.natEipChange in
  addedEips Demo.natEipChange = ["2.2.2.1"; "2.2.2.2"; "2.2.2.3"; "2.2.2.4"; "2.2.2.5"]
  /\ assigned plan = take 3 (addedEips Demo.natEipChange)
  /\ backUpNewIp plan = List.last (addedEips Demo.natEipChange) EmptyString.
Proof.
  split; [vm_compute; reflexivity|].
  destruct (proj2 (assign_plan_characterised Demo.package Demo.natEipChange))
    as (H1 & H2 & _); [vm_compute; split; [reflexivity|discriminate]|].
  split; [exact H1|exact H2].
Defined.

Lemma nat_update_calls_witness :
  exists r w' tr,
    run (Demo.cloud None ([], None)) None
      (resourceTencentCloudNatGatewayUpdate Demo.package Cases.natEipSwap Demo.meta)
      Demo.natWorld
    = (r, w', tr)
    /\ length (calls tr) = 3
    /\ Forall (eventCall (natUpdateSdk Cases.natEipSwap)
                 (natUpdateService Cases.natEipSwap Demo.meta)) tr.
Proof.
  do 3 eexists. split; [vm_compute; reflexivity|].
  split; [vm_compute; reflexivity|].
  refine (proj1 (nat_update_calls_stand_for_changes Demo.package Demo.meta
                   (Demo.cloud None ([], None)) Cases.natEipSwap Demo.natWorld _ _ _ _)).
  vm_compute. reflexivity.
Defined.

Lemma nat_update_moves_witness :
  exists r w' tr,
    run (Demo.cloud None ([], None)) None
      (resourceTencentCloudNatGatewayUpdate Demo.package Cases.natEipSwap Demo.meta)
      Demo.natWorld
    = (r, w', tr)
    /\ disassociatedBy tr = [["2.2.2.2"]]
    /\ associatedBy tr = [["3.3.3.3"]]
    /\ forall ev ips ip,
         In ev tr -> In ip ips ->
         (disassociated ev = Some ips ->
          In ip (oldEips Cases.natEipSwap) /\ ~ In ip (newEips Cases.natEipSwap))
         /\ (associated ev = Some ips ->
             In ip (newEips Cases.natEipSwap) /\ ~ In ip (oldEips Cases.natEipSwap)).
Proof.
  do 3 eexists. split; [vm_compute; reflexivity|].
  split; [vm_compute; reflexivity|]. split; [vm_compute; reflexivity|].
  eapply (nat_update_moves_only_changed_eips Demo.package Demo.meta
            (Demo.cloud None ([], None)) Cases.natEipSwap Demo.natWorld).
  vm_compute. reflexivity.
Defined.

Lemma retry_discipline_other_witness :
  exists r w' tr,
    run (Demo.cloud (Some Demo.unauthorized) ([], None)) None
      (resourceTencentCloudTdmqRabbitmqUserCreate Demo.package Cases.rabbitmqData Demo.meta)
      []
    = (r, w', tr)
    /\ returned r = Some Demo.unauthorized
    /\ Forall sdkInFixedRetry tr
    /\ forall tr1 t e tr2,
         tr = tr1 ++ EvRetryEnd t (Some e) :: tr2 ->
         tr2 = [] /\ returned r = Some e.
Proof.
  do 3 eexists. split; [vm_compute; reflexivity|].
  split; [vm_compute; reflexivity|].
  eapply (retry_discipline_of_the_other_resources Demo.package Demo.meta
            (Demo.cloud (Some Demo.unauthorized) ([], None))
            (resourceTencentCloudTdmqRabbitmqUserCreate Demo.package)
            Cases.rabbitmqData []).
  - cbn. do 16 right. left. reflexivity.
  - vm_compute. reflexivity.
Defined.

Lemma tdmq_create_guards_witness :
  let d := Cases.tdmqEmptyEnviron in
  Get d "environ_id" = Some (VStr EmptyString)
  /\ resourceTencentCloudTdmqNamespaceRoleAttachmentCreate Demo.package d Demo.meta
     = orReturn d
         (service_call
            (TdmqService_CreateTdmqNamespaceRoleAttachment
               (asString (Get d "environ_id")) (asString (Get d "role_name"))
               (strings_of (asList (Get d "permissions")))
               (asString (Get d "cluster_id"))))
         (resourceTencentCloudTdmqNamespaceRoleAttachmentRead Demo.package
            (SetId (asString (Get d "environ_id") +:+ FILED_SP
                    +:+ asString (Get d "role_name")) d) Demo.meta).
Proof.
  split; [vm_compute; reflexivity|].
  apply (tdmq_create_guards_never_fire Demo.package Demo.meta Cases.tdmqEmptyEnviron).
  vm_compute. reflexivity.
Defined.

Lemma tdmq_update_permissions_witness :
  let d := Cases.tdmqNarrowed in
  HasChange d "permissions" = true
  /\ strings_of (asList (Get d "permissions")) = ["produce"]
  /\ resourceTencentCloudTdmqNamespaceRoleAttachmentUpdate Demo.package d Demo.meta
     = orReturn d
         (service_call
            (TdmqService_ModifyTdmqNamespaceRoleAttachment "keep-ns" "keep-role"
               (strings_of (asList (Get d "permissions")))
               (asString (Get d "cluster_id"))))
         (resourceTencentCloudTdmqNamespaceRoleAttachmentRead Demo.package d Demo.meta).
Proof.
  split; [vm_compute; reflexivity|]. split; [vm_compute; reflexivity|].
  apply (tdmq_update_sends_new_permissions Demo.package Demo.meta Cases.tdmqNarrowed).
  - vm_compute. reflexivity.
  - vm_compute. reflexivity.
Defined.

Lemma tdmq_delete_retries_witness :
  exists w' tr,
    run (Cases.refusing Demo.unauthorized) None
      (resourceTencentCloudTdmqNamespaceRoleAttachmentDelete Demo.package Demo.compound
         Demo.meta) []
    = (Some (Demo.compound, Some Demo.unauthorized), w', tr)
    /\ length (calls tr) = 3.
Proof.
  destruct (tdmq_delete_retries_every_error Demo.package Demo.meta
              (Cases.refusing Demo.unauthorized) Demo.compound
              "keep-1676351130" "default") as (_ & _ & H).
  - vm_compute. reflexivity.
  - apply (H Demo.unauthorized).
    + intros w. reflexivity.
    + intros [H0|[m H0]]; discriminate H0.
Defined.

Lemma rabbitmq_compound_id_witness :
  (exists k,
     resourceTencentCloudTdmqRabbitmqUserRead Demo.package Cases.rabbitmqDescribed Demo.meta
     = ServiceCall (TdmqService_DescribeTdmqRabbitmqUserById "amqp-kzbe8p3n" "keep-user") k)
  /\ (exists k,
        resourceTencentCloudTdmqRabbitmqUserDelete Demo.package Cases.rabbitmqDescribed
          Demo.meta
        = ServiceCall (TdmqService_DeleteTdmqRabbitmqUserById "amqp-kzbe8p3n" "keep-user") k).
Proof.
  apply (proj1 (proj2 (rabbitmq_user_compound_id Demo.package Demo.meta))
           Cases.rabbitmqDescribed "amqp-kzbe8p3n" "keep-user");
    vm_compute; reflexivity.
Defined.

Lemma rabbitmq_update_witness :
  exists r w' tr,
    run (Demo.cloud None ([], None)) None
      (resourceTencentCloudTdmqRabbitmqUserUpdate Demo.package Cases.rabbitmqDescribed
         Demo.meta) []
    = (r, w', tr)
    /\ length (calls tr) = 2
    /\ Forall (eventCall (rabbitmqUpdateSdk Cases.rabbitmqDescribed "amqp-kzbe8p3n" "keep-user")
                 (rabbitmqUpdateService "amqp-kzbe8p3n" "keep-user")) tr.
Proof.
  do 3 eexists. split; [vm_compute; reflexivity|].
  split; [vm_compute; reflexivity|].
  refine (proj2 (proj2 (rabbitmq_update_sends_what_changed Demo.package Demo.meta
                          Cases.rabbitmqDescribed "amqp-kzbe8p3n" "keep-user" _))
            (Demo.cloud None ([], None)) [] _ _ _ _);
    vm_compute; reflexivity.
Defined.

Lemma reads_write_witness :
  exists d' e w' tr,
    run (Demo.cloud None ([], None)) None
      (resourceTencentCloudTdmqNamespaceRoleAttachmentRead Demo.package Cases.tdmqNarrowed
         Demo.meta) []
    = (Some (d', e), w', tr)
    /\ Get d' "permissions" = Some (VList [VStr "produce"; VStr "consume"])
    /\ sameExcept tdmqNamespaceRoleAttachmentRefreshed Cases.tdmqNarrowed d'.
Proof.
  do 4 eexists. split; [vm_compute; reflexivity|].
  split; [vm_compute; reflexivity|].
  refine (proj1 (reads_write_only_what_they_refresh Demo.package Demo.meta)
            (resourceTencentCloudTdmqNamespaceRoleAttachment Demo.package) _
            (resourceTencentCloudTdmqNamespaceRoleAttachmentRead Demo.package) _ eq_refl
            (Demo.cloud None ([], None)) Cases.tdmqNarrowed [] _ _ _ _ _).
  - cbn. do 4 right. left. reflexivity.
  - vm_compute. reflexivity.
Defined.

Lemma reads_clear_the_id_witness :
  exists d' e w' tr,
    run (Demo.cloud None ([], None)) None
      (resourceTencentCloudTdmqRabbitmqUserRead Demo.package Cases.rabbitmqDescribed
         Demo.meta) []
    = (Some (d', e), w', tr)
    /\ Id d' = EmptyString
    /\ (Id d' = Id Cases.rabbitmqDescribed
        \/ (d' = SetId EmptyString Cases.rabbitmqDescribed /\ e = None)).
Proof.
  do 4 eexists. split; [vm_compute; reflexivity|].
  split; [vm_compute; reflexivity|].
  refine (reads_clear_the_id_of_a_missing_resource Demo.package Demo.meta
            (resourceTencentCloudTdmqRabbitmqUserRead Demo.package)
            (Demo.cloud None ([], None)) Cases.rabbitmqDescribed [] _ _ _ _ _ _).
  - cbn. do 4 right. left. reflexivity.
  - vm_compute. reflexivity.
Defined.

Lemma monitor_missing_agent_witness :
  exists tr,
    run Cases.noAgent None
      (resourceTencentCloudMonitorTmpCvmAgentCreate Demo.package Cases.monitorData Demo.meta)
      []
    = (Some (SetId EmptyString Cases.monitorData, Some (doesNotExist "agent-7kpfmm5y")),
       [], tr).
Proof.
  apply (proj2 (monitor_read_reports_a_missing_agent Demo.package Demo.meta)
           Cases.noAgent Cases.monitorData [] "agent-7kpfmm5y" [] []).
  - intros i n. reflexivity.
  - vm_compute. reflexivity.
  - vm_compute. reflexivity.
  - reflexivity.
Defined.

Lemma scf_round_trip_witness :
  exists d' ev,
    run (Demo.cloud None ([], None)) None
      (resourceTencentCloudScfFunctionEventInvokeConfigRead Demo.package Demo.compound
         Demo.meta) []
    = (Some (d', None), [], [ev])
    /\ Id d' = Id Demo.compound
    /\ Get d' "function_name" = Some (VStr "keep-1676351130")
    /\ Get d' "namespace" = Some (VStr "default")
    /\ exists f k,
         resourceTencentCloudScfFunctionEventInvokeConfigUpdate Demo.package d' Demo.meta
         = Retry writeRetryTimeout f tt k
         /\ forall u, exists k0,
              f u = SdkCall
                      (UpdateFunctionEventInvokeConfig
                         {| ufe_Namespace := "default";
                            ufe_FunctionName := "keep-1676351130";
                            ufe_AsyncTriggerConfig := Some Cases.asyncConfig |}) k0.
Proof.
  apply (scf_read_then_update_round_trip Demo.package Demo.meta
           (Demo.cloud None ([], None)) Demo.compound [] []
           "keep-1676351130" "default" Cases.asyncConfig).
  - vm_compute. reflexivity.
  - reflexivity.
  - split; [|reflexivity].
    exists [ {| RetryNum := Some 2%Z |} ].
    split; [reflexivity|]. split; [discriminate|].
    constructor; [reflexivity|constructor].
Defined.

Lemma emr_update_needs_witness :
  exists request deleteKeys,
    let call :=
      TagService_ModifyTags
        (BuildTagResourceName "emr" "emr-instance" (Region Demo.meta) (Id Cases.emrRetagged))
        request deleteKeys in
    run (Demo.cloud None ([], None)) None
      (resourceTencentCloudEmrClusterUpdate Demo.package Cases.emrRetagged Demo.meta) []
    = (None, [], [EvService None call None]).
Proof.
  destruct (proj2 (emr_update_needs_resource_spec Demo.package Demo.meta Cases.emrRetagged)
              eq_refl eq_refl (Demo.cloud None ([], None)) []) as [_ H].
  destruct (H eq_refl) as (request & deleteKeys & E).
  exists request, deleteKeys. exact E.
Defined.

Lemma emr_update_calls_witness :
  exists r w' tr,
    run (Demo.cloud None Demo.created) None
      (resourceTencentCloudEmrClusterUpdate Demo.package Cases.emrScaled Demo.meta) []
    = (r, w', tr)
    /\ length (calls tr) = 2
    /\ Forall (eventCall noSdk (emrUpdateService Demo.package Cases.emrScaled Demo.meta)) tr.
Proof.
  do 3 eexists. split; [vm_compute; reflexivity|].
  split; [vm_compute; reflexivity|].
  refine (proj1 (emr_update_calls_stand_for_changes Demo.package Demo.meta Cases.emrScaled)
            (Demo.cloud None Demo.created) [] _ _ _ _).
  vm_compute. reflexivity.
Defined.

Lemma emr_delete_witness :
  let ev :=
    EvService (Some writeRetryTimeout) (MysqlService_OfflineIsolatedInstances "cdb-8v2p1m3k")
      None in
  exists w' tr,
    run (Demo.cloud None ([Cases.withMetaDb], None)) None
      (resourceTencentCloudEmrClusterDelete Demo.package Cases.emrCreated Demo.meta) []
    = (Some (Cases.emrCreated, None), w', tr)
    /\ In ev tr
    /\ exists tr1 tr2,
         tr = tr1 ++ EvRetryEnd (TimesTimeout 10 readRetryTimeout) None :: tr2
         /\ In ev tr2
         /\ In (EvService None (EMRService_DeleteInstance Cases.emrCreated) None) tr1.
Proof.
  intros ev. do 2 eexists. split; [vm_compute; reflexivity|].
  assert (Hin : In ev
                  (snd (run (Demo.cloud None ([Cases.withMetaDb], None)) None
                          (resourceTencentCloudEmrClusterDelete Demo.package Cases.emrCreated
                             Demo.meta) []))).
  { vm_compute. repeat first [left; reflexivity | right]. }
  split; [exact Hin|].
  refine (proj2 (proj2 (proj2 (emr_delete_offlines_the_database_last
                                 (Demo.cloud None ([Cases.withMetaDb], None))
                                 Demo.package Demo.meta Cases.emrCreated [])
                          _ _ _ ev "cdb-8v2p1m3k" _ Hin eq_refl))).
  vm_compute. reflexivity.
Defined.


Lemma separator_breaks_the_id_witness :
  let id := "prom#1uv0zf9q#agent-7kpfmm5y" in
  separators id = 2
  /\ exists ev,
       run (Demo.cloud None ([], None)) None
         (resourceTencentCloudMonitorTmpCvmAgentCreate Demo.package Cases.monitorSeparated
            Demo.meta) []
       = (Some (SetId id Cases.monitorSeparated,
                Some (Errorf ("id is broken, id is " +:+ id))), [],
          [ev; EvRetryEnd writeRetryTimeout None]).
Proof.
  split; [vm_compute; reflexivity|].
  apply (proj1 (proj2 (proj2 (proj2 (separator_in_a_component_breaks_the_id
                                       Demo.package Demo.meta))))
           (Demo.cloud None ([], None)) Cases.monitorSeparated [] "agent-7kpfmm5y" []).
  - intros i n. reflexivity.
  - vm_compute. discriminate.
Defined.
